(** * The tool-runtime engine of the Python bridge

    A shallow embedding of [bridges/python/src/sdk/utils.py],
    [sdk/toolkit_config.py], [sdk/base_tool.py] and
    [sdk/tools/bash_tool.py]: the platform resolver, the toolkit
    configuration registry, the artifact store (binaries and resource
    bundles), the progress reporter, the command executor and the Bash
    tool built on it.

    Python [str] values are lists of Unicode code points.  Effects (the
    filesystem, the status sideband, the log channel, the network) are
    threaded through an explicit state-and-exception monad. *)

From Stdlib Require Import List ZArith NArith Bool Lia String Ascii.
From Stdlib Require Import DecimalString DecimalPos.
Import ListNotations.

Set Implicit Arguments.

(** ** Python strings *)

Module PyStr.

Definition char := N.
Definition str := list char.

(** A literal of the source, as code points. *)
Definition py (s : string) : str :=
  List.map N_of_ascii (list_ascii_of_string s).

Definition ch (a : ascii) : char := N_of_ascii a.

Definition char_eqb : char -> char -> bool := N.eqb.

Fixpoint eqb (a b : str) : bool :=
  match a, b with
  | [], [] => true
  | x :: a', y :: b' => char_eqb x y && eqb a' b'
  | _, _ => false
  end.

(** [c in s] for a one-character [c]. *)
Definition mem (c : char) (s : str) : bool := existsb (char_eqb c) s.

(** [s.startswith(p)] *)
Fixpoint startswith (s p : str) : bool :=
  match p, s with
  | [], _ => true
  | y :: p', x :: s' => char_eqb x y && startswith s' p'
  | _ :: _, [] => false
  end.

(** [s.endswith(p)] *)
Definition endswith (s p : str) : bool := startswith (rev s) (rev p).

(** [p in s] for a string [p]. *)
Fixpoint contains (s p : str) : bool :=
  startswith s p ||
  match s with
  | [] => false
  | _ :: s' => contains s' p
  end.

(** [s.replace(old, new)] for a non-empty [old]: leftmost, non-overlapping
    occurrences.  [skip] counts the characters of a matched occurrence that
    remain to be dropped. *)
Fixpoint replace_from (old new : str) (skip : nat) (s : str) : str :=
  match s with
  | [] => []
  | c :: s' =>
      match skip with
      | S k => replace_from old new k s'
      | O =>
          if startswith s old
          then new ++ replace_from old new (List.length old - 1) s'
          else c :: replace_from old new 0 s'
      end
  end.

Definition replace (s old new : str) : str := replace_from old new 0 s.

(** [sep.join(parts)] *)
Fixpoint join (sep : str) (parts : list str) : str :=
  match parts with
  | [] => []
  | [p] => p
  | p :: ps => p ++ sep ++ join sep ps
  end.

(** [s.split(c)[0]] for a one-character separator. *)
Fixpoint before (c : char) (s : str) : str :=
  match s with
  | [] => []
  | x :: s' => if char_eqb x c then [] else x :: before c s'
  end.

(** The part of [s] after the first [c], when [c] occurs. *)
Fixpoint after (c : char) (s : str) : option str :=
  match s with
  | [] => None
  | x :: s' => if char_eqb x c then Some s' else after c s'
  end.

Definition is_ascii (c : char) : bool := (c <? 128)%N.

Definition ascii_upper_letter (c : char) : bool :=
  ((65 <=? c) && (c <=? 90))%N.
Definition ascii_lower_letter (c : char) : bool :=
  ((97 <=? c) && (c <=? 122))%N.
Definition ascii_letter (c : char) : bool :=
  ascii_upper_letter c || ascii_lower_letter c.
Definition ascii_digit (c : char) : bool :=
  ((48 <=? c) && (c <=? 57))%N.

Definition ascii_lower (c : char) : char :=
  if ascii_upper_letter c then (c + 32)%N else c.

(** [str(n)] for an integer. *)
Definition of_Z (z : Z) : str := py (NilEmpty.string_of_int (Z.to_int z)).

End PyStr.

Import PyStr.

(** ** The parts of the Python runtime that depend on its Unicode tables

    On ASCII text the library functions used by the SDK are fixed; what they
    do on other code points depends on the Unicode database of the
    interpreter, and is left to the runtime. *)

Class PyRuntime : Type := {
  (** [s.lower()] for a string with a non-ASCII character *)
  unicode_lower : str -> str;
  (** [c.isspace()] for a non-ASCII character: the class [\s] of [re] *)
  unicode_isspace : char -> bool;
  (** [c.isdecimal()] for a non-ASCII character: the class [\d] of [re] *)
  unicode_isdecimal : char -> bool;
  (** the checks of [urlsplit] on a bracketed or non-ASCII network location
      ([_check_bracketed_netloc], [_checknetloc]): [true] raises
      [ValueError] *)
  netloc_rejected : str -> bool
}.

(** A runtime with empty tables: it agrees with CPython on ASCII text. *)
Definition ascii_runtime : PyRuntime := {|
  unicode_lower := fun s => s;
  unicode_isspace := fun _ => false;
  unicode_isdecimal := fun _ => false;
  netloc_rejected := fun _ => false
|}.

Section Unicode.
Context {RT : PyRuntime}.

(** [s.lower()] *)
Definition lower (s : str) : str :=
  if forallb is_ascii s then List.map ascii_lower s else unicode_lower s.

(** [\s]: on ASCII, [ \t\n\r\f\v] and the separators U+001C..U+001F. *)
Definition isspace (c : char) : bool :=
  if is_ascii c
  then ((9 <=? c) && (c <=? 13) || (28 <=? c) && (c <=? 32))%N
  else unicode_isspace c.

(** [\d] *)
Definition isdecimal (c : char) : bool :=
  if is_ascii c then ascii_digit c else unicode_isdecimal c.

End Unicode.

(** ** utils.py: the platform resolver *)

Module Utils.

(** What [platform.system()], [platform.machine()] and
    [platform.processor()] report. *)
Record host := {
  host_system : str;
  host_machine : str;
  host_processor : str
}.

Section Platform.
Context {RT : PyRuntime}.

Definition in_list (s : str) (l : list str) : bool := existsb (eqb s) l.

(** [get_platform_name] *)
Definition get_platform_name (h : host) : str :=
  let system := lower (host_system h) in
  let architecture := lower (host_machine h) in
  if eqb system (py "linux") then
    if in_list architecture [py "x86_64"; py "amd64"] then py "linux-x86_64"
    else if in_list architecture [py "aarch64"; py "arm64"]
    then py "linux-aarch64"
    else py "linux-x86_64"
  else if eqb system (py "darwin") then
    if in_list architecture [py "arm64"; py "aarch64"]
       || contains (lower (host_processor h)) (py "apple")
    then py "macosx-arm64"
    else py "macosx-x86_64"
  else if eqb system (py "windows") then py "win-amd64"
  else py "unknown".

Definition is_windows (h : host) : bool :=
  startswith (get_platform_name h) (py "win").

Definition is_macos (h : host) : bool :=
  startswith (get_platform_name h) (py "macosx").

Definition is_linux (h : host) : bool :=
  startswith (get_platform_name h) (py "linux").

End Platform.

(** The six platform tags. *)
Definition platform_tags : list str :=
  [py "linux-x86_64"; py "linux-aarch64"; py "macosx-x86_64";
   py "macosx-arm64"; py "win-amd64"; py "unknown"].

End Utils.

(** ** urllib.parse.urlparse

    The function of the standard library that the SDK calls on command
    arguments and on download URLs, after CPython's [urlsplit] and
    [urlparse].  [None] stands for a raised [ValueError]. *)

Module UrlParse.

Record parse_result := {
  scheme : str;
  netloc : str;
  path : str;
  params : str;
  query : str;
  fragment : str
}.

Section Parse.
Context {RT : PyRuntime}.

(** [url.lstrip(_WHATWG_C0_CONTROL_OR_SPACE)] *)
Fixpoint lstrip_c0 (url : str) : str :=
  match url with
  | c :: url' => if (c <=? 32)%N then lstrip_c0 url' else url
  | [] => []
  end.

(** Tab, carriage return and line feed are removed everywhere. *)
Definition unsafe_byte (c : char) : bool :=
  char_eqb c 9%N || char_eqb c 13%N || char_eqb c 10%N.

Definition remove_unsafe (url : str) : str :=
  filter (fun c => negb (unsafe_byte c)) url.

Definition scheme_char (c : char) : bool :=
  ascii_letter c || ascii_digit c
  || char_eqb c (ch "+") || char_eqb c (ch "-") || char_eqb c (ch ".").

(** The scheme and what follows its colon; an empty scheme and the whole
    text when the part before the first colon is not a scheme. *)
Definition split_scheme (url : str) : str * str :=
  match after (ch ":") url with
  | Some rest =>
      let tok := before (ch ":") url in
      match tok with
      | c0 :: _ =>
          if ascii_letter c0 && forallb scheme_char tok
          then (lower tok, rest)
          else ([], url)
      | [] => ([], url)
      end
  | None => ([], url)
  end.

Definition netloc_delim (c : char) : bool :=
  char_eqb c (ch "/") || char_eqb c (ch "?") || char_eqb c (ch "#").

(** [_splitnetloc(url, 2)] on the text after the two slashes. *)
Fixpoint splitnetloc (s : str) : str * str :=
  match s with
  | [] => ([], [])
  | c :: s' =>
      if netloc_delim c then ([], s)
      else let (n, r) := splitnetloc s' in (c :: n, r)
  end.

(** [s.split(c, 1)]: the text before the first [c], and the text after it
    (empty when [c] does not occur). *)
Definition split_once (c : char) (s : str) : str * str :=
  (before c s, match after c s with Some r => r | None => [] end).

Definition urlsplit (url0 : str) : option (str * str * str * str * str) :=
  let url := remove_unsafe (lstrip_c0 url0) in
  let (sch, url1) := split_scheme url in
  let located :=
    match url1 with
    | c1 :: c2 :: rest =>
        if char_eqb c1 (ch "/") && char_eqb c2 (ch "/") then
          let (nl, r) := splitnetloc rest in
          let lb := mem (ch "[") nl in
          let rb := mem (ch "]") nl in
          if xorb lb rb then None
          else if lb && rb && netloc_rejected nl then None
          else Some (nl, r)
        else Some ([], url1)
    | _ => Some ([], url1)
    end in
  match located with
  | None => None
  | Some (nl, url2) =>
      let (url3, frag) := split_once (ch "#") url2 in
      let (url4, qry) := split_once (ch "?") url3 in
      if negb (forallb is_ascii nl) && netloc_rejected nl then None
      else Some (sch, nl, url4, qry, frag)
  end.

Definition uses_params : list str :=
  [py ""; py "ftp"; py "hdl"; py "prospero"; py "http"; py "imap";
   py "https"; py "shttp"; py "rtsp"; py "rtspu"; py "sip"; py "sips";
   py "mms"; py "sftp"; py "tel"].

(** The text after the last slash: [posixpath.basename]. *)
Fixpoint last_segment (s : str) : str :=
  match s with
  | [] => []
  | _ :: s' => if mem (ch "/") s then last_segment s' else s
  end.

(** The text up to and including the last slash. *)
Fixpoint through_last_slash (s : str) : str :=
  match s with
  | [] => []
  | c :: s' => if mem (ch "/") s then c :: through_last_slash s' else []
  end.

(** [_splitparams]: the parameters of the last path segment. *)
Definition splitparams (url : str) : str * str :=
  let seg := last_segment url in
  if mem (ch ";") seg
  then (through_last_slash url ++ before (ch ";") seg,
        match after (ch ";") seg with Some r => r | None => [] end)
  else (url, []).

Definition urlparse (url : str) : option parse_result :=
  match urlsplit url with
  | None => None
  | Some (sch, nl, p, qry, frag) =>
      let (p', prm) :=
        if Utils.in_list sch uses_params && mem (ch ";") p
        then splitparams p else (p, []) in
      Some {| scheme := sch; netloc := nl; path := p'; params := prm;
              query := qry; fragment := frag |}
  end.

End Parse.
End UrlParse.

(** ** Exceptions, the filesystem and the effects of the SDK *)

Module Effects.

(** Python exceptions.  Every one of them is an instance of [Exception]:
    [except Exception] catches all three. *)
Inductive exn :=
| Exception (msg : str)
    (** [raise Exception(msg)], the only exception the SDK raises itself *)
| TimeoutExpired (timeout : Z) (msg : str)
    (** [subprocess.TimeoutExpired], with its [timeout] attribute *)
| LibraryError (cls : str) (msg : str)
    (** any other exception of a library: [ValueError], [OSError], ... *).

(** [str(e)] *)
Definition exn_str (e : exn) : str :=
  match e with
  | Exception m => m
  | TimeoutExpired _ m => m
  | LibraryError _ m => m
  end.

Inductive outcome (A : Type) :=
| Ok (a : A)
| Raise (e : exn).
Arguments Ok {A} a.
Arguments Raise {A} e.

(** An entry of the filesystem. *)
Record node := {
  n_dir : bool;
  n_size : N;
  n_mode : N
}.

(** The filesystem, keyed by the path strings the SDK builds. *)
Definition filesystem := list (str * node).

Fixpoint fs_lookup (p : str) (f : filesystem) : option node :=
  match f with
  | [] => None
  | (k, n) :: f' => if eqb k p then Some n else fs_lookup p f'
  end.

Definition fs_delete (p : str) (f : filesystem) : filesystem :=
  filter (fun kv => negb (eqb (fst kv) p)) f.

Definition fs_write (p : str) (n : node) (f : filesystem) : filesystem :=
  (p, n) :: fs_delete p f.

(** [os.path.exists(p)] *)
Definition fs_exists (p : str) (f : filesystem) : bool :=
  match fs_lookup p f with Some _ => true | None => false end.

(** [not os.path.exists(p) or os.path.getsize(p) == 0] *)
Definition missing_or_empty (p : str) (f : filesystem) : bool :=
  match fs_lookup p f with
  | Some n => (n_size n =? 0)%N
  | None => true
  end.

(** What the SDK does to the outside world, newest first in [w_events]. *)
Inductive event :=
| Report (key : str) (data : list (str * str)) (group : option str)
    (** [leon.answer]: one structured status event *)
| Log (line : str)
    (** one line of the log channel *)
| Makedirs (p : str)
| Chmod (p : str) (mode : N)
| Remove (p : str)
| Transfer (url dest : str)
    (** [Pypdl().start]: one network transfer *)
| Probe (url : str)
    (** the reachability request of [can_access_hugging_face] *)
| Spawn (argv : list str)
    (** a child process *).

Definition is_transfer (e : event) : bool :=
  match e with Transfer _ _ => true | _ => false end.

Definition is_makedirs (e : event) : bool :=
  match e with Makedirs _ => true | _ => false end.

(** One observation of a download by the progress loop: the integer percent
    and the clock it reads in one iteration, and the speed, ETA and size
    suffix of its line (formatted from floating-point readings). *)
Record sample := {
  s_progress : Z;
  s_time : Z;
  s_details : str
}.

(** What one transfer does: the exception [start] raises, if any; the size
    of the file it leaves at the destination ([None]: it writes nothing);
    the observations of the progress loop while the transfer runs; and the
    failure flag at its end. *)
Record transfer := {
  tr_error : option exn;
  tr_written : option N;
  tr_samples : list sample;
  tr_failed : bool
}.

(** How a command run through the shell ends. *)
Inductive process :=
| Exits (after_ms : Z) (returncode : Z) (stdout stderr : str)
| FailsToLaunch (cls msg : str)
    (** the shell cannot be started: an [OSError] or the like *).

(** A parsed tool entry of [toolkit.json]. *)
Inductive resource_value :=
| UrlList (urls : list str)
| NotAList.

Record tool_config := {
  cfg_description : option str;
  cfg_binaries : option (list (str * str));
  cfg_resources : option (list (str * resource_value))
}.

Record toolkit_doc := {
  doc_name : option str;
  doc_tools : option (list (str * tool_config))
}.

(** What opening and parsing a [toolkit.json] gives. *)
Inductive document :=
| Parsed (d : toolkit_doc)
| NotFoundOrInvalid (msg : str)
    (** [FileNotFoundError] or [json.JSONDecodeError] *)
| Unreadable (e : exn)
    (** any other failure of [open] or [json.load] *).

(** The mutable state: the filesystem, the class-level configuration cache,
    the events so far and the number of interactions with the outside. *)
Record world := {
  w_fs : filesystem;
  w_cache : list (str * toolkit_doc);
  w_events : list event;
  w_tick : nat
}.

(** The outside world, as a function of the interaction count. *)
Record env := {
  e_host : Utils.host;
  e_cwd : str;
  e_toolkits_path : str;
  e_document : str -> document;
  e_transfer : nat -> str -> str -> transfer;
  e_hf_reachable : nat -> bool;
  e_xattr : nat -> outcome Z;
  e_clock : nat -> Z;
  e_process : nat -> str -> process
}.

(** The state-and-exception monad. *)
Definition M (A : Type) : Type := world -> outcome A * world.

Definition ret {A} (a : A) : M A := fun w => (Ok a, w).

Definition bind {A B} (m : M A) (k : A -> M B) : M B :=
  fun w =>
    match m w with
    | (Ok a, w') => k a w'
    | (Raise e, w') => (Raise e, w')
    end.

Definition raise {A} (e : exn) : M A := fun w => (Raise e, w).

(** [try: m except Exception as e: h e] *)
Definition try_except {A} (m : M A) (h : exn -> M A) : M A :=
  fun w =>
    match m w with
    | (Ok a, w') => (Ok a, w')
    | (Raise e, w') => h e w'
    end.

Definition get : M world := fun w => (Ok w, w).

Definition emit (e : event) : M unit :=
  fun w => (Ok tt, {| w_fs := w_fs w; w_cache := w_cache w;
                      w_events := e :: w_events w; w_tick := w_tick w |}).

Definition set_fs (f : filesystem) : M unit :=
  fun w => (Ok tt, {| w_fs := f; w_cache := w_cache w;
                      w_events := w_events w; w_tick := w_tick w |}).

Definition set_cache (c : list (str * toolkit_doc)) : M unit :=
  fun w => (Ok tt, {| w_fs := w_fs w; w_cache := c;
                      w_events := w_events w; w_tick := w_tick w |}).

(** One interaction with the outside: its index. *)
Definition next_tick : M nat :=
  fun w => (Ok (w_tick w),
            {| w_fs := w_fs w; w_cache := w_cache w;
               w_events := w_events w; w_tick := S (w_tick w) |}).

Definition when (b : bool) (m : M unit) : M unit :=
  if b then m else ret tt.

(** A [for] loop with early exit by exception. *)
Fixpoint for_each {A} (l : list A) (body : A -> M unit) : M unit :=
  match l with
  | [] => ret tt
  | x :: l' => bind (body x) (fun _ => for_each l' body)
  end.

(** The number of network transfers among the events. *)
Definition transfers (w : world) : nat :=
  List.length (filter is_transfer (w_events w)).

End Effects.

Import Effects.

Declare Scope monad_scope.
Delimit Scope monad_scope with monad.
Notation "x <- m ;; k" := (bind m (fun x => k))
  (at level 61, m at next level, right associativity) : monad_scope.
Notation "m ;; k" := (bind m (fun _ => k))
  (at level 61, right associativity) : monad_scope.
Open Scope monad_scope.

(** ** os.path

    [posixpath], and [ntpath] on a Windows host.  Drive letters and UNC
    prefixes of [ntpath] are not modelled: the SDK joins a root directory
    with file names. *)

Module OsPath.
Section Flavour.
Variable nt : bool.

Definition is_sep (c : char) : bool :=
  char_eqb c (ch "/") || (nt && char_eqb c (ch "\")).

Definition sep : char := if nt then ch "\" else ch "/".

Definition ends_with_sep (a : str) : bool :=
  match rev a with
  | c :: _ => is_sep c
  | [] => false
  end.

(** The directory part of a joined path, with its separator. *)
Definition dir_prefix (a : str) : str :=
  match a with
  | [] => []
  | _ :: _ => if ends_with_sep a then a else a ++ [sep]
  end.

(** [os.path.join(a, b)] *)
Definition join (a b : str) : str :=
  match b with
  | c :: _ => if is_sep c then b else dir_prefix a ++ b
  | [] => dir_prefix a ++ b
  end.

(** [os.path.basename(p)] *)
Fixpoint basename (p : str) : str :=
  match p with
  | [] => []
  | _ :: p' => if existsb is_sep p then basename p' else p
  end.

Fixpoint through_last_sep (p : str) : str :=
  match p with
  | [] => []
  | c :: p' => if existsb is_sep p then c :: through_last_sep p' else []
  end.

Fixpoint lstrip_seps (p : str) : str :=
  match p with
  | c :: p' => if is_sep c then lstrip_seps p' else p
  | [] => []
  end.

(** [os.path.dirname(p)] *)
Definition dirname (p : str) : str :=
  let head := through_last_sep p in
  if forallb is_sep head then head else rev (lstrip_seps (rev head)).

(** A name that [os.listdir] can return: not empty, no separator. *)
Definition is_name (n : str) : bool :=
  match n with
  | [] => false
  | _ :: _ => negb (existsb is_sep n)
  end.

(** [p] without the prefix [pre], when it starts with it. *)
Fixpoint strip_prefix (pre p : str) : option str :=
  match pre, p with
  | [], _ => Some p
  | x :: pre', y :: p' =>
      if char_eqb x y then strip_prefix pre' p' else None
  | _ :: _, [] => None
  end.

(** The entries of directory [d]: the names [n] with [join d n] in the
    filesystem, each once. *)
Fixpoint entries (d : str) (f : filesystem) : list str :=
  match f with
  | [] => []
  | (k, _) :: f' =>
      let rest := entries d f' in
      match strip_prefix (dir_prefix d) k with
      | Some n =>
          if is_name n && negb (existsb (eqb n) rest)
          then n :: rest else rest
      | None => rest
      end
  end.

(** The ancestors of [p] that [os.makedirs] creates with it: the prefixes
    of [p] that end in a name, before a separator. *)
Fixpoint ancestors (seen p : str) : list str :=
  match p with
  | [] => []
  | c :: p' =>
      if is_sep c && negb (ends_with_sep seen)
         && negb (forallb is_sep seen)
      then seen :: ancestors (seen ++ [c]) p'
      else ancestors (seen ++ [c]) p'
  end.

End Flavour.
End OsPath.

(** ** toolkit_config.py *)

Module ToolkitConfig.

(** [d.get(k)] *)
Fixpoint dict_get {V : Type} (k : str) (d : list (str * V)) : option V :=
  match d with
  | [] => None
  | (k', v) :: d' => if eqb k' k then Some v else dict_get k d'
  end.

(** [not tool_config] for a present entry: the empty object. *)
Definition config_is_empty (c : tool_config) : bool :=
  match cfg_description c, cfg_binaries c, cfg_resources c with
  | None, None, None => true
  | _, _, _ => false
  end.

Section Registry.
Context {RT : PyRuntime}.
Variable E : env.

Definition nt : bool := Utils.is_windows (e_host E).

Definition config_path (toolkit_name : str) : str :=
  OsPath.join nt
    (OsPath.join nt
       (OsPath.join nt (OsPath.join nt (e_cwd E) (py "bridges"))
          (py "toolkits"))
       toolkit_name)
    (py "toolkit.json").

(** [ToolkitConfig.load] *)
Definition load (toolkit_name tool_name : str) : M tool_config :=
  let cache_key := toolkit_name in
  w <- get ;;
  toolkit_config <-
    match dict_get cache_key (w_cache w) with
    | Some d => ret d
    | None =>
        match e_document E (config_path toolkit_name) with
        | Parsed d =>
            set_cache ((cache_key, d) :: w_cache w) ;; ret d
        | NotFoundOrInvalid msg =>
            raise (Exception
                     (py "Failed to load toolkit config from '"
                      ++ config_path toolkit_name ++ py "': " ++ msg))
        | Unreadable e => raise e
        end
    end ;;
  let tools_config :=
    match doc_tools toolkit_config with Some t => t | None => [] end in
  let not_found :=
    let toolkit_name_display :=
      match doc_name toolkit_config with
      | Some n => n
      | None => py "unknown"
      end in
    raise (Exception (py "Tool '" ++ tool_name
                      ++ py "' not found in toolkit '"
                      ++ toolkit_name_display ++ py "'")) in
  match dict_get tool_name tools_config with
  | Some tool_config =>
      if config_is_empty tool_config then not_found else ret tool_config
  | None => not_found
  end.

(** [ToolkitConfig.get_binary_url] *)
Definition get_binary_url (config : tool_config) : option str :=
  let platform_name := Utils.get_platform_name (e_host E) in
  let binaries :=
    match cfg_binaries config with Some b => b | None => [] end in
  dict_get platform_name binaries.

End Registry.
End ToolkitConfig.

(** ** The progress reporter: the loop of [_handle_download_progress] *)

Module Progress.

Definition LOG_INTERVAL_MS : Z := 2000.
Definition PERCENTAGE_THRESHOLD : Z := 5.

(** [should_log] *)
Definition should_log (current_progress current_time
                       last_logged_percentage last_log_time : Z) : bool :=
  (last_logged_percentage + PERCENTAGE_THRESHOLD <=? current_progress)%Z
  || (LOG_INTERVAL_MS <=? current_time - last_log_time)%Z
  || (current_progress =? 100)%Z.

(** [progress_line] *)
Definition progress_line (file_name : str) (s : sample) : str :=
  py "Downloading " ++ file_name ++ py ": " ++ of_Z (s_progress s)
  ++ py "%" ++ s_details s.

Definition completion_line (file_name : str) : str :=
  py "Download completed: " ++ file_name.

(** The body of the loop on the observations of its iterations, from the
    last logged percent and time: the observations it logs. *)
Fixpoint logged (samples : list sample)
         (last_logged_percentage last_log_time : Z) : list sample :=
  match samples with
  | [] => []
  | s :: rest =>
      if should_log (s_progress s) (s_time s)
                    last_logged_percentage last_log_time
      then s :: logged rest (s_progress s) (s_time s)
      else logged rest last_logged_percentage last_log_time
  end.

(** The lines it writes. *)
Definition log_lines (file_name : str) (samples : list sample)
           (last_logged_percentage last_log_time : Z) : list str :=
  List.map (progress_line file_name)
           (logged samples last_logged_percentage last_log_time).

(** [(last_logged_percentage, last_log_time)] after the iterations on
    [samples]. *)
Fixpoint last_logged (samples : list sample)
         (last_logged_percentage last_log_time : Z) : Z * Z :=
  match samples with
  | [] => (last_logged_percentage, last_log_time)
  | s :: rest =>
      if should_log (s_progress s) (s_time s)
                    last_logged_percentage last_log_time
      then last_logged rest (s_progress s) (s_time s)
      else last_logged rest last_logged_percentage last_log_time
  end.

(** The live state of a download as the loop reads it in its [i]-th
    iteration: [dl.progress] and [dl.Failed] at the loop test, and what the
    body reads after a passed test. *)
Record reading := {
  r_progress : Z;
  r_failed : bool;
  r_sample : sample
}.

Definition handle := nat -> reading.

(** [while dl.progress < 100 and not dl.Failed] *)
Definition running (r : reading) : bool :=
  (r_progress r <? 100)%Z && negb (r_failed r).

(** The loop from its [i]-th iteration, at most [fuel] iterations: the lines
    logged and the iteration at which the test fails; [None] when the loop
    is still running after [fuel] iterations. *)
Fixpoint poll (fuel : nat) (file_name : str) (dl : handle) (i : nat)
         (last_logged_percentage last_log_time : Z)
  : option (list str * nat) :=
  match fuel with
  | O => None
  | S fuel' =>
      if running (dl i) then
        let s := r_sample (dl i) in
        if should_log (s_progress s) (s_time s)
                      last_logged_percentage last_log_time
        then
          match poll fuel' file_name dl (S i) (s_progress s) (s_time s) with
          | Some (lines, k) => Some (progress_line file_name s :: lines, k)
          | None => None
          end
        else
          poll fuel' file_name dl (S i)
               last_logged_percentage last_log_time
      else Some ([], i)
  end.

(** [_handle_download_progress] on a live state: the lines written to the
    log channel and how the call ends. *)
Definition _handle_download_progress (fuel : nat) (dl : handle)
           (file_name : str) : option (list str * outcome unit) :=
  match poll fuel file_name dl 0 (-1) 0 with
  | None => None
  | Some (lines, k) =>
      Some (lines ++ [completion_line file_name],
            if r_failed (dl k)
            then Raise (Exception (py "Download failed"))
            else Ok tt)
  end.

(** The [k] observations of a live state from its [i]-th. *)
Definition observed (dl : handle) (i k : nat) : list sample :=
  List.map (fun j => r_sample (dl j)) (seq i k).

(** A download that advances by one percent every 50 ms, read every
    [period] ms from the time [t0]. *)
Definition steady (t0 period : Z) : handle :=
  fun i =>
    let elapsed := (period * Z.of_nat i)%Z in
    let percent := Z.min 100 (elapsed / 50)%Z in
    {| r_progress := percent;
       r_failed := false;
       r_sample := {| s_progress := percent; s_time := (t0 + elapsed)%Z;
                      s_details := [] |} |}.

End Progress.

(** ** The versioned file names of binaries *)

Module VersionedName.
Section Pattern.
Context {RT : PyRuntime}.
Variable R : Type.

(** [.] does not match a line feed. *)
Definition dot (c : char) : bool := negb (char_eqb c 10%N).

(** [.*?] followed by [k]: the shortest match first. *)
Fixpoint dot_star_lazy (k : str -> str -> option R) (acc s : str)
  : option R :=
  match k acc s with
  | Some r => Some r
  | None =>
      match s with
      | c :: s' => if dot c then dot_star_lazy k (acc ++ [c]) s' else None
      | [] => None
      end
  end.

(** [.+?] followed by [k] *)
Definition dot_plus_lazy (k : str -> str -> option R) (s : str)
  : option R :=
  match s with
  | c :: s' => if dot c then dot_star_lazy k [c] s' else None
  | [] => None
  end.

(** [\d*] followed by [k]: the longest match first. *)
Fixpoint digits_star (k : str -> str -> option R) (acc s : str)
  : option R :=
  match s with
  | c :: s' =>
      if isdecimal c then
        match digits_star k (acc ++ [c]) s' with
        | Some r => Some r
        | None => k acc s
        end
      else k acc s
  | [] => k acc s
  end.

(** [\d+] followed by [k] *)
Definition digits_plus (k : str -> str -> option R) (s : str) : option R :=
  match s with
  | c :: s' => if isdecimal c then digits_star k [c] s' else None
  | [] => None
  end.

(** A literal character followed by [k]. *)
Definition lit (c : char) (k : str -> option R) (s : str) : option R :=
  match s with
  | x :: s' => if char_eqb x c then k s' else None
  | [] => None
  end.

End Pattern.

Section Parse.
Context {RT : PyRuntime}.

(** [$]: the end of the text, or just before its final line feed. *)
Definition at_end (s : str) : bool :=
  match s with
  | [] => true
  | [c] => char_eqb c 10%N
  | _ => false
  end.

(** [(?:\.exe)?$] *)
Definition exe_end (s : str) : bool :=
  match OsPath.strip_prefix (py ".exe") s with
  | Some r => at_end r || at_end s
  | None => at_end s
  end.

(** [re.match(r'^(.+?)_(\d+\.\d+\.\d+)-(.*?)(?:\.exe)?$', name)]: the groups
    [(base_name, version, platform)] of the match. *)
Definition parse (name : str) : option (str * str * str) :=
  dot_plus_lazy (fun base r0 =>
    lit (ch "_") (fun r1 =>
      digits_plus (fun major r2 =>
        lit (ch ".") (fun r3 =>
          digits_plus (fun minor r4 =>
            lit (ch ".") (fun r5 =>
              digits_plus (fun patch r6 =>
                lit (ch "-") (fun r7 =>
                  dot_star_lazy (fun platform r8 =>
                    if exe_end r8
                    then Some (base,
                               major ++ py "." ++ minor ++ py "." ++ patch,
                               platform)
                    else None) [] r7) r6) r5) r4) r3) r2) r1) r0) name.

(** The test of the pruning loop: same base name, same platform, another
    version. *)
Definition superseded (new_executable file : str) : bool :=
  match parse new_executable, parse file with
  | Some (binary_base_name, new_version, platform),
    Some (file_base_name, file_version, file_platform) =>
      eqb file_base_name binary_base_name
      && eqb file_platform platform
      && negb (eqb file_version new_version)
  | _, _ => false
  end.

End Parse.
End VersionedName.

(** ** base_tool.py *)

Module BaseTool.

(** The options of a command that the executor reads. *)
Record exec_options := {
  opt_sync : option bool;
  opt_timeout : option Z;
  opt_cwd : option str
}.

Section Tool.
Context {RT : PyRuntime}.
Variable E : env.
(** [self.toolkit], [self.tool_name] and [self.cli_progress] *)
Variable toolkit : str.
Variable tool_name : str.
Variable cli_progress : bool.

Definition is_windows : bool := Utils.is_windows (e_host E).
Definition is_macos : bool := Utils.is_macos (e_host E).

Definition path_join : str -> str -> str := OsPath.join is_windows.

(** [report] *)
Definition report (key : string) (data : list (str * str))
           (tool_group_id : option str) : M unit :=
  emit (Report (py key) data tool_group_id).

(** One field of the data of a status event. *)
Definition field (name : string) (value : str) : str * str :=
  (py name, value).

(** [log] *)
Definition log (message : str) : M unit :=
  emit (Log (py "[LEON_TOOL_LOG] " ++ message)).

(** [time.time()], in milliseconds *)
Definition now_ms : M Z :=
  t <- next_tick ;; ret (e_clock E t).

(** *** The filesystem calls *)

Definition new_dir : node := {| n_dir := true; n_size := 4096; n_mode := 493 |}.

Definition add_dir (f : filesystem) (p : str) : filesystem :=
  if fs_exists p f then f else fs_write p new_dir f.

(** [os.path.exists] *)
Definition path_exists (p : str) : M bool :=
  w <- get ;; ret (fs_exists p (w_fs w)).

(** [os.makedirs(p, exist_ok=True)] *)
Definition makedirs (p : str) : M unit :=
  emit (Makedirs p) ;;
  w <- get ;;
  set_fs (fold_left add_dir (OsPath.ancestors is_windows [] p ++ [p])
                    (w_fs w)).

(** [os.chmod(p, mode)] *)
Definition chmod (p : str) (mode : N) : M unit :=
  emit (Chmod p mode) ;;
  w <- get ;;
  match fs_lookup p (w_fs w) with
  | Some n =>
      set_fs (fs_write p {| n_dir := n_dir n; n_size := n_size n;
                            n_mode := mode |} (w_fs w))
  | None => raise (LibraryError (py "FileNotFoundError") p)
  end.

(** [os.remove(p)] *)
Definition remove (p : str) : M unit :=
  emit (Remove p) ;;
  w <- get ;;
  match fs_lookup p (w_fs w) with
  | Some n =>
      if n_dir n then raise (LibraryError (py "IsADirectoryError") p)
      else set_fs (fs_delete p (w_fs w))
  | None => raise (LibraryError (py "FileNotFoundError") p)
  end.

(** [os.listdir(d)] *)
Definition listdir (d : str) : M (list str) :=
  w <- get ;;
  match fs_lookup d (w_fs w) with
  | Some n =>
      if n_dir n then ret (OsPath.entries is_windows d (w_fs w))
      else raise (LibraryError (py "NotADirectoryError") d)
  | None => raise (LibraryError (py "FileNotFoundError") d)
  end.

(** [Pypdl().start(url=url, file_path=dest, ...)] *)
Definition start_transfer (url dest : str) : M transfer :=
  t <- next_tick ;;
  let tr := e_transfer E t url dest in
  emit (Transfer url dest) ;;
  w <- get ;;
  match tr_written tr with
  | Some size =>
      set_fs (fs_write dest {| n_dir := false; n_size := size;
                               n_mode := 420 |} (w_fs w))
  | None => ret tt
  end ;;
  match tr_error tr with
  | Some e => raise e
  | None => ret tr
  end.

(** *** Shell arguments *)

Definition dquote : char := 34%N.
Definition backslash : char := 92%N.

(** The character class of the substitution: the double quote, [\s], and
    the punctuation listed below. *)
Definition posix_special (c : char) : bool :=
  char_eqb c dquote || isspace c
  || mem c (py "'$`\(){}[]|&;<>*?!").

(** [_escape_shell_arg] *)
Definition _escape_shell_arg (arg : str) : str :=
  let escaped :=
    if is_windows then
      if mem (ch " ") arg || mem dquote arg
         || mem (ch "&") arg || mem (ch "|") arg
      then [dquote] ++ replace arg [dquote] [backslash; dquote] ++ [dquote]
      else arg
    else
      flat_map (fun c => if posix_special c then [backslash; c] else [c])
               arg in
  match UrlParse.urlparse arg with
  | Some parsed =>
      match UrlParse.scheme parsed with
      | _ :: _ => arg
      | [] => escaped
      end
  | None => escaped
  end.

(** The command line of [execute_command]. *)
Definition command_string (binary_path : str) (args : list str) : str :=
  [dquote] ++ binary_path ++ [dquote] ++ py " "
  ++ join (py " ") (List.map _escape_shell_arg args).

(** *** Synchronous execution *)

(** [subprocess.run(command_string, shell=True, timeout=..., cwd=...)]:
    the exit code, the standard output and the standard error. *)
Definition subprocess_run (command : str) (timeout : option Z)
  : M (Z * str * str) :=
  t <- next_tick ;;
  emit (Spawn [command]) ;;
  match e_process E t command with
  | FailsToLaunch cls msg => raise (LibraryError cls msg)
  | Exits after_ms returncode stdout stderr =>
      match timeout with
      | Some seconds =>
          if (seconds * 1000 <? after_ms)%Z
          then raise (TimeoutExpired seconds
                        (py "Command '" ++ command ++ py "' timed out after "
                         ++ of_Z seconds ++ py " seconds"))
          else ret (returncode, stdout, stderr)
      | None => ret (returncode, stdout, stderr)
      end
  end.

(** [_execute_sync_command] *)
Definition _execute_sync_command (command_string : str)
           (exec_options : exec_options) (tool_group_id : option str)
  : M str :=
  try_except
    (start_time <- now_ms ;;
     result <- subprocess_run command_string (opt_timeout exec_options) ;;
     let '(returncode, stdout, stderr) := result in
     end_time <- now_ms ;;
     let execution_time := (end_time - start_time)%Z in
     if (returncode =? 0)%Z then
       report "bridges.tools.command_completed"
              [field "command" command_string;
               field "execution_time" (of_Z execution_time ++ py "ms")]
              tool_group_id ;;
       ret stdout
     else
       report "bridges.tools.command_failed"
              [field "command" command_string;
               field "error" (match stderr with
                         | [] => py "Unknown error"
                         | _ :: _ => stderr
                         end);
               field "exit_code" (of_Z returncode);
               field "execution_time" (of_Z execution_time ++ py "ms")]
              tool_group_id ;;
       raise (Exception (py "Command failed with exit code "
                         ++ of_Z returncode ++ py ": " ++ stderr)))
    (fun e =>
       match e with
       | TimeoutExpired timeout _ =>
           report "bridges.tools.command_timeout"
                  [field "command" command_string;
                   field "timeout" (if (timeout =? 0)%Z then py "unknown"
                               else of_Z timeout ++ py "s")]
                  tool_group_id ;;
           raise (Exception (py "Command timed out after "
                             ++ of_Z timeout ++ py "s"))
       | _ =>
           report "bridges.tools.command_error"
                  [field "command" command_string; field "error" (exn_str e)]
                  tool_group_id ;;
           raise e
       end).

(** *** Downloads *)

(** [_handle_download_progress] for a transfer that ends *)
Definition _handle_download_progress (dl : transfer) (file_name : str)
  : M unit :=
  for_each (Progress.log_lines file_name (tr_samples dl) (-1) 0) log ;;
  log (Progress.completion_line file_name) ;;
  if tr_failed dl then raise (Exception (py "Download failed"))
  else ret tt.

(** [_download_binary] *)
Definition _download_binary (url output_path : str) : M unit :=
  try_except
    (report "bridges.tools.downloading_from_url" [] None ;;
     let file_dir := OsPath.dirname is_windows output_path in
     dir_exists <- path_exists file_dir ;;
     when (negb dir_exists) (makedirs file_dir) ;;
     dl <- start_transfer url output_path ;;
     when cli_progress
          (_handle_download_progress
             dl (OsPath.basename is_windows output_path)) ;;
     w <- get ;;
     if missing_or_empty output_path (w_fs w)
     then raise (Exception
                   (py "Downloaded binary is empty or was not created properly"))
     else ret tt)
    (fun e =>
       report "bridges.tools.download_url_failed"
              [field "error" (exn_str e)] None ;;
       raise (Exception (py "Failed to download binary: " ++ exn_str e))).

(** [_remove_quarantine_attribute] *)
Definition _remove_quarantine_attribute (file_path : str) : M unit :=
  let file_name := OsPath.basename is_windows file_path in
  t <- next_tick ;;
  emit (Spawn [py "xattr"; py "-d"; py "com.apple.quarantine"; file_path]) ;;
  match e_xattr E t with
  | Ok returncode =>
      if (returncode =? 0)%Z then
        report "bridges.tools.quarantine_removed"
               [field "file_name" file_name] None
      else
        report "bridges.tools.quarantine_warning"
               [field "file_name" file_name;
                field "exit_code" (of_Z returncode)] None
  | Raise e =>
      report "bridges.tools.quarantine_exception"
             [field "file_name" file_name; field "error" (exn_str e)] None
  end.

(** The [try] block of [_delete_older_binary_versions]. *)
Definition prune_versions (bins_path new_executable : str) : M unit :=
  match VersionedName.parse new_executable with
  | None => ret tt
  | Some (binary_base_name, new_version, platform) =>
      bins_exists <- path_exists bins_path ;;
      if negb bins_exists then ret tt
      else
        files <- listdir bins_path ;;
        for_each files (fun file =>
          match VersionedName.parse file with
          | None => ret tt
          | Some (file_base_name, file_version, file_platform) =>
              if eqb file_base_name binary_base_name
                 && eqb file_platform platform
                 && negb (eqb file_version new_version)
              then
                let old_binary_path := path_join bins_path file in
                report "bridges.tools.deleting_old_version"
                       [field "old_version" file;
                        field "new_version" new_executable] None ;;
                remove old_binary_path ;;
                report "bridges.tools.old_version_deleted"
                       [field "deleted_file" file] None
              else ret tt
          end)
  end.

(** One iteration of the loop of [prune_versions], by the test
    [VersionedName.superseded]. *)
Definition prune_one (bins_path new_executable file : str) : M unit :=
  if VersionedName.superseded new_executable file
  then
    report "bridges.tools.deleting_old_version"
           [field "old_version" file;
            field "new_version" new_executable] None ;;
    remove (path_join bins_path file) ;;
    report "bridges.tools.old_version_deleted"
           [field "deleted_file" file] None
  else ret tt.

(** What pruning may delete: the superseded entries of the directory. *)
Definition prunable (bins_path new_executable : str) (q : str) : Prop :=
  exists file,
    OsPath.is_name is_windows file = true
    /\ VersionedName.superseded new_executable file = true
    /\ q = path_join bins_path file.

(** [_delete_older_binary_versions] *)
Definition _delete_older_binary_versions (bins_path new_executable : str)
  : M unit :=
  try_except
    (prune_versions bins_path new_executable)
    (fun e =>
       report "bridges.tools.cleanup_warning"
              [field "error" (exn_str e)] None).

Definition bins_path : str :=
  path_join (path_join (e_toolkits_path E) toolkit) (py "bins").

(** [_download_binary_on_demand] *)
Definition _download_binary_on_demand (binary_name binary_url executable : str)
  : M unit :=
  try_except
    (let binary_path := path_join bins_path executable in
     report "bridges.tools.binary_not_found"
            [field "binary_name" binary_name] None ;;
     _download_binary binary_url binary_path ;;
     report "bridges.tools.binary_downloaded"
            [field "binary_name" binary_name] None ;;
     _delete_older_binary_versions bins_path executable ;;
     when (negb is_windows)
          (report "bridges.tools.making_executable"
                  [field "binary_name" binary_name] None ;;
           chmod binary_path 493) ;;
     when is_macos
          (report "bridges.tools.removing_quarantine"
                  [field "binary_name" binary_name] None ;;
           _remove_quarantine_attribute binary_path))
    (fun e =>
       report "bridges.tools.download_failed"
              [field "binary_name" binary_name;
               field "error" (exn_str e)] None ;;
       raise (Exception (py "Failed to download binary '" ++ binary_name
                         ++ py "': " ++ exn_str e))).

(** [self.tool_name.lower().replace('tool', '')] *)
Definition tool_config_name : str :=
  replace (lower tool_name) (py "tool") (py "").

(** The file name of the binary on disk, from its URL; [None] when
    [urlparse] raises. *)
Definition executable_of (binary_url : str) : option str :=
  match UrlParse.urlparse binary_url with
  | None => None
  | Some parsed_url =>
      let actual_filename :=
        OsPath.basename is_windows (UrlParse.path parsed_url) in
      Some (if is_windows && negb (endswith actual_filename (py ".exe"))
            then actual_filename ++ py ".exe"
            else actual_filename)
  end.

Definition value_error : exn :=
  LibraryError (py "ValueError") (py "Invalid URL").

(** [get_binary_path] *)
Definition get_binary_path (binary_name : str) (skip_binary_download : bool)
  : M str :=
  if skip_binary_download then ret binary_name
  else
    config <- ToolkitConfig.load E toolkit tool_config_name ;;
    let binary_url := ToolkitConfig.get_binary_url E config in
    report "bridges.tools.checking_binary"
           [field "binary_name" binary_name] None ;;
    match binary_url with
    | None | Some [] =>
        report "bridges.tools.no_binary_url"
               [field "binary_name" binary_name] None ;;
        raise (Exception (py "No download URL found for binary '"
                          ++ binary_name ++ py "'"))
    | Some binary_url =>
        match executable_of binary_url with
        | None => raise value_error
        | Some executable =>
            bins_exists <- path_exists bins_path ;;
            when (negb bins_exists)
                 (report "bridges.tools.creating_bins_directory"
                         [field "toolkit" toolkit] None ;;
                  makedirs bins_path) ;;
            let binary_path := path_join bins_path executable in
            binary_exists <- path_exists binary_path ;;
            when (negb binary_exists)
                 (_download_binary_on_demand
                    binary_name binary_url executable) ;;
            when (negb is_windows)
                 (report "bridges.tools.applying_permissions"
                         [field "binary_name" binary_name] None ;;
                  chmod binary_path 493) ;;
            report "bridges.tools.binary_ready"
                   [field "binary_name" binary_name] None ;;
            ret binary_path
        end
    end.

(** *** Resource bundles *)

Definition HUGGING_FACE_URL : str := py "https://huggingface.co".
Definition HUGGING_FACE_MIRROR_URL : str := py "https://hf-mirror.com".

(** [can_access_hugging_face] *)
Definition can_access_hugging_face : M bool :=
  t <- next_tick ;;
  emit (Probe HUGGING_FACE_URL) ;;
  ret (e_hf_reachable E t).

(** [set_hugging_face_url] *)
Definition set_hugging_face_url (url : str) : M str :=
  if negb (contains url (py "huggingface.co")) then ret url
  else
    can_access <- can_access_hugging_face ;;
    if negb can_access
    then ret (replace url HUGGING_FACE_URL HUGGING_FACE_MIRROR_URL)
    else ret url.

(** [format_file_path] *)
Definition format_file_path (file_path : str) : str :=
  py "[FILE_PATH]" ++ file_path ++ py "[/FILE_PATH]".

(** [os.path.basename(urlparse(url).path).split('?')[0]]; [None] when
    [urlparse] raises. *)
Definition resource_file_name (url : str) : option str :=
  match UrlParse.urlparse url with
  | None => None
  | Some parsed_url =>
      Some (before (ch "?")
                   (OsPath.basename is_windows (UrlParse.path parsed_url)))
  end.

(** [_is_resource_complete] *)
Fixpoint _is_resource_complete (resource_path : str)
         (resource_urls : list str) : M bool :=
  match resource_urls with
  | [] => ret true
  | resource_url :: rest =>
      match resource_file_name resource_url with
      | None => raise value_error
      | Some file_name =>
          let file_path := path_join resource_path file_name in
          w <- get ;;
          if missing_or_empty file_path (w_fs w) then ret false
          else _is_resource_complete resource_path rest
      end
  end.

(** The body of the download loop of [get_resource_path]. *)
Definition download_resource_file (resource_name resource_path : str)
           (resource_url : str) : M unit :=
  adjusted_url <- set_hugging_face_url resource_url ;;
  match resource_file_name adjusted_url with
  | None => raise value_error
  | Some file_name =>
      let file_path := path_join resource_path file_name in
      report "bridges.tools.downloading_resource_file"
             [field "resource_name" resource_name;
              field "file_name" file_name;
              field "url" adjusted_url] None ;;
      try_except
        (let file_dir := OsPath.dirname is_windows file_path in
         dir_exists <- path_exists file_dir ;;
         when (negb dir_exists) (makedirs file_dir) ;;
         dl <- start_transfer adjusted_url file_path ;;
         when cli_progress (_handle_download_progress dl file_name) ;;
         w <- get ;;
         (if missing_or_empty file_path (w_fs w)
          then raise (Exception
                  (py "Downloaded file is empty or was not created properly"))
          else ret tt) ;;
         report "bridges.tools.resource_file_downloaded"
                [field "resource_name" resource_name;
                 field "file_name" file_name;
                 field "file_path" file_path] None)
        (fun e =>
           report "bridges.tools.resource_file_download_failed"
                  [field "resource_name" resource_name;
                   field "file_name" file_name;
                   field "url" adjusted_url;
                   field "error" (exn_str e)] None ;;
           raise (Exception (py "Failed to download resource file "
                             ++ file_name ++ py ": " ++ exn_str e)))
  end.

(** [config.get('resources', {}).get(resource_name)], when it is a
    non-empty list. *)
Definition declared_urls (config : tool_config) (resource_name : str)
  : option (list str) :=
  let resources :=
    match cfg_resources config with Some r => r | None => [] end in
  match ToolkitConfig.dict_get resource_name resources with
  | Some (UrlList (u :: us)) => Some (u :: us)
  | _ => None
  end.

Definition resource_path_of (resource_name : str) : str :=
  path_join bins_path resource_name.

(** Every file of the bundle is there and not empty. *)
Definition all_present (resource_name : str) (f : filesystem)
           (urls : list str) : Prop :=
  Forall (fun u =>
            exists file_name,
              resource_file_name u = Some file_name
              /\ missing_or_empty
                   (path_join (resource_path_of resource_name) file_name) f
                 = false) urls.

(** [get_resource_path], up to its completeness check: the declared URLs
    and whether all their files are there. *)
Definition check_resource (resource_name : str) : M (list str * bool) :=
  config <- ToolkitConfig.load E toolkit tool_config_name ;;
  report "bridges.tools.checking_resource"
         [field "resource_name" resource_name] None ;;
  match declared_urls config resource_name with
  | None =>
      report "bridges.tools.no_resource_urls"
             [field "resource_name" resource_name] None ;;
      raise (Exception (py "No download URLs found for resource '"
                        ++ resource_name ++ py "'"))
  | Some resource_urls =>
      let resource_path := resource_path_of resource_name in
      dir_exists <- path_exists resource_path ;;
      when (negb dir_exists)
           (report "bridges.tools.creating_resource_directory"
                   [field "resource_name" resource_name;
                    field "resource_path" (format_file_path resource_path)]
                   None ;;
            makedirs resource_path) ;;
      complete <- _is_resource_complete resource_path resource_urls ;;
      ret (resource_urls, complete)
  end.

Definition downloading_resource (resource_name : str) : M unit :=
  report "bridges.tools.downloading_resource"
         [field "resource_name" resource_name] None.

(** [get_resource_path], from the start of its download phase. *)
Definition download_resource (resource_name : str) (resource_urls : list str)
  : M str :=
  let resource_path := resource_path_of resource_name in
  downloading_resource resource_name ;;
  for_each resource_urls
           (download_resource_file resource_name resource_path) ;;
  report "bridges.tools.resource_downloaded"
         [field "resource_name" resource_name;
          field "resource_path" (format_file_path resource_path)]
         None ;;
  ret resource_path.

(** [get_resource_path] *)
Definition get_resource_path (resource_name : str) : M str :=
  checked <- check_resource resource_name ;;
  let '(resource_urls, complete) := checked in
  let resource_path := resource_path_of resource_name in
  if complete then
    report "bridges.tools.resource_already_exists"
           [field "resource_name" resource_name;
            field "resource_path" (format_file_path resource_path)]
           None ;;
    ret resource_path
  else download_resource resource_name resource_urls.

End Tool.
End BaseTool.

(** ** Relations between the world before and after a run *)

Module WorldRelations.

(** Every run of [m] relates the world before to the world after. *)
Definition preserves {A} (R : world -> world -> Prop) (m : M A) : Prop :=
  forall w r w', m w = (r, w') -> R w w'.

(** A relation between worlds that holds along every run: reflexive and
    transitive. *)
Record frame (R : world -> world -> Prop) : Prop := {
  frame_refl : forall w, R w w;
  frame_trans : forall w1 w2 w3, R w1 w2 -> R w2 w3 -> R w1 w3
}.

(** The configuration cache is untouched. *)
Definition same_cache (w w' : world) : Prop := w_cache w' = w_cache w.

(** No transfer is started. *)
Definition no_transfer (w w' : world) : Prop := transfers w' = transfers w.

(** The transfers only grow. *)
Definition more_transfers (w w' : world) : Prop :=
  (transfers w <= transfers w')%nat.

(** At most [n] transfers are started. *)
Definition within (n : nat) (w w' : world) : Prop :=
  (transfers w <= transfers w' <= transfers w + n)%nat.

(** The filesystem is untouched. *)
Definition same_fs (w w' : world) : Prop := w_fs w' = w_fs w.

(** The entry at [p] stays. *)
Definition keeps (p : str) (w w' : world) : Prop :=
  fs_exists p (w_fs w) = true -> fs_exists p (w_fs w') = true.

(** Only entries in [S] go away. *)
Definition deletes_only (S : str -> Prop) (w w' : world) : Prop :=
  forall p, fs_exists p (w_fs w) = true ->
            fs_exists p (w_fs w') = false -> S p.

End WorldRelations.

(** ** The escaping rule in the words of the specification

    Second definitions, written from the text of the specification and not
    from the code, to compare [_escape_shell_arg] with. *)

Module EscapingRule.
Section Rule.
Context {RT : PyRuntime}.

(** "an argument that parses as a URL with a scheme" *)
Definition url_with_scheme (arg : str) : bool :=
  match UrlParse.urlparse arg with
  | Some parsed => negb (eqb (UrlParse.scheme parsed) [])
  | None => false
  end.

(** "wrapped in double quotes with internal double quotes
    backslash-escaped" *)
Definition windows_quoted (arg : str) : str :=
  [34%N]
  ++ flat_map (fun c => if (c =? 34)%N then [92%N; 34%N] else [c]) arg
  ++ [34%N].

(** double quote, single quote, [$], backtick, backslash, parentheses,
    braces, brackets, [|], [&], [;], [<], [>], [*], [?], [!] *)
Definition posix_punctuation : list char :=
  [34; 39; 36; 96; 92; 40; 41; 123; 125; 91; 93; 124; 38; 59; 60; 62; 42;
   63; 33]%N.

Definition posix_class (c : char) : bool :=
  existsb (N.eqb c) posix_punctuation || isspace c.

(** "every occurrence of a character from the class is individually
    prefixed with a backslash" *)
Definition posix_backslashed (arg : str) : str :=
  flat_map (fun c => if posix_class c then [92%N; c] else [c]) arg.

(** The escaping of the active operating system, for an argument that is
    not a URL.  [trigger] tells which arguments the Windows rule quotes. *)
Definition escaped_with (trigger : str -> bool) (windows : bool) (arg : str)
  : str :=
  if windows then if trigger arg then windows_quoted arg else arg
  else posix_backslashed arg.

(** The Windows rule as the specification words it: "containing
    whitespace, double quotes, [&], or [|]". *)
Definition contains_whitespace_or_meta (arg : str) : bool :=
  existsb isspace arg || mem 34%N arg || mem 38%N arg || mem 124%N arg.

(** The Windows rule with the space character in place of whitespace. *)
Definition contains_space_or_meta (arg : str) : bool :=
  mem 32%N arg || mem 34%N arg || mem 38%N arg || mem 124%N arg.

(** A token that starts with an ASCII letter and consists of ASCII letters,
    digits, [+], [-] and [.]: what may stand before the colon of a URL. *)
Definition letter_led_token (tok : str) : bool :=
  match tok with
  | c0 :: _ => ascii_letter c0 && forallb UrlParse.scheme_char tok
  | [] => false
  end.

(** The text after the colon opens a network location. *)
Definition opens_netloc (rest : str) : bool :=
  startswith (UrlParse.remove_unsafe rest) (py "//").

Definition rule_as_specified (windows : bool) (arg : str) : str :=
  if url_with_scheme arg then arg
  else escaped_with contains_whitespace_or_meta windows arg.

Definition rule_as_amended (windows : bool) (arg : str) : str :=
  if url_with_scheme arg then arg
  else escaped_with contains_space_or_meta windows arg.

End Rule.
End EscapingRule.

(** ** The outcomes of a synchronous run in the words of the specification *)

Module SyncOutcome.

Inductive kind :=
| Success
| CommandFailed
| CommandTimeout
| CommandError.

(** The kind of an outcome of [_execute_sync_command], read off what it
    returns or raises. *)
Definition kind_of (r : outcome str) : kind :=
  match r with
  | Ok _ => Success
  | Raise (Exception msg) =>
      if startswith msg (py "Command failed with exit code ")
      then CommandFailed
      else if startswith msg (py "Command timed out after ")
      then CommandTimeout
      else CommandError
  | Raise _ => CommandError
  end.

(** What the specification expects of a command that behaves as [p] under
    the configured [timeout]. *)
Definition expected (timeout : option Z) (p : process) : outcome str :=
  match p with
  | FailsToLaunch cls msg => Raise (LibraryError cls msg)
  | Exits after_ms returncode stdout stderr =>
      let in_time :=
        match timeout with
        | Some seconds => (after_ms <=? seconds * 1000)%Z
        | None => true
        end in
      if negb in_time then
        Raise (Exception (py "Command timed out after "
                          ++ of_Z (match timeout with
                                   | Some seconds => seconds
                                   | None => 0%Z
                                   end) ++ py "s"))
      else if (returncode =? 0)%Z then Ok stdout
      else Raise (Exception (py "Command failed with exit code "
                             ++ of_Z returncode ++ py ": " ++ stderr))
  end.

Definition expected_kind (timeout : option Z) (p : process) : kind :=
  match p with
  | FailsToLaunch _ _ => CommandError
  | Exits after_ms returncode _ _ =>
      match timeout with
      | Some seconds =>
          if (seconds * 1000 <? after_ms)%Z then CommandTimeout
          else if (returncode =? 0)%Z then Success else CommandFailed
      | None => if (returncode =? 0)%Z then Success else CommandFailed
      end
  end.

End SyncOutcome.

(** ** Example hosts, environments and worlds *)

Module Examples.

Definition linux_host : Utils.host :=
  {| Utils.host_system := py "Linux"; Utils.host_machine := py "x86_64";
     Utils.host_processor := py "x86_64" |}.

Definition windows_host : Utils.host :=
  {| Utils.host_system := py "Windows"; Utils.host_machine := py "AMD64";
     Utils.host_processor := py "Intel64 Family 6" |}.

Definition macos_host : Utils.host :=
  {| Utils.host_system := py "Darwin"; Utils.host_machine := py "arm64";
     Utils.host_processor := py "arm" |}.

(** A Linux host of an architecture the resolver does not know. *)
Definition riscv_host : Utils.host :=
  {| Utils.host_system := py "Linux"; Utils.host_machine := py "riscv64";
     Utils.host_processor := py "" |}.

(** Two arguments that are no URLs and start with a letter-led token and a
    colon. *)
Definition drive_path : str := py "C:\tools\my app.exe".
Definition key_value : str := py "key:value".

(** A transfer that fails and writes nothing. *)
Definition failed_transfer : transfer :=
  {| tr_error := None; tr_written := None; tr_samples := [];
     tr_failed := true |}.

(** A transfer that writes [size] bytes. *)
Definition transfer_of_size (size : N) : transfer :=
  {| tr_error := None; tr_written := Some size; tr_samples := [];
     tr_failed := false |}.

(** The clock when the example downloads start, in milliseconds. *)
Definition start_ms : Z := 1700000000000.

(** A command that sleeps five seconds and succeeds. *)
Definition sleep_5 : process := Exits 5000 0 (py "") (py "").

(** An environment on host [h] with the toolkit documents [docs], the
    network [net] and the commands [proc]. *)
Definition env_with (h : Utils.host) (docs : str -> document)
           (net : nat -> str -> str -> transfer) (proc : process) : env :=
  {| e_host := h;
     e_cwd := py "/leon";
     e_toolkits_path := py "/leon/bridges/toolkits";
     e_document := docs;
     e_transfer := net;
     e_hf_reachable := fun _ => true;
     e_xattr := fun _ => Ok 0%Z;
     e_clock := fun t => (1700000000000 + 100 * Z.of_nat t)%Z;
     e_process := fun _ _ => proc |}.

Definition env_of (h : Utils.host) (docs : str -> document)
           (net : nat -> str -> str -> transfer) : env :=
  env_with h docs net (Exits 10 0 (py "out") (py "")).

Definition no_documents : str -> document :=
  fun p => NotFoundOrInvalid (py "[Errno 2] No such file or directory").

Definition offline : nat -> str -> str -> transfer :=
  fun _ _ _ => failed_transfer.

Definition linux_env : env := env_of linux_host no_documents offline.
Definition windows_env : env := env_of windows_host no_documents offline.

(** A toolkit document with one tool, [ffmpeg]: a binary for Linux on
    x86_64 only, and a resource bundle of two files. *)
Definition video_toolkit : str := py "video_streaming".
Definition ffmpeg_tool : str := py "FfmpegTool".

Definition ffmpeg_url : str :=
  py "https://example.com/dl/ffmpeg_1.1.0-linux-x86_64".

Definition model_urls : list str :=
  [py "https://example.com/models/encoder.onnx?download=true";
   py "https://example.com/models/decoder.onnx"].

Definition ffmpeg_config : tool_config :=
  {| cfg_description := Some (py "Convert media files");
     cfg_binaries := Some [(py "linux-x86_64", ffmpeg_url)];
     cfg_resources := Some [(py "model", UrlList model_urls)] |}.

Definition video_doc : toolkit_doc :=
  {| doc_name := Some (py "Video streaming");
     doc_tools := Some [(py "ffmpeg", ffmpeg_config)] |}.

Definition video_documents : str -> document :=
  fun _ => Parsed video_doc.

Definition empty_world : world :=
  {| w_fs := []; w_cache := []; w_events := []; w_tick := 0 |}.

(** A bins directory with three versions of [ffmpeg] for Linux, one for
    macOS, and another tool. *)
Definition video_bins : str := py "/leon/bridges/toolkits/video_streaming/bins".

Definition a_file (size : N) : node :=
  {| n_dir := false; n_size := size; n_mode := 420 |}.

Definition a_dir : node :=
  {| n_dir := true; n_size := 4096; n_mode := 493 |}.

Definition crowded_fs : filesystem :=
  [(video_bins, a_dir);
   (video_bins ++ py "/ffmpeg_1.0.0-linux-x86_64", a_file 10);
   (video_bins ++ py "/ffmpeg_1.1.0-linux-x86_64", a_file 11);
   (video_bins ++ py "/ffmpeg_0.9.0-linux-x86_64", a_file 9);
   (video_bins ++ py "/ffmpeg_1.0.0-macosx-arm64", a_file 12);
   (video_bins ++ py "/ffprobe_1.0.0-linux-x86_64", a_file 13);
   (video_bins ++ py "/README", a_file 1)].

Definition crowded_world : world :=
  {| w_fs := crowded_fs; w_cache := []; w_events := []; w_tick := 0 |}.

(** The world once the toolkit document is in the cache. *)
Definition loaded_world : world :=
  {| w_fs := []; w_cache := [(video_toolkit, video_doc)]; w_events := [];
     w_tick := 0 |}.

Definition macos_env : env := env_of macos_host video_documents offline.

(** A network on which every transfer writes a file of 1000 bytes. *)
Definition online : nat -> str -> str -> transfer :=
  fun _ _ _ => transfer_of_size 1000.

(** The Linux host with the video toolkit, without and with a network. *)
Definition offline_video_env : env :=
  env_of linux_host video_documents offline.
Definition online_video_env : env :=
  env_of linux_host video_documents online.

(** A network on which the transfer of [decoder.onnx] leaves an empty
    file. *)
Definition flaky : nat -> str -> str -> transfer :=
  fun _ url _ =>
    if endswith url (py "decoder.onnx") then transfer_of_size 0
    else transfer_of_size 1000.

Definition flaky_video_env : env :=
  env_of linux_host video_documents flaky.

(** The directory of the resource bundle [model], and a world in which the
    bundle is complete. *)
Definition model_dir : str := video_bins ++ py "/model".



End Examples.

(** ** More example worlds *)

Module Samples.
Import Examples.

(** A bins directory that holds two old versions of [ffmpeg] for Linux and
    not the configured one. *)
Definition outdated_fs : filesystem :=
  [(video_bins, a_dir);
   (video_bins ++ py "/ffmpeg_1.0.0-linux-x86_64", a_file 10);
   (video_bins ++ py "/ffmpeg_0.9.0-linux-x86_64", a_file 9);
   (video_bins ++ py "/ffprobe_1.0.0-linux-x86_64", a_file 13)].

Definition outdated_world : world :=
  {| w_fs := outdated_fs; w_cache := []; w_events := []; w_tick := 0 |}.

Definition other_tool_path : str :=
  video_bins ++ py "/ffprobe_1.0.0-linux-x86_64".

(** Four observations of a download, 700 ms apart. *)
Definition slow_samples : list sample :=
  List.map (fun i =>
              {| s_progress := 2 * i;
                 s_time := start_ms + 700 * i;
                 s_details := [] |}%Z)
           [0; 1; 2; 3]%Z.

(** A process that prints two lines and a warning, and the same process
    failing with exit code 3. *)
Definition two_lines : list (str * str) :=
  [(py "frame 1", py ""); (py "frame 2", py "warning: slow")].

End Samples.

(** ** Downloads that advance *)

Module Advance.

(** The observations of a running download advance from the percent [p] and
    the time [t]: neither the percent nor the clock goes back, and the
    percent stays below 100. *)
Fixpoint advancing (p t : Z) (samples : list sample) : Prop :=
  match samples with
  | [] => True
  | s :: rest =>
      (p <= s_progress s)%Z /\ (t <= s_time s)%Z /\ (s_progress s < 100)%Z
      /\ advancing (s_progress s) (s_time s) rest
  end.

End Advance.

(** ** More relations between the world before and after a run *)

Module MoreRelations.

(** The entry at [p], when there is one, stays as it is. *)
Definition retains (p : str) (w w' : world) : Prop :=
  fs_exists p (w_fs w) = true ->
  fs_lookup p (w_fs w') = fs_lookup p (w_fs w).


End MoreRelations.

(** ** base_tool.py: running a command *)

Module Command.
Import BaseTool.

(** What a process started with [subprocess.Popen] does under the reading
    loop of [_execute_async_command]: the lines the two [readline] calls
    return in the first iteration and in the later ones (an empty line when
    a pipe has nothing), and the return code that [poll] finds after the
    last of them; or [Popen] raises.  Only what the caller reads from the
    process is recorded: the files the process itself writes or deletes are
    not, so nothing stated here about [w_fs] covers them. *)
Inductive child :=
| Runs (first : str * str) (more : list (str * str)) (returncode : Z)
| CannotStart (e : exn).

(** The argument of the progress callback: its [status] and its
    [percentage], when it has one. *)
Record progress := {
  pg_status : str;
  pg_percentage : option Z
}.

(** [ExecuteCommandOptions]; [co_options] is [None] when no dictionary is
    given. *)
Record command_options := {
  co_binary_name : str;
  co_args : list str;
  co_options : option exec_options;
  co_on_progress : option (progress -> M unit);
  co_on_output : option (str -> bool -> M unit);
  co_skip_binary_download : bool
}.

(** The empty dictionary of options. *)
Definition no_options : exec_options :=
  {| opt_sync := None; opt_timeout := None; opt_cwd := None |}.

Section Run.
Context {RT : PyRuntime}.
Variable E : env.
(** [subprocess.Popen], by the interaction count and the argument vector *)
Variable popen : nat -> list str -> child.
Variable toolkit : str.
Variable tool_name : str.
Variable cli_progress : bool.

(** [if on_output: on_output(line, is_error)] *)
Definition call_output (on_output : option (str -> bool -> M unit))
           (line : str) (is_error : bool) : M unit :=
  match on_output with
  | Some f => f line is_error
  | None => ret tt
  end.

(** [if on_progress: on_progress(update)] *)
Definition call_progress (on_progress : option (progress -> M unit))
           (update : progress) : M unit :=
  match on_progress with
  | Some f => f update
  | None => ret tt
  end.

(** One iteration of the reading loop. *)
Definition read_round (on_progress : option (progress -> M unit))
           (on_output : option (str -> bool -> M unit))
           (output_buffer : str) (lines : str * str) : M str :=
  let (stdout_line, stderr_line) := lines in
  buffer1 <-
    match stdout_line with
    | [] => ret output_buffer
    | _ :: _ =>
        call_output on_output stdout_line false ;;
        call_progress on_progress
          {| pg_status := py "running"; pg_percentage := None |} ;;
        ret (output_buffer ++ stdout_line)
    end ;;
  match stderr_line with
  | [] => ret buffer1
  | _ :: _ =>
      call_output on_output stderr_line true ;;
      ret (buffer1 ++ stderr_line)
  end.

(** The reading loop, until [poll] finds the process ended. *)
Fixpoint read_rounds (on_progress : option (progress -> M unit))
         (on_output : option (str -> bool -> M unit))
         (output_buffer : str) (rounds : list (str * str)) : M str :=
  match rounds with
  | [] => ret output_buffer
  | lines :: rest =>
      buffer <- read_round on_progress on_output output_buffer lines ;;
      read_rounds on_progress on_output buffer rest
  end.

(** What the loop has read when it ends: the lines of each iteration, the
    standard output before the standard error. *)
Definition transcript (rounds : list (str * str)) : str :=
  flat_map (fun lines => fst lines ++ snd lines) rounds.

(** [_execute_async_command] *)
Definition _execute_async_command (binary_path : str) (args : list str)
           (command_string : str) (tool_group_id : option str)
           (on_progress : option (progress -> M unit))
           (on_output : option (str -> bool -> M unit)) : M str :=
  try_except
    (start_time <- now_ms E ;;
     t <- next_tick ;;
     emit (Spawn (binary_path :: args)) ;;
     match popen t (binary_path :: args) with
     | CannotStart e => raise e
     | Runs first more returncode =>
         output_buffer <-
           read_rounds on_progress on_output [] (first :: more) ;;
         end_time <- now_ms E ;;
         let execution_time := (end_time - start_time)%Z in
         if (returncode =? 0)%Z then
           report "bridges.tools.command_completed"
                  [field "command" command_string;
                   field "execution_time" (of_Z execution_time ++ py "ms")]
                  tool_group_id ;;
           call_progress on_progress
             {| pg_status := py "completed";
                pg_percentage := Some 100%Z |} ;;
           ret output_buffer
         else
           report "bridges.tools.command_failed"
                  [field "command" command_string;
                   field "exit_code" (of_Z returncode);
                   field "execution_time" (of_Z execution_time ++ py "ms")]
                  tool_group_id ;;
           raise (Exception (py "Command failed with exit code "
                             ++ of_Z returncode ++ py ": " ++ output_buffer))
     end)
    (fun e =>
       report "bridges.tools.command_error"
              [field "command" command_string; field "error" (exn_str e)]
              tool_group_id ;;
       raise e).

(** [execute_command] *)
Definition execute_command (options : command_options) : M str :=
  let binary_name := co_binary_name options in
  let args := co_args options in
  let exec_options :=
    match co_options options with Some o => o | None => no_options end in
  let on_progress := co_on_progress options in
  let on_output := co_on_output options in
  let skip_binary_download := co_skip_binary_download options in
  let sync :=
    match opt_sync exec_options with Some b => b | None => true end in
  binary_path <-
    get_binary_path E toolkit tool_name cli_progress binary_name
                    skip_binary_download ;;
  let command := command_string E binary_path args in
  now <- now_ms E ;;
  let tool_group_id :=
    toolkit ++ py "_" ++ tool_name ++ py "_" ++ of_Z now in
  report "bridges.tools.executing_command"
         [field "binary_name" binary_name; field "command" command]
         (Some tool_group_id) ;;
  if sync then
    _execute_sync_command E command exec_options (Some tool_group_id)
  else
    _execute_async_command binary_path args command (Some tool_group_id)
                           on_progress on_output.

End Run.
End Command.

(** ** tools/bash_tool.py *)

Module BashTool.
Import BaseTool Command.

(** The dictionary that [execute_bash_command] returns. *)
Record bash_result := {
  success : bool;
  stdout : str;
  stderr : str;
  returncode : Z;
  command : str
}.

Definition TOOLKIT : str := py "operating_system_control".

(** [self.__class__.__name__] *)
Definition tool_name : str := py "BashTool".

(** [re.search]: the match at the leftmost position that has one. *)
Fixpoint search {R : Type} (at_head : str -> option R) (s : str)
  : option R :=
  match at_head s with
  | Some r => Some r
  | None =>
      match s with
      | [] => None
      | _ :: s' => search at_head s'
      end
  end.

(** The longest prefix of [s] of characters in the class [p], and the
    rest: a greedy repetition. *)
Fixpoint span (p : char -> bool) (s : str) : str * str :=
  match s with
  | c :: s' =>
      if p c then let (run, rest) := span p s' in (c :: run, rest)
      else ([], s)
  | [] => ([], [])
  end.

Definition dangerous_patterns : list str :=
  [py "rm -rf /"; py "rm -rf /*"; py "mkfs"; py "dd if="; py "format";
   py "fdisk"; py "> /dev/"; py "chmod 777 /"; py "chown -R";
   py "kill -9 -1"; py "killall -9"; py "fork()"; py "while true; do";
   py "curl | sh"; py "wget | sh"; py "| bash"; py "| sh";
   py "eval $(curl"; py "eval $(wget"].

Definition critical_patterns : list str :=
  [py "rm -rf /"; py "rm -rf /*"; py "mkfs"; py "format"; py "fdisk";
   py "kill -9 -1"].

Definition high_risk_patterns : list str :=
  [py "rm -rf"; py "rm -f"; py "chmod 777"; py "chown -R"; py "dd if=";
   py "killall"; py "pkill"; py "sudo su"; py "curl | sh"; py "wget | sh"].

Definition medium_risk_patterns : list str :=
  [py "sudo"; py "rm "; py "mv "; py "cp "; py "chmod"; py "chown";
   py "install"; py "apt "; py "yum "; py "brew "; py "pip install"].

Section Bash.
Context {RT : PyRuntime}.
Variable E : env.
Variable popen : nat -> list str -> child.
Variable cli_progress : bool.
(** The decimal value of a decimal digit outside ASCII, by the Unicode
    database of the interpreter. *)
Variable unicode_digit : char -> Z.

(** [s.lstrip()] and [s.strip()] *)
Fixpoint lstrip (s : str) : str :=
  match s with
  | c :: s' => if isspace c then lstrip s' else s
  | [] => []
  end.

Definition strip (s : str) : str := rev (lstrip (rev (lstrip s))).

(** [re.search(r'exit code (\d+)', s)] at the head of [s]: group 1. *)
Definition exit_code_at (s : str) : option str :=
  match OsPath.strip_prefix (py "exit code ") s with
  | Some r =>
      match fst (span isdecimal r) with
      | [] => None
      | c :: d => Some (c :: d)
      end
  | None => None
  end.

(** [re.search(r'exit code \d+: (.+)$', s)] at the head of [s]: group 1.
    [.] matches no line feed, and [$] matches at the end of the text or
    before its final line feed. *)
Definition exit_stderr_at (s : str) : option str :=
  match OsPath.strip_prefix (py "exit code ") s with
  | Some r =>
      let (code, r1) := span isdecimal r in
      match code with
      | [] => None
      | _ :: _ =>
          match OsPath.strip_prefix (py ": ") r1 with
          | Some body =>
              let (line, rest) := span VersionedName.dot body in
              match line with
              | [] => None
              | c :: l =>
                  if VersionedName.at_end rest then Some (c :: l) else None
              end
          | None => None
          end
      end
  | None => None
  end.

Definition digit_value (c : char) : Z :=
  if is_ascii c then Z.of_N c - 48 else unicode_digit c.

(** [int(digits)] for a string of decimal digits; the interpreter refuses
    more than 4300 of them. *)
Definition int (digits : str) : M Z :=
  if (4300 <? List.length digits)%nat
  then raise (LibraryError (py "ValueError")
                (py "Exceeds the limit (4300 digits) for integer string conversion: value has "
                 ++ of_Z (Z.of_nat (List.length digits))
                 ++ py " digits; use sys.set_int_max_str_digits() to increase the limit"))
  else ret (fold_left (fun value c => 10 * value + digit_value c)%Z
                      digits 0%Z).

(** [f'{timeout}'] *)
Definition format_timeout (timeout : option Z) : str :=
  match timeout with
  | Some seconds => of_Z seconds
  | None => py "None"
  end.

(** [execute_bash_command] *)
Definition execute_bash_command (command : str) (cwd : option str)
           (timeout : option Z) : M bash_result :=
  try_except
    (result_output <-
       execute_command E popen TOOLKIT tool_name cli_progress
         {| co_binary_name := py "bash";
            co_args := [py "-c"; command];
            co_options :=
              Some {| opt_sync := Some true;
                      opt_timeout := timeout;
                      opt_cwd :=
                        Some (match cwd with
                              | Some (c :: d) => c :: d
                              | _ => e_cwd E
                              end) |};
            co_on_progress := None;
            co_on_output := None;
            co_skip_binary_download := true |} ;;
     ret {| success := true;
            stdout := strip result_output;
            stderr := py "";
            returncode := 0;
            command := command |})
    (fun e =>
       let error_message := exn_str e in
       if contains (lower error_message) (py "timed out") then
         ret {| success := false;
                stdout := py "";
                stderr := py "Command timed out after "
                          ++ format_timeout timeout ++ py " seconds";
                returncode := -1;
                command := command |}
       else if contains error_message (py "failed with exit code") then
         exit_code <-
           match search exit_code_at error_message with
           | Some digits => int digits
           | None => ret (-1)%Z
           end ;;
         let stderr :=
           match search exit_stderr_at error_message with
           | Some line => line
           | None => error_message
           end in
         ret {| success := false;
                stdout := py "";
                stderr := stderr;
                returncode := exit_code;
                command := command |}
       else
         ret {| success := false;
                stdout := py "";
                stderr := error_message;
                returncode := -1;
                command := command |}).

(** [is_safe_command] *)
Definition is_safe_command (command : str) : bool :=
  let command_lower := lower command in
  negb (existsb (fun pattern => contains command_lower pattern)
                dangerous_patterns).

(** [get_command_risk_level] *)
Definition get_command_risk_level (command : str) : str :=
  let command_lower := lower command in
  let risk_level := py "low" in
  let risk_level :=
    if existsb (fun pattern => contains command_lower pattern)
               critical_patterns
    then py "critical" else risk_level in
  let risk_level :=
    if eqb risk_level (py "low") then
      if existsb (fun pattern => contains command_lower pattern)
                 high_risk_patterns
      then py "high" else risk_level
    else risk_level in
  let risk_level :=
    if eqb risk_level (py "low") then
      if existsb (fun pattern => contains command_lower pattern)
                 medium_risk_patterns
      then py "medium" else risk_level
    else risk_level in
  risk_level.

(** [get_risk_description] *)
Definition get_risk_description (command : str) : str :=
  let risk_level := get_command_risk_level command in
  let command_lower := lower command in
  if contains command_lower (py "rm")
  then py "delete files or directories permanently"
  else if contains command_lower (py "sudo")
  then py "make system-level changes with elevated privileges"
  else if contains command_lower (py "kill")
  then py "terminate running processes"
  else if contains command_lower (py "chmod")
          || contains command_lower (py "chown")
  then py "change file permissions or ownership"
  else if existsb (fun pkg => contains command_lower pkg)
                  [py "apt"; py "yum"; py "brew"; py "pip"]
  then py "install or modify system packages"
  else if contains command_lower (py "curl")
          || contains command_lower (py "wget")
  then py "download content from the internet"
  else
    match ToolkitConfig.dict_get risk_level
            [(py "critical", py "cause severe system damage");
             (py "high", py "cause significant system changes");
             (py "medium", py "modify your system");
             (py "low", py "perform system operations")] with
    | Some description => description
    | None => py "affect your system"
    end.

End Bash.
End BashTool.
(** * Properties *)

(** ** Strings *)

Module PyStrFacts.

Lemma eqb_spec (a b : str) : reflect (a = b) (eqb a b).
Proof.
  revert b; induction a as [|x a IH]; intros [|y b]; simpl;
    try (constructor; congruence).
  unfold char_eqb. destruct (N.eqb_spec x y) as [->|Hxy]; simpl.
  - destruct (IH b) as [->|Hab]; constructor; congruence.
  - constructor; congruence.
Qed.

Lemma eqb_refl (a : str) : eqb a a = true.
Proof. destruct (eqb_spec a a); congruence. Qed.

Lemma eqb_eq (a b : str) : eqb a b = true <-> a = b.
Proof. destruct (eqb_spec a b); split; congruence. Qed.

Lemma eqb_neq (a b : str) : eqb a b = false <-> a <> b.
Proof. destruct (eqb_spec a b); split; congruence. Qed.

Lemma eqb_sym (a b : str) : eqb a b = eqb b a.
Proof.
  destruct (eqb_spec a b) as [->|H].
  - symmetry; apply eqb_refl.
  - symmetry; apply eqb_neq; congruence.
Qed.

Lemma eqb_true_other (a b c : str) :
  eqb a b = true -> eqb b c = false -> eqb a c = false.
Proof. intros H; apply eqb_eq in H; subst; auto. Qed.

Lemma startswith_nil (s : str) : startswith s [] = true.
Proof. destruct s; reflexivity. Qed.

End PyStrFacts.

(** ** The platform resolver *)

Module PlatformFacts.
Import Utils.

(** C4.  For every operating system name, machine architecture and
    processor string, [get_platform_name] returns one of the six platform
    tags, and exactly one of them; the architecture aliases
    [x86_64]/[amd64] and [aarch64]/[arm64] resolve to the same tag (on
    every system, Linux and macOS included); on Linux every architecture
    other than [aarch64]/[arm64] resolves to [linux-x86_64]; on Windows
    every architecture resolves to [win-amd64]. *)
Theorem get_platform_name_tags {RT : PyRuntime}
        (system machine processor : str) :
  let tag arch :=
    get_platform_name {| host_system := system; host_machine := arch;
                         host_processor := processor |} in
  In (tag machine) platform_tags
  /\ List.length (filter (eqb (tag machine)) platform_tags) = 1
  /\ tag (py "x86_64") = tag (py "amd64")
  /\ tag (py "aarch64") = tag (py "arm64")
  /\ (eqb (lower system) (py "linux") = true ->
      in_list (lower machine) [py "aarch64"; py "arm64"] = false ->
      tag machine = py "linux-x86_64")
  /\ (eqb (lower system) (py "linux") = true ->
      tag (py "aarch64") = py "linux-aarch64"
      /\ tag (py "x86_64") = py "linux-x86_64")
  /\ (eqb (lower system) (py "windows") = true ->
      tag machine = py "win-amd64").
Proof.
  cbv zeta; unfold get_platform_name;
    cbn [host_system host_machine host_processor].
  assert (Hsys :
    forall a b : string, eqb (lower system) (py a) = true ->
                eqb (py a) (py b) = false ->
                eqb (lower system) (py b) = false)
    by (intros a b; apply PyStrFacts.eqb_true_other).
  destruct (eqb (lower system) (py "linux")) eqn:Hl;
    [ rewrite ?(Hsys "linux"%string "darwin"%string Hl eq_refl),
              ?(Hsys "linux"%string "windows"%string Hl eq_refl)
    | destruct (eqb (lower system) (py "darwin")) eqn:Hd;
      [ rewrite ?(Hsys "darwin"%string "windows"%string Hd eq_refl)
      | destruct (eqb (lower system) (py "windows")) eqn:Hw ] ];
    destruct (in_list (lower machine) [py "x86_64"; py "amd64"]) eqn:M1;
    destruct (in_list (lower machine) [py "aarch64"; py "arm64"]) eqn:M2;
    destruct (in_list (lower machine) [py "arm64"; py "aarch64"]) eqn:M3;
    destruct (contains (lower processor) (py "apple")) eqn:PA;
    clear Hsys;
    (split; [vm_compute; auto 10 | vm_compute; intuition congruence]).
Qed.

Lemma get_platform_name_tags_witness :
  get_platform_name (RT := ascii_runtime) Examples.riscv_host = py "linux-x86_64".
Proof.
  apply (get_platform_name_tags (RT := ascii_runtime)
           (py "Linux") (py "riscv64") (py "")); reflexivity.
Defined.

End PlatformFacts.

(** ** Shell arguments *)

Module EscapeFacts.
Import BaseTool EscapingRule Examples.

Lemma replace_char (s : str) (c : char) (new : str) :
  replace s [c] new
  = flat_map (fun x => if char_eqb x c then new else [x]) s.
Proof.
  unfold replace. induction s as [|x s IH]; [reflexivity|].
  cbn [replace_from startswith flat_map List.length Nat.sub].
  rewrite PyStrFacts.startswith_nil, andb_true_r. destruct (char_eqb x c); cbn; now rewrite IH.
Qed.

Lemma posix_special_class {RT : PyRuntime} (c : char) :
  posix_special c = posix_class c.
Proof.
  unfold posix_special, posix_class, mem, dquote, char_eqb.
  change (py "'$`\(){}[]|&;<>*?!") with (tl posix_punctuation).
  cbn [existsb posix_punctuation tl].
  destruct (isspace c), (N.eqb c 34); cbn [orb];
    rewrite ?orb_true_r, ?orb_false_r; reflexivity.
Qed.

Lemma escape_unfold {RT : PyRuntime} (E : env) (arg : str) :
  _escape_shell_arg E arg
  = if url_with_scheme arg then arg
    else escaped_with contains_space_or_meta (is_windows E) arg.
Proof.
  unfold _escape_shell_arg, url_with_scheme, escaped_with,
    contains_space_or_meta, windows_quoted, posix_backslashed.
  assert (Hp : flat_map (fun c => if posix_special c
                                  then [backslash; c] else [c]) arg
               = flat_map (fun c => if posix_class c
                                    then [92%N; c] else [c]) arg).
  { apply flat_map_ext; intros c. now rewrite posix_special_class. }
  rewrite Hp, replace_char.
  destruct (UrlParse.urlparse arg) as [p|]; [|reflexivity].
  destruct (UrlParse.scheme p); reflexivity.
Qed.

(** C5 (as amended).  [_escape_shell_arg] returns unchanged an argument that
    [urlparse] parses with a scheme; otherwise, on Windows it wraps in
    double quotes, with the inner double quotes backslash-escaped, exactly
    the arguments that contain a space character, a double quote, [&] or
    [|], and returns the others unchanged; on POSIX it prefixes with a
    backslash every occurrence of a character of the class (double quote,
    single quote, whitespace, [$], backtick, backslash, parentheses, braces,
    brackets, [|], [&], [;], [<], [>], [*], [?], [!]) and only those. *)
Theorem escape_shell_arg_rule {RT : PyRuntime} (E : env) (arg : str) :
  _escape_shell_arg E arg = rule_as_amended (is_windows E) arg.
Proof. apply escape_unfold. Qed.

(** C5, counterexample.  On Windows the argument [a<TAB>b] contains
    whitespace and [urlparse] finds no scheme in it, yet it is returned
    unchanged and not wrapped in double quotes: the rule with "whitespace"
    does not describe the code. *)
Lemma escape_shell_arg_whitespace_counterexample :
  let arg := [97; 9; 98]%N in
  existsb (isspace (RT := ascii_runtime)) arg = true
  /\ url_with_scheme (RT := ascii_runtime) arg = false
  /\ _escape_shell_arg (RT := ascii_runtime) windows_env arg = arg
  /\ rule_as_specified (RT := ascii_runtime) true arg = [34; 97; 9; 98; 34]%N
  /\ _escape_shell_arg (RT := ascii_runtime) windows_env arg
     <> rule_as_specified (RT := ascii_runtime) true arg.
Proof. vm_compute. repeat split; discriminate. Qed.

(** The examples of the specification. *)
Example escape_url_unchanged (RT : PyRuntime) :
  _escape_shell_arg windows_env (py "http://example.com/a b")
  = py "http://example.com/a b"
  /\ _escape_shell_arg linux_env (py "http://example.com/a b")
     = py "http://example.com/a b".
Proof. split; reflexivity. Qed.

Example escape_a_b (RT : PyRuntime) :
  _escape_shell_arg windows_env (py "a b") = [34%N] ++ py "a b" ++ [34%N]
  /\ _escape_shell_arg linux_env (py "a b") = py "a\ b".
Proof. split; reflexivity. Qed.

Section SchemeTokens.
Context {RT : PyRuntime}.
Import UrlParse.

Lemma scheme_char_facts (c : char) :
  scheme_char c = true ->
  char_eqb c (ch ":") = false /\ unsafe_byte c = false
  /\ is_ascii c = true /\ (c <=? 32)%N = false.
Proof.
  unfold scheme_char, ascii_letter, ascii_upper_letter, ascii_lower_letter,
    ascii_digit, unsafe_byte, char_eqb, is_ascii.
  change (ch "+") with 43%N; change (ch "-") with 45%N;
    change (ch ".") with 46%N; change (ch ":") with 58%N.
  rewrite !orb_true_iff, !andb_true_iff, !N.leb_le, !N.eqb_eq.
  intros H.
  rewrite !orb_false_iff, !N.eqb_neq, N.ltb_lt, N.leb_gt.
  lia.
Qed.

Lemma token_split (tok rest : str) :
  forallb scheme_char tok = true ->
  before (ch ":") (tok ++ py ":" ++ rest) = tok
  /\ after (ch ":") (tok ++ py ":" ++ rest) = Some rest
  /\ remove_unsafe (tok ++ py ":" ++ rest) = tok ++ py ":" ++ remove_unsafe rest
  /\ forallb is_ascii tok = true.
Proof.
  induction tok as [|c tok IH]; intros H.
  - repeat split; reflexivity.
  - cbn [forallb] in H. apply andb_true_iff in H as [Hc Ht].
    destruct (scheme_char_facts c Hc) as (Hcolon & Hunsafe & Hascii & _).
    destruct (IH Ht) as (Hb & Ha & Hr & Hall).
    cbn [app before after forallb]. rewrite Hcolon, Hb, Ha, Hascii, Hall.
    unfold remove_unsafe in *. cbn [filter]. rewrite Hunsafe. cbn [negb].
    now rewrite Hr.
Qed.

Lemma letter_led_scheme (tok rest : str) :
  letter_led_token tok = true ->
  opens_netloc rest = false ->
  exists parsed,
    urlparse (tok ++ py ":" ++ rest) = Some parsed
    /\ scheme parsed = List.map ascii_lower tok
    /\ scheme parsed <> [].
Proof.
  unfold letter_led_token, opens_netloc.
  destruct tok as [|c0 tok]; [discriminate|].
  intros H Hn. apply andb_true_iff in H as [H0 Hall].
  destruct (token_split (c0 :: tok) rest Hall) as (Hb & Ha & Hr & Hasc).
  assert (Hc0 : (c0 <=? 32)%N = false).
  { cbn [forallb] in Hall. apply andb_true_iff in Hall as [Hc _].
    now destruct (scheme_char_facts c0 Hc) as (_ & _ & _ & ?). }
  unfold urlparse, urlsplit.
  change ((c0 :: tok) ++ py ":" ++ rest)
    with (c0 :: (tok ++ py ":" ++ rest)) at 1.
  cbn [lstrip_c0]. rewrite Hc0.
  change (c0 :: (tok ++ py ":" ++ rest))
    with ((c0 :: tok) ++ py ":" ++ rest).
  rewrite Hr. unfold split_scheme.
  assert (Hb' : before (ch ":") ((c0 :: tok) ++ py ":" ++ remove_unsafe rest)
                = c0 :: tok)
    by (apply (token_split (c0 :: tok) (remove_unsafe rest) Hall)).
  assert (Ha' : after (ch ":") ((c0 :: tok) ++ py ":" ++ remove_unsafe rest)
                = Some (remove_unsafe rest))
    by (apply (token_split (c0 :: tok) (remove_unsafe rest) Hall)).
  rewrite Ha', Hb', H0, Hall. cbn [andb].
  unfold lower. rewrite Hasc.
  set (r := remove_unsafe rest) in *. clearbody r.
  assert (Hloc : forall c1 c2 r', r = c1 :: c2 :: r' ->
                 char_eqb c1 (ch "/") && char_eqb c2 (ch "/") = false).
  { intros c1 c2 r' ->.
    change (py "//") with [47%N; 47%N] in Hn. cbn [startswith] in Hn.
    now rewrite PyStrFacts.startswith_nil, andb_true_r in Hn. }
  destruct r as [|c1 [|c2 r']];
    [ | | rewrite (Hloc c1 c2 r' eq_refl) ];
    unfold split_once; cbn [forallb negb andb];
    repeat match goal with
           | |- context [if ?b then _ else _] => destruct b
           | |- context [let (_, _) := ?p in _] => destruct p
           end;
    (eexists; split; [reflexivity | cbn [scheme]; split;
                                    [reflexivity | discriminate]]).
Qed.

End SchemeTokens.

(** C10.  [_escape_shell_arg] returns unchanged, on every host, every
    argument in which [urlparse] finds a scheme.  These include every
    argument made of a letter-led token, a colon and a rest that opens no
    network location, such as the Windows path [C:\tools\my app.exe] and the
    token [key:value], which are no URLs: the path reaches the command line
    as it is, although the escaping of either operating system would have
    changed it. *)
Theorem scheme_skips_escaping {RT : PyRuntime} (E : env) :
  (forall arg parsed,
      UrlParse.urlparse arg = Some parsed ->
      UrlParse.scheme parsed <> [] ->
      _escape_shell_arg E arg = arg)
  /\ (forall tok rest,
         letter_led_token tok = true ->
         opens_netloc rest = false ->
         _escape_shell_arg E (tok ++ py ":" ++ rest) = tok ++ py ":" ++ rest)
  /\ _escape_shell_arg E drive_path = drive_path
  /\ _escape_shell_arg E key_value = key_value
  /\ (forall windows,
         escaped_with contains_space_or_meta windows drive_path
         <> drive_path)
  /\ (forall binary_path,
         command_string E binary_path [drive_path]
         = [34%N] ++ binary_path ++ [34%N] ++ py " " ++ drive_path).
Proof.
  assert (Hgen : forall arg parsed,
             UrlParse.urlparse arg = Some parsed ->
             UrlParse.scheme parsed <> [] ->
             _escape_shell_arg E arg = arg).
  { intros arg parsed Hp Hs. unfold _escape_shell_arg. rewrite Hp.
    destruct (UrlParse.scheme parsed); congruence. }
  assert (Htok : forall tok rest,
             letter_led_token tok = true ->
             opens_netloc rest = false ->
             _escape_shell_arg E (tok ++ py ":" ++ rest)
             = tok ++ py ":" ++ rest).
  { intros tok rest Ht Hn.
    destruct (letter_led_scheme tok rest Ht Hn) as (p & Hp & _ & Hne).
    now apply (Hgen _ p). }
  assert (Hdrive : _escape_shell_arg E drive_path = drive_path)
    by (apply (Htok (py "C") (py "\tools\my app.exe")); reflexivity).
  split; [exact Hgen|]. split; [exact Htok|]. split; [exact Hdrive|].
  split; [apply (Htok (py "key") (py "value")); reflexivity|].
  split; [intros [|]; vm_compute; discriminate|].
  intros bp. unfold command_string. cbn [List.map join].
  now rewrite Hdrive.
Qed.

Lemma scheme_skips_escaping_witness :
  _escape_shell_arg (RT := ascii_runtime) linux_env (py "mailto:a b")
  = py "mailto:a b"
  /\ _escape_shell_arg (RT := ascii_runtime) windows_env
       (py "x-tool" ++ py ":" ++ py "a|b")
     = py "x-tool" ++ py ":" ++ py "a|b".
Proof.
  split.
  - eapply (proj1 (scheme_skips_escaping (RT := ascii_runtime) linux_env)).
    + vm_compute. reflexivity.
    + discriminate.
  - apply (proj1 (proj2 (scheme_skips_escaping (RT := ascii_runtime)
                           windows_env)) (py "x-tool") (py "a|b"));
      reflexivity.
Defined.

End EscapeFacts.

(** ** Synchronous execution *)

Module SyncFacts.
Import BaseTool SyncOutcome Examples.

Lemma startswith_app (p x : str) : startswith (p ++ x) p = true.
Proof.
  induction p as [|c p IH]; cbn.
  - apply PyStrFacts.startswith_nil.
  - unfold char_eqb. now rewrite N.eqb_refl, IH.
Qed.

Lemma kind_failed (x : str) :
  kind_of (Raise (Exception (py "Command failed with exit code " ++ x)))
  = CommandFailed.
Proof. unfold kind_of. now rewrite startswith_app. Qed.

Lemma kind_timeout (x : str) :
  kind_of (Raise (Exception (py "Command timed out after " ++ x)))
  = CommandTimeout.
Proof.
  unfold kind_of. rewrite startswith_app.
  replace (startswith (py "Command timed out after " ++ x)
                      (py "Command failed with exit code ")) with false
    by (vm_compute; reflexivity).
  reflexivity.
Qed.

(** C6.  A synchronous run of a command returns the captured standard
    output when the command exits with code zero; raises the failure that
    carries the exit code and the captured standard error when it exits
    with another code; raises the timeout that carries the configured
    number of seconds when the command is still running at the end of the
    configured timeout; and re-raises any other failure of the launch.
    Which of the four happens is a function of how the command behaves:
    the outcomes are mutually exclusive and exhaustive. *)
Theorem execute_sync_outcome {RT : PyRuntime} (E : env) (command : str)
        (options : exec_options) (tool_group_id : option str) (w : world) :
  let p := e_process E (S (w_tick w)) command in
  let r := fst (_execute_sync_command E command options tool_group_id w) in
  r = expected (opt_timeout options) p
  /\ kind_of r = expected_kind (opt_timeout options) p.
Proof.
  cbv beta iota zeta delta
      [_execute_sync_command try_except bind now_ms subprocess_run
       next_tick emit ret raise report expected expected_kind];
    cbn [w_tick w_fs w_cache w_events].
  destruct (e_process E (S (w_tick w)) command)
    as [after_ms rc out err | cls msg]; cbn [fst].
  2: { split; reflexivity. }
  destruct (opt_timeout options) as [seconds|].
  - replace (after_ms <=? seconds * 1000)%Z
      with (negb (seconds * 1000 <? after_ms)%Z)
      by (destruct (Z.ltb_spec (seconds * 1000) after_ms),
                   (Z.leb_spec after_ms (seconds * 1000));
          cbn; try reflexivity; lia).
    rewrite negb_involutive.
    destruct (seconds * 1000 <? after_ms)%Z; cbn [fst w_tick].
    + split; [reflexivity | apply kind_timeout].
    + destruct (rc =? 0)%Z; cbn [fst];
        (split; [reflexivity | try reflexivity; apply kind_failed]).
  - cbn [negb]. destruct (rc =? 0)%Z; cbn [fst];
      (split; [reflexivity | try reflexivity; apply kind_failed]).
Qed.

(** The example of the specification: one second of timeout against a
    command that sleeps five seconds. *)
Example timeout_carries_configured_duration (RT : PyRuntime) :
  fst (_execute_sync_command
         (env_with linux_host no_documents offline sleep_5)
         (py "sleep 5")
         {| opt_sync := Some true; opt_timeout := Some 1%Z;
            opt_cwd := None |}
         None empty_world)
  = Raise (Exception (py "Command timed out after 1s")).
Proof. reflexivity. Qed.

End SyncFacts.

(** ** The progress reporter *)

Module ProgressFacts.
Import Progress Examples.

Lemma should_log_iff (cur now lp lt : Z) :
  should_log cur now lp lt = true
  <-> (lp + 5 <= cur \/ 2000 <= now - lt \/ cur = 100)%Z.
Proof.
  unfold should_log, PERCENTAGE_THRESHOLD, LOG_INTERVAL_MS.
  rewrite !orb_true_iff, !Z.leb_le, Z.eqb_eq. tauto.
Qed.

Lemma logged_length (samples : list sample) (lp lt : Z) :
  (List.length (logged samples lp lt) <= List.length samples)%nat.
Proof.
  revert lp lt; induction samples as [|s rest IH]; intros lp lt; cbn.
  - lia.
  - destruct (should_log _ _ _ _); cbn.
    + specialize (IH (s_progress s) (s_time s)). lia.
    + specialize (IH lp lt). lia.
Qed.

Lemma logged_snoc (pre : list sample) (s : sample) (lp lt : Z) :
  logged (pre ++ [s]) lp lt
  = logged pre lp lt
    ++ (if should_log (s_progress s) (s_time s)
                      (fst (last_logged pre lp lt))
                      (snd (last_logged pre lp lt))
        then [s] else []).
Proof.
  revert lp lt; induction pre as [|x pre IH]; intros lp lt; cbn.
  - destruct (should_log _ _ _ _); reflexivity.
  - destruct (should_log (s_progress x) _ _ _); cbn; now rewrite IH.
Qed.

Lemma observed_S (dl : handle) (i k : nat) :
  observed dl i (S k) = observed dl i k ++ [r_sample (dl (i + k)%nat)].
Proof. unfold observed. now rewrite seq_S, map_app. Qed.

Lemma poll_enough (file : str) (dl : handle) (n : nat) :
  forall fuel i lp lt,
    (n < fuel)%nat ->
    (forall j, (i <= j < i + n)%nat -> running (dl j) = true) ->
    running (dl (i + n)%nat) = false ->
    poll fuel file dl i lp lt
    = Some (log_lines file (observed dl i n) lp lt, (i + n)%nat).
Proof.
  induction n as [|n IH]; intros [|fuel] i lp lt Hf Hrun Hstop; try lia.
  - rewrite Nat.add_0_r in *. cbn. now rewrite Hstop.
  - cbn [poll]. rewrite (Hrun i) by lia.
    assert (IH' := fun lp lt =>
      IH fuel (S i) lp lt ltac:(lia)
         ltac:(intros j Hj; apply Hrun; lia)
         ltac:(replace (S i + n)%nat with (i + S n)%nat by lia; exact Hstop)).
    replace (i + S n)%nat with (S i + n)%nat by lia.
    unfold log_lines at 1, observed at 1. cbn [seq List.map logged].
    destruct (should_log _ _ _ _); rewrite IH'; reflexivity.
Qed.

Lemma poll_short (file : str) (dl : handle) :
  forall fuel n i lp lt,
    (fuel <= n)%nat ->
    (forall j, (i <= j < i + n)%nat -> running (dl j) = true) ->
    poll fuel file dl i lp lt = None.
Proof.
  induction fuel as [|fuel IH]; intros n i lp lt Hf Hrun; [reflexivity|].
  destruct n as [|n]; [lia|].
  cbn [poll]. rewrite (Hrun i) by lia.
  assert (IH' := fun lp lt =>
    IH n (S i) lp lt ltac:(lia) ltac:(intros j Hj; apply Hrun; lia)).
  destruct (should_log _ _ _ _); now rewrite IH'.
Qed.

(** C9.  On a download whose state is running (below 100 percent, not
    failed) at the first [k] tests of the loop and not at the next one,
    [_handle_download_progress] ends after exactly [k] iterations: it
    returns with any fuel above [k] and is still looping with less.  It
    logs at most one line per observation; the observation of an iteration
    is logged exactly when its percent is at least 5 above the last logged
    percent, or its time at least 2000 ms after the last logged time, or
    its percent is 100.  After the loop it logs the completion line and
    raises [Exception("Download failed")] exactly when the failure flag is
    set.  A download that advances by one percent every 50 ms, read every
    100 ms as the loop does, is logged at 0, 6, 12, ..., 96 percent; read
    every 50 ms, at 0, 5, 10, ..., 95 percent. *)
Theorem progress_throttling (file_name : str) (dl : handle) (k : nat)
        (Hrun : forall j, (j < k)%nat -> running (dl j) = true)
        (Hstop : running (dl k) = false) :
  (forall fuel, (k < fuel)%nat ->
     _handle_download_progress fuel dl file_name
     = Some (log_lines file_name (observed dl 0 k) (-1) 0
               ++ [completion_line file_name],
             if r_failed (dl k)
             then Raise (Exception (py "Download failed"))
             else Ok tt))
  /\ (forall fuel, (fuel <= k)%nat ->
        _handle_download_progress fuel dl file_name = None)
  /\ (List.length (log_lines file_name (observed dl 0 k) (-1) 0) <= k)%nat
  /\ (forall j, (j < k)%nat ->
        let s := r_sample (dl j) in
        let last := last_logged (observed dl 0 j) (-1) 0 in
        let rule :=
          (fst last + 5 <= s_progress s
           \/ 2000 <= s_time s - snd last
           \/ s_progress s = 100)%Z in
        (rule ->
         logged (observed dl 0 (S j)) (-1) 0
         = logged (observed dl 0 j) (-1) 0 ++ [s])
        /\ (~ rule ->
            logged (observed dl 0 (S j)) (-1) 0
            = logged (observed dl 0 j) (-1) 0))
  /\ List.map s_progress (logged (observed (steady start_ms 100) 0 50) (-1) 0)
     = [0; 6; 12; 18; 24; 30; 36; 42; 48; 54; 60; 66; 72; 78; 84; 90; 96]%Z
  /\ List.map s_progress (logged (observed (steady start_ms 50) 0 100) (-1) 0)
     = [0; 5; 10; 15; 20; 25; 30; 35; 40; 45; 50; 55; 60; 65; 70; 75; 80;
        85; 90; 95]%Z.
Proof.
  split; [|split; [|split; [|split; [|split]]]].
  - intros fuel Hf. unfold _handle_download_progress.
    rewrite (@poll_enough file_name dl k fuel 0 (-1) 0 Hf);
      [reflexivity | intros j Hj; apply Hrun; lia | exact Hstop].
  - intros fuel Hf. unfold _handle_download_progress.
    rewrite (@poll_short file_name dl fuel k 0 (-1) 0 Hf);
      [reflexivity | intros j Hj; apply Hrun; lia].
  - unfold log_lines. rewrite length_map.
    etransitivity; [apply logged_length|].
    unfold observed. now rewrite length_map, length_seq.
  - intros j Hj s last rule.
    rewrite observed_S, logged_snoc. cbn [Nat.add]. fold s. fold last.
    split; intros Hr.
    + apply should_log_iff in Hr. now rewrite Hr.
    + destruct (should_log _ _ _ _) eqn:Hs.
      * apply should_log_iff in Hs. contradiction.
      * apply app_nil_r.
  - vm_compute. reflexivity.
  - vm_compute. reflexivity.
Qed.

Lemma progress_throttling_witness :
  _handle_download_progress 51 (steady start_ms 100) (py "model.onnx")
  = Some (log_lines (py "model.onnx")
                    (observed (steady start_ms 100) 0 50) (-1) 0
            ++ [completion_line (py "model.onnx")],
          Ok tt).
Proof.
  assert (Hrun : forall j, (j < 50)%nat ->
                           running (steady start_ms 100 j) = true).
  { intros j Hj. do 50 (destruct j as [|j]; [reflexivity|]). lia. }
  exact (proj1 (@progress_throttling (py "model.onnx")
                  (steady start_ms 100) 50 Hrun eq_refl) 51%nat
               (Nat.lt_succ_diag_r 50)).
Defined.

End ProgressFacts.

(** ** Reasoning about the effects *)

Module Frame.
Import BaseTool WorldRelations.

Section Structure.
Variable R : world -> world -> Prop.
Hypothesis HR : frame R.

Lemma preserves_ret {A} (a : A) : preserves R (ret a).
Proof. intros w r w' H; inversion H; subst; apply (frame_refl HR). Qed.

Lemma preserves_raise {A} (e : exn) : preserves R (@raise A e).
Proof. intros w r w' H; inversion H; subst; apply (frame_refl HR). Qed.

Lemma preserves_get : preserves R get.
Proof. intros w r w' H; inversion H; subst; apply (frame_refl HR). Qed.

Lemma preserves_bind {A B} (m : M A) (k : A -> M B) :
  preserves R m -> (forall a, preserves R (k a)) -> preserves R (bind m k).
Proof.
  intros Hm Hk w r w'. unfold bind.
  destruct (m w) as [[a|e] w1] eqn:E; intros H.
  - eapply (frame_trans HR); [eapply Hm; eauto | eapply Hk; eauto].
  - inversion H; subst. eapply Hm; eauto.
Qed.

Lemma preserves_try {A} (m : M A) (h : exn -> M A) :
  preserves R m -> (forall e, preserves R (h e)) ->
  preserves R (try_except m h).
Proof.
  intros Hm Hh w r w'. unfold try_except.
  destruct (m w) as [[a|e] w1] eqn:E; intros H.
  - inversion H; subst. eapply Hm; eauto.
  - eapply (frame_trans HR); [eapply Hm; eauto | eapply Hh; eauto].
Qed.

Lemma preserves_when (b : bool) (m : M unit) :
  preserves R m -> preserves R (when b m).
Proof. destruct b; cbn; auto using preserves_ret. Qed.

Lemma preserves_for_each {A} (l : list A) (body : A -> M unit) :
  (forall a, preserves R (body a)) -> preserves R (for_each l body).
Proof.
  intros Hb. induction l as [|a l IH]; cbn [for_each].
  - apply preserves_ret.
  - apply preserves_bind; auto.
Qed.

End Structure.

Lemma frame_same_cache : frame same_cache.
Proof. split; unfold same_cache; congruence. Qed.

Lemma frame_no_transfer : frame no_transfer.
Proof. split; unfold no_transfer; congruence. Qed.

Lemma frame_more_transfers : frame more_transfers.
Proof. split; unfold more_transfers; intros; lia. Qed.

Lemma frame_same_fs : frame same_fs.
Proof. split; unfold same_fs; congruence. Qed.

Lemma frame_keeps (p : str) : frame (keeps p).
Proof. split; unfold keeps; auto. Qed.

Lemma frame_deletes_only (S : str -> Prop) : frame (deletes_only S).
Proof.
  split; unfold deletes_only.
  - intros w p H1 H2. congruence.
  - intros w1 w2 w3 H12 H23 p H1 H3.
    destruct (fs_exists p (w_fs w2)) eqn:E2; eauto.
Qed.

(** *** The primitive effects *)

Ltac prim :=
  let H := fresh "H" in
  intros ? ? ? H;
  cbv [emit set_fs set_cache next_tick get ret bind] in H;
  inversion H; subst; clear H.

Lemma transfers_emit (e : event) (f : filesystem)
      (c : list (str * toolkit_doc)) (evs : list event) (t : nat) :
  transfers {| w_fs := f; w_cache := c; w_events := e :: evs; w_tick := t |}
  = ((if is_transfer e then 1 else 0)
     + List.length (filter is_transfer evs))%nat.
Proof. unfold transfers; cbn. destruct (is_transfer e); reflexivity. Qed.

Lemma emit_same_cache e : preserves same_cache (emit e).
Proof. prim. reflexivity. Qed.

Lemma emit_same_fs e : preserves same_fs (emit e).
Proof. prim. reflexivity. Qed.

Lemma emit_keeps p e : preserves (keeps p) (emit e).
Proof. prim. unfold keeps; auto. Qed.

Lemma emit_deletes_only S e : preserves (deletes_only S) (emit e).
Proof. prim. unfold deletes_only; cbn; congruence. Qed.

Lemma emit_no_transfer e :
  is_transfer e = false -> preserves no_transfer (emit e).
Proof.
  intros He. prim. unfold no_transfer. rewrite transfers_emit, He.
  reflexivity.
Qed.

Lemma emit_more_transfers e : preserves more_transfers (emit e).
Proof.
  prim. unfold more_transfers. rewrite transfers_emit.
  unfold transfers. lia.
Qed.

Lemma set_fs_same_cache f : preserves same_cache (set_fs f).
Proof. prim. reflexivity. Qed.

Lemma set_fs_no_transfer f : preserves no_transfer (set_fs f).
Proof. prim. reflexivity. Qed.

Lemma set_fs_more_transfers f : preserves more_transfers (set_fs f).
Proof. prim. unfold more_transfers, transfers; cbn; lia. Qed.

Lemma tick_same_cache : preserves same_cache next_tick.
Proof. prim. reflexivity. Qed.

Lemma tick_no_transfer : preserves no_transfer next_tick.
Proof. prim. reflexivity. Qed.

Lemma tick_more_transfers : preserves more_transfers next_tick.
Proof. prim. unfold more_transfers, transfers; cbn; lia. Qed.

Lemma tick_same_fs : preserves same_fs next_tick.
Proof. prim. reflexivity. Qed.

Lemma tick_keeps p : preserves (keeps p) next_tick.
Proof. prim. unfold keeps; auto. Qed.

Lemma tick_deletes_only S : preserves (deletes_only S) next_tick.
Proof. prim. unfold deletes_only; cbn; congruence. Qed.

Lemma set_cache_no_transfer c : preserves no_transfer (set_cache c).
Proof. prim. reflexivity. Qed.

Lemma set_cache_more_transfers c : preserves more_transfers (set_cache c).
Proof. prim. unfold more_transfers, transfers; cbn; lia. Qed.

Lemma set_cache_same_fs c : preserves same_fs (set_cache c).
Proof. prim. reflexivity. Qed.

Lemma set_cache_keeps p c : preserves (keeps p) (set_cache c).
Proof. prim. unfold keeps; auto. Qed.

Create HintDb frame discriminated.

#[export] Hint Resolve
  frame_same_cache frame_no_transfer frame_more_transfers frame_same_fs
  frame_keeps frame_deletes_only
  emit_same_cache emit_same_fs emit_keeps emit_deletes_only
  emit_more_transfers set_fs_same_cache set_fs_no_transfer
  set_fs_more_transfers tick_same_cache tick_no_transfer
  tick_more_transfers tick_same_fs tick_keeps tick_deletes_only
  set_cache_no_transfer set_cache_more_transfers set_cache_same_fs
  set_cache_keeps : frame.

#[export] Hint Extern 1 (preserves no_transfer (emit _)) =>
  apply emit_no_transfer; reflexivity : frame.

(** One step through the structure of a computation. *)
Ltac frame_step :=
  lazymatch goal with
  | |- preserves _ (bind _ _) =>
      apply preserves_bind; [solve [auto with frame] | | intros ?]
  | |- preserves _ (try_except _ _) =>
      apply preserves_try; [solve [auto with frame] | | intros ?]
  | |- preserves _ (ret _) => apply preserves_ret; auto with frame
  | |- preserves _ (raise _) => apply preserves_raise; auto with frame
  | |- preserves _ get => apply preserves_get; auto with frame
  | |- preserves _ (when _ _) => apply preserves_when; [auto with frame|]
  | |- preserves _ (for_each _ _) =>
      apply preserves_for_each; [auto with frame | intros ?]
  | |- preserves _ (if ?b then _ else _) => destruct b
  | |- preserves _ (match ?x with _ => _ end) => destruct x
  end.

Ltac frame_auto := repeat (first [ solve [auto with frame] | frame_step ]).

End Frame.

(** ** What the operations of the SDK leave untouched *)

Module OpFacts.
Import BaseTool WorldRelations Frame.

Ltac unfold_op :=
  unfold report, log, now_ms, path_exists, makedirs, chmod, remove, listdir,
    start_transfer, subprocess_run, BaseTool._handle_download_progress,
    _download_binary, _remove_quarantine_attribute,
    _delete_older_binary_versions, prune_versions,
    _download_binary_on_demand,
    can_access_hugging_face, set_hugging_face_url, download_resource_file,
    downloading_resource, download_resource, check_resource,
    get_resource_path, get_binary_path, ToolkitConfig.load.

Ltac frame_ops :=
  repeat (first [ solve [auto with frame] | frame_step
                | progress unfold_op ]).

Section Ops.
Context {RT : PyRuntime}.
Variable E : env.
Variable toolkit tool_name : str.
Variable cli_progress : bool.

Lemma is_resource_complete_run (resource_path : str) (urls : list str)
      (w : world) :
  exists r, _is_resource_complete E resource_path urls w = (r, w).
Proof.
  induction urls as [|u urls IH]; cbn [_is_resource_complete].
  - eexists; reflexivity.
  - destruct (resource_file_name E u); [|eexists; reflexivity].
    cbv [bind get ret].
    destruct (missing_or_empty _ _); [eexists; reflexivity | apply IH].
Qed.

Lemma is_resource_complete_preserves (R : world -> world -> Prop)
      (resource_path : str) (urls : list str) :
  frame R -> preserves R (_is_resource_complete E resource_path urls).
Proof.
  intros HR w r w' H.
  destruct (is_resource_complete_run resource_path urls w) as [r0 H0].
  rewrite H0 in H. inversion H; subst. apply (frame_refl HR).
Qed.

Lemma load_no_transfer (tk tn : str) :
  preserves no_transfer (ToolkitConfig.load E tk tn).
Proof. frame_ops. Qed.

Lemma load_same_fs (tk tn : str) :
  preserves same_fs (ToolkitConfig.load E tk tn).
Proof. frame_ops. Qed.

Lemma get_binary_path_more_transfers (name : str) (skip : bool) :
  preserves more_transfers
            (get_binary_path E toolkit tool_name cli_progress name skip).
Proof. frame_ops. Qed.

End Ops.
End OpFacts.

(** ** The filesystem and its paths *)

Module FsFacts.
Import BaseTool.


Lemma lookup_delete_other (p q : str) (f : filesystem) :
  q <> p -> fs_lookup q (fs_delete p f) = fs_lookup q f.
Proof.
  intros Hne. unfold fs_delete.
  induction f as [|[k n] f IH]; cbn [filter fst fs_lookup]; [reflexivity|].
  destruct (eqb k p) eqn:E; cbn [negb fs_lookup].
  - apply PyStrFacts.eqb_eq in E; subst k.
    destruct (eqb p q) eqn:E'; [|exact IH].
    apply PyStrFacts.eqb_eq in E'. congruence.
  - now rewrite IH.
Qed.

Lemma lookup_write_same (p : str) (n : node) (f : filesystem) :
  fs_lookup p (fs_write p n f) = Some n.
Proof. unfold fs_write; cbn. now rewrite PyStrFacts.eqb_refl. Qed.

Lemma lookup_write_other (p q : str) (n : node) (f : filesystem) :
  q <> p -> fs_lookup q (fs_write p n f) = fs_lookup q f.
Proof.
  intros Hne. unfold fs_write; cbn.
  destruct (eqb p q) eqn:E.
  - apply PyStrFacts.eqb_eq in E. congruence.
  - now apply lookup_delete_other.
Qed.

Lemma exists_write (p q : str) (n : node) (f : filesystem) :
  fs_exists q f = true -> fs_exists q (fs_write p n f) = true.
Proof.
  unfold fs_exists. destruct (PyStrFacts.eqb_spec q p) as [->|Hne].
  - now rewrite lookup_write_same.
  - now rewrite lookup_write_other.
Qed.

Lemma lookup_add_dir (p q : str) (f : filesystem) :
  fs_exists p f = true -> fs_lookup p (add_dir f q) = fs_lookup p f.
Proof.
  intros Hp. unfold add_dir. destruct (fs_exists q f) eqn:Hq; [reflexivity|].
  apply lookup_write_other. intros ->. congruence.
Qed.

Lemma exists_add_dir (p q : str) (f : filesystem) :
  fs_exists p f = true -> fs_exists p (add_dir f q) = true.
Proof. intros Hp. unfold fs_exists. now rewrite lookup_add_dir. Qed.

Lemma lookup_add_dirs (p : str) (l : list str) (f : filesystem) :
  fs_exists p f = true ->
  fs_lookup p (fold_left add_dir l f) = fs_lookup p f.
Proof.
  revert f; induction l as [|q l IH]; intros f Hp; cbn; [reflexivity|].
  rewrite IH by now apply exists_add_dir. now apply lookup_add_dir.
Qed.


Lemma exists_of_content (p : str) (f : filesystem) :
  missing_or_empty p f = false -> fs_exists p f = true.
Proof.
  unfold missing_or_empty, fs_exists. destruct (fs_lookup p f); congruence.
Qed.

(** *** Joined paths *)

Section Paths.
Variable nt : bool.

Lemma join_name (d n : str) :
  OsPath.is_name nt n = true ->
  OsPath.join nt d n = OsPath.dir_prefix nt d ++ n.
Proof.
  unfold OsPath.is_name, OsPath.join. destruct n as [|c n]; [discriminate|].
  cbn [existsb]. intros H. apply negb_true_iff, orb_false_iff in H as [Hc _].
  now rewrite Hc.
Qed.




Lemma strip_prefix_app (pre p n : str) :
  OsPath.strip_prefix pre p = Some n -> p = pre ++ n.
Proof.
  revert p; induction pre as [|x pre IH]; intros [|y p]; cbn;
    try congruence.
  unfold char_eqb. destruct (N.eqb_spec x y) as [->|]; [|discriminate].
  intros H. now rewrite (IH _ H).
Qed.

Lemma entries_spec (d : str) (f : filesystem) (n : str) :
  In n (OsPath.entries nt d f) ->
  OsPath.is_name nt n = true /\ fs_exists (OsPath.join nt d n) f = true.
Proof.
  induction f as [|[k x] f IH]; cbn [OsPath.entries]; [intros []|].
  assert (Hrest : In n (OsPath.entries nt d f) ->
                  OsPath.is_name nt n = true
                  /\ fs_exists (OsPath.join nt d n) ((k, x) :: f) = true).
  { intros Hin. destruct (IH Hin) as [Hn He]. split; [exact Hn|].
    unfold fs_exists in *. cbn [fs_lookup].
    destruct (eqb k (OsPath.join nt d n)); [reflexivity | exact He]. }
  destruct (OsPath.strip_prefix (OsPath.dir_prefix nt d) k) as [m|] eqn:Es;
    [|exact Hrest].
  destruct (OsPath.is_name nt m
            && negb (existsb (eqb m) (OsPath.entries nt d f))) eqn:Ec;
    [|exact Hrest].
  intros [<-|Hin]; [|now apply Hrest].
  apply andb_true_iff in Ec as [Hm _]. split; [exact Hm|].
  rewrite (join_name d m Hm), <- (strip_prefix_app _ _ Es).
  unfold fs_exists. cbn [fs_lookup]. now rewrite PyStrFacts.eqb_refl.
Qed.


End Paths.
End FsFacts.

(** ** The configuration registry and the missing binary URL *)

Module ConfigFacts.
Import BaseTool WorldRelations Frame OpFacts Examples.

(** Run the monadic primitives in the goal. *)
Ltac mrun :=
  cbv beta iota zeta delta
      [bind ret raise try_except emit get set_fs set_cache next_tick when
       report log path_exists];
  cbn [w_fs w_cache w_events w_tick fst snd].

Ltac mrun_in H :=
  cbv beta iota zeta delta
      [bind ret raise try_except emit get set_fs set_cache next_tick when
       report log path_exists] in H;
  cbn [w_fs w_cache w_events w_tick fst snd] in H.

Section Registry.
Context {RT : PyRuntime}.
Variable E : env.

Lemma load_effect (tk tn : str) (w : world) r w1 :
  ToolkitConfig.load E tk tn w = (r, w1) ->
  w_fs w1 = w_fs w /\ w_events w1 = w_events w /\ w_tick w1 = w_tick w.
Proof.
  unfold ToolkitConfig.load. mrun.
  destruct (ToolkitConfig.dict_get tk (w_cache w)) as [d|].
  - destruct (ToolkitConfig.dict_get tn _) as [c|];
      [destruct (ToolkitConfig.config_is_empty c)|];
      intros H; inversion H; subst; auto.
  - destruct (e_document E _) as [d|msg|e]; cbn [w_fs w_cache w_events w_tick];
      [ destruct (ToolkitConfig.dict_get tn _) as [c|];
        [destruct (ToolkitConfig.config_is_empty c)|] | | ];
      intros H; inversion H; subst; auto.
Qed.

Lemma load_cached (tk tn : str) (w : world) c w1 :
  ToolkitConfig.load E tk tn w = (Ok c, w1) ->
  forall w', w_cache w' = w_cache w1 ->
             ToolkitConfig.load E tk tn w' = (Ok c, w').
Proof.
  unfold ToolkitConfig.load. mrun.
  destruct (ToolkitConfig.dict_get tk (w_cache w)) as [d|] eqn:Ec.
  - destruct (ToolkitConfig.dict_get tn _) as [c'|] eqn:Et;
      [destruct (ToolkitConfig.config_is_empty c') eqn:Ee|];
      intros H; inversion H; subst.
    intros w' Hc. rewrite Hc, Ec, Et, Ee. reflexivity.
  - destruct (e_document E _) as [d|msg|e]; cbn [w_fs w_cache w_events w_tick];
      [ destruct (ToolkitConfig.dict_get tn _) as [c'|] eqn:Et;
        [destruct (ToolkitConfig.config_is_empty c') eqn:Ee|] | | ];
      intros H; inversion H; subst.
    intros w' Hc. rewrite Hc. cbn [ToolkitConfig.dict_get w_cache].
    rewrite PyStrFacts.eqb_refl, Et, Ee. reflexivity.
Qed.

End Registry.

(** C7.  When the configuration of the tool declares no binary for the
    platform tag of the host, [get_binary_url] returns no URL (it is a total
    function: it cannot raise), and [get_binary_path], with
    [skip_binary_download] unset, raises the exception "No download URL
    found for binary ..." after its two status events: it leaves the
    filesystem as it is, creates no directory, not even the bins directory,
    and starts no transfer. *)
Theorem no_binary_url {RT : PyRuntime} (E : env) (toolkit tool_name : str)
        (cli_progress : bool) (binary_name : str) (w : world)
        (config : tool_config) (w1 : world) :
  ToolkitConfig.load E toolkit (tool_config_name tool_name) w
  = (Ok config, w1) ->
  (forall binaries, cfg_binaries config = Some binaries ->
     ToolkitConfig.dict_get (Utils.get_platform_name (e_host E)) binaries
     = None) ->
  ToolkitConfig.get_binary_url E config = None
  /\ exists w2,
      get_binary_path E toolkit tool_name cli_progress binary_name false w
      = (Raise (Exception (py "No download URL found for binary '"
                           ++ binary_name ++ py "'")), w2)
      /\ w_fs w2 = w_fs w
      /\ w_events w2
         = Report (py "bridges.tools.no_binary_url")
                  [field "binary_name" binary_name] None
           :: Report (py "bridges.tools.checking_binary")
                     [field "binary_name" binary_name] None
           :: w_events w
      /\ filter is_makedirs (w_events w2) = filter is_makedirs (w_events w)
      /\ transfers w2 = transfers w.
Proof.
  intros Hload Hbin.
  assert (Hurl : ToolkitConfig.get_binary_url E config = None).
  { unfold ToolkitConfig.get_binary_url.
    destruct (cfg_binaries config) as [b|] eqn:Eb; [now apply Hbin|].
    reflexivity. }
  split; [exact Hurl|].
  destruct (load_effect _ _ _ _ Hload) as (Hfs & Hev & Htk).
  unfold get_binary_path. mrun. rewrite Hload, Hurl. mrun.
  eexists. split; [reflexivity|]. cbn [w_fs w_events].
  rewrite Hfs, Hev. repeat split; reflexivity.
Qed.

Lemma no_binary_url_witness :
  ToolkitConfig.get_binary_url (RT := ascii_runtime) macos_env ffmpeg_config
  = None.
Proof.
  refine (proj1 (@no_binary_url ascii_runtime macos_env video_toolkit
                   ffmpeg_tool true (py "ffmpeg") empty_world
                   ffmpeg_config loaded_world _ _)).
  - vm_compute. reflexivity.
  - intros binaries H. injection H as <-. vm_compute. reflexivity.
Defined.

End ConfigFacts.

(** ** Version pruning *)

Module PruneFacts.
Import BaseTool WorldRelations Frame OpFacts FsFacts ConfigFacts Examples.

Lemma for_each_ext {A} (l : list A) (f g : A -> M unit) :
  (forall a w, f a w = g a w) ->
  forall w, for_each l f w = for_each l g w.
Proof.
  intros H. induction l as [|a l IH]; intros w; cbn [for_each];
    [reflexivity|].
  unfold bind. rewrite H. destruct (g a w) as [[[]|e] w1]; [apply IH|].
  reflexivity.
Qed.

Lemma preserves_bind_post {A B} (R : world -> world -> Prop) (P : A -> Prop)
      (m : M A) (k : A -> M B) :
  frame R ->
  (forall w a w', m w = (Ok a, w') -> P a) ->
  preserves R m -> (forall a, P a -> preserves R (k a)) ->
  preserves R (bind m k).
Proof.
  intros HR HP Hm Hk w r w'. unfold bind.
  destruct (m w) as [[a|e] w1] eqn:Em; intros H.
  - eapply (frame_trans HR); [eapply Hm; eauto|].
    eapply (Hk a); eauto.
  - inversion H; subst. eapply Hm; eauto.
Qed.

Lemma preserves_for_each_in {A} (R : world -> world -> Prop) (l : list A)
      (body : A -> M unit) :
  frame R ->
  (forall a, In a l -> preserves R (body a)) ->
  preserves R (for_each l body).
Proof.
  intros HR. induction l as [|a l IH]; intros Hb; cbn [for_each].
  - now apply preserves_ret.
  - apply preserves_bind; [exact HR | apply Hb; now left |].
    intros _. apply IH. intros b Hin. apply Hb. now right.
Qed.

Section Prune.
Context {RT : PyRuntime}.
Variable E : env.
Variable bins new : str.

Lemma superseded_iff (file : str) :
  VersionedName.superseded new file = true
  <-> exists base version platform file_version,
      VersionedName.parse new = Some (base, version, platform)
      /\ VersionedName.parse file = Some (base, file_version, platform)
      /\ file_version <> version.
Proof.
  unfold VersionedName.superseded.
  destruct (VersionedName.parse new) as [[[b v] p]|].
  2: { split; [discriminate|]. intros (?&?&?&?&H&_); discriminate. }
  destruct (VersionedName.parse file) as [[[fb fv] fp]|].
  2: { split; [discriminate|]. intros (?&?&?&?&_&H&_); discriminate. }
  rewrite !andb_true_iff, negb_true_iff, !PyStrFacts.eqb_eq,
    PyStrFacts.eqb_neq.
  split.
  - intros [[-> ->] Hv]. now exists b, v, p, fv.
  - intros (b' & v' & p' & fv' & Hn & Hf & Hv).
    inversion Hn; inversion Hf; subst. auto.
Qed.

Lemma superseded_irrefl : VersionedName.superseded new new = false.
Proof.
  destruct (VersionedName.superseded new new) eqn:H; [|reflexivity].
  apply superseded_iff in H as (b & v & p & fv & Hn & Hf & Hv).
  rewrite Hn in Hf. inversion Hf. congruence.
Qed.

Lemma prune_body (b v p : str) (file : str) (w : world) :
  VersionedName.parse new = Some (b, v, p) ->
  match VersionedName.parse file with
  | None => ret tt
  | Some (file_base_name, file_version, file_platform) =>
      if eqb file_base_name b && eqb file_platform p
         && negb (eqb file_version v)
      then
        report "bridges.tools.deleting_old_version"
               [field "old_version" file; field "new_version" new] None ;;
        remove (path_join E bins file) ;;
        report "bridges.tools.old_version_deleted"
               [field "deleted_file" file] None
      else ret tt
  end w
  = prune_one E bins new file w.
Proof.
  intros Hn. unfold prune_one, VersionedName.superseded. rewrite Hn.
  destruct (VersionedName.parse file) as [[[fb fv] fp]|]; [|reflexivity].
  destruct (eqb fb b && eqb fp p && negb (eqb fv v)); reflexivity.
Qed.

Lemma prune_versions_run (w : world) :
  prune_versions E bins new w
  = match VersionedName.parse new with
    | None => (Ok tt, w)
    | Some _ =>
        if fs_exists bins (w_fs w)
        then bind (listdir E bins)
                  (fun files => for_each files (prune_one E bins new)) w
        else (Ok tt, w)
    end.
Proof.
  unfold prune_versions.
  destruct (VersionedName.parse new) as [[[b v] p]|] eqn:Hn; [|reflexivity].
  mrun. destruct (fs_exists bins (w_fs w)); cbn [negb]; [|reflexivity].
  destruct (listdir E bins w) as [[files|e] w1]; [|reflexivity].
  apply for_each_ext. intros file w2. now apply prune_body with (v := v).
Qed.

Lemma remove_deletes_only (S : str -> Prop) (q : str) :
  S q -> preserves (deletes_only S) (remove q).
Proof.
  intros HS w r w'. unfold remove. mrun.
  destruct (fs_lookup q (w_fs w)) as [n|];
    [destruct (n_dir n)|]; intros H; inversion H; subst; clear H;
    intros p Hp Hp'; cbn [w_fs] in *; try congruence.
  destruct (PyStrFacts.eqb_spec p q) as [->|Hne]; [exact HS|].
  unfold fs_exists in *. rewrite lookup_delete_other in Hp' by exact Hne.
  congruence.
Qed.

Lemma remove_keeps (p q : str) :
  q <> p -> preserves (keeps p) (remove q).
Proof.
  intros Hne w r w'. unfold remove. mrun.
  destruct (fs_lookup q (w_fs w)) as [n|];
    [destruct (n_dir n)|]; intros H; inversion H; subst; clear H;
    intros Hp; cbn [w_fs] in *; try assumption.
  unfold fs_exists in *. rewrite lookup_delete_other; auto.
Qed.

Lemma listdir_names (d : str) (w : world) (files : list str) (w' : world) :
  listdir E d w = (Ok files, w') ->
  w' = w /\ files = OsPath.entries (is_windows E) d (w_fs w).
Proof.
  unfold listdir. mrun.
  destruct (fs_lookup d (w_fs w)) as [n|]; [destruct (n_dir n)|];
    intros H; inversion H; auto.
Qed.

Lemma prune_one_deletes_only (file : str) :
  OsPath.is_name (is_windows E) file = true ->
  preserves (deletes_only (prunable E bins new)) (prune_one E bins new file).
Proof.
  intros Hname. unfold prune_one.
  destruct (VersionedName.superseded new file) eqn:Hs; [|frame_ops].
  apply preserves_bind; [auto with frame | frame_ops | intros _].
  apply preserves_bind; [auto with frame | | intros _; frame_ops].
  apply remove_deletes_only. now exists file.
Qed.

Lemma prune_versions_deletes_only :
  preserves (deletes_only (prunable E bins new)) (prune_versions E bins new).
Proof.
  intros w r w'. rewrite prune_versions_run.
  destruct (VersionedName.parse new);
    [| intros H; inversion H; subst; apply frame_deletes_only].
  destruct (fs_exists bins (w_fs w));
    [| intros H; inversion H; subst; apply frame_deletes_only].
  revert w r w'.
  apply preserves_bind_post
    with (P := Forall (fun f => OsPath.is_name (is_windows E) f = true));
    [auto with frame | | frame_ops |].
  - intros w a w' H. apply listdir_names in H as [_ ->].
    apply Forall_forall. intros f Hf. now apply entries_spec in Hf.
  - intros files Hfiles. apply preserves_for_each_in; [auto with frame|].
    intros f Hf. apply prune_one_deletes_only.
    now apply (proj1 (Forall_forall _ _) Hfiles).
Qed.




End Prune.



Example pruned_directory :
  OsPath.entries false video_bins
    (w_fs (snd (_delete_older_binary_versions (RT := ascii_runtime)
                  linux_env video_bins (py "ffmpeg_1.1.0-linux-x86_64")
                  crowded_world)))
  = [py "ffmpeg_1.1.0-linux-x86_64"; py "ffmpeg_1.0.0-macosx-arm64";
     py "ffprobe_1.0.0-linux-x86_64"; py "README"].
Proof. vm_compute. reflexivity. Qed.

End PruneFacts.

(** ** Acquiring a binary *)

Module BinaryFacts.
Import BaseTool WorldRelations MoreRelations Frame OpFacts FsFacts
       ConfigFacts PruneFacts Examples.

(** *** Inversion of runs *)

Lemma bind_ok_inv {A B} (m : M A) (k : A -> M B) w b w' :
  bind m k w = (Ok b, w') ->
  exists a w1, m w = (Ok a, w1) /\ k a w1 = (Ok b, w').
Proof.
  unfold bind. destruct (m w) as [[a|e] w1]; [eauto | discriminate].
Qed.

Lemma try_ok_inv {A} (m : M A) (h : exn -> M A) w a w' :
  try_except m h w = (Ok a, w') ->
  (forall e w1 a' w2, h e w1 <> (Ok a', w2)) ->
  m w = (Ok a, w').
Proof.
  unfold try_except. destruct (m w) as [[a0|e] w1]; [auto|].
  intros H Hh. now apply Hh in H.
Qed.

Lemma when_inv (b : bool) (m : M unit) w r w' :
  when b m w = (r, w') ->
  (b = true /\ m w = (r, w')) \/ (b = false /\ r = Ok tt /\ w' = w).
Proof.
  destruct b; cbn; [left; auto|]. intros H; inversion H; auto.
Qed.

Lemma try_raise_inv {A} (m : M A) (h : exn -> M A) w e w' :
  try_except m h w = (Raise e, w') ->
  exists e0 w1, m w = (Raise e0, w1) /\ h e0 w1 = (Raise e, w').
Proof.
  unfold try_except. destruct (m w) as [[a|e0] w1]; intros H.
  - discriminate.
  - eauto.
Qed.

Lemma bind_inv {A B} (m : M A) (k : A -> M B) w r w' :
  bind m k w = (r, w') ->
  (exists a w1, m w = (Ok a, w1) /\ k a w1 = (r, w'))
  \/ (exists e, m w = (Raise e, w') /\ r = Raise e).
Proof.
  unfold bind. destruct (m w) as [[a|e] w1]; intros H.
  - left; eauto.
  - right. inversion H; subst. eauto.
Qed.

Lemma bind_ok {A B} (m : M A) (k : A -> M B) w a w1 :
  m w = (Ok a, w1) -> bind m k w = k a w1.
Proof. unfold bind. now intros ->. Qed.

Lemma bind_raise {A B} (m : M A) (k : A -> M B) w e w1 :
  m w = (Raise e, w1) -> bind m k w = (Raise e, w1).
Proof. unfold bind. now intros ->. Qed.

Lemma try_ok {A} (m : M A) (h : exn -> M A) w a w1 :
  m w = (Ok a, w1) -> try_except m h w = (Ok a, w1).
Proof. unfold try_except. now intros ->. Qed.

Lemma try_raise {A} (m : M A) (h : exn -> M A) w e w1 :
  m w = (Raise e, w1) -> try_except m h w = h e w1.
Proof. unfold try_except. now intros ->. Qed.

(** Run a computation forward along the runs of its parts. *)
Ltac forward H := erewrite bind_ok; [|exact H].

(** *** What the filesystem calls keep *)

Section Keeps.
Context {RT : PyRuntime}.
Variable E : env.

Lemma makedirs_keeps (p q : str) : preserves (keeps p) (makedirs E q).
Proof.
  intros w r w'. unfold makedirs. mrun. intros H; inversion H; subst.
  intros Hp. cbn [w_fs] in *. unfold fs_exists.
  rewrite lookup_add_dirs; assumption.
Qed.

Lemma makedirs_lookup (p q : str) (w : world) r w' :
  makedirs E q w = (r, w') ->
  fs_exists p (w_fs w) = true ->
  fs_lookup p (w_fs w') = fs_lookup p (w_fs w).
Proof.
  unfold makedirs. mrun. intros H; inversion H; subst. cbn [w_fs].
  apply lookup_add_dirs.
Qed.

Lemma chmod_keeps (p q : str) (mode : N) : preserves (keeps p) (chmod q mode).
Proof.
  intros w r w'. unfold chmod. mrun.
  destruct (fs_lookup q (w_fs w)); intros H; inversion H; subst;
    intros Hp; cbn [w_fs] in *; auto using exists_write.
Qed.

Lemma start_transfer_keeps (p url dest : str) :
  preserves (keeps p) (start_transfer E url dest).
Proof.
  intros w r w'. unfold start_transfer. mrun.
  destruct (tr_written _) as [size|]; cbn [w_fs w_events w_cache w_tick];
    destruct (tr_error _); intros H; inversion H; subst;
    intros Hp; cbn [w_fs] in *; auto using exists_write.
Qed.



End Keeps.

#[export] Hint Resolve makedirs_keeps chmod_keeps start_transfer_keeps
  : frame.

(** *** Counting the transfers *)

Lemma within_of_no_transfer {A} (n : nat) (m : M A) :
  preserves no_transfer m -> preserves (within n) m.
Proof.
  intros H w r w' Hrun. specialize (H w r w' Hrun).
  unfold no_transfer, within in *. lia.
Qed.

Lemma within_bind_l {A B} (n : nat) (m : M A) (k : A -> M B) :
  preserves no_transfer m -> (forall a, preserves (within n) (k a)) ->
  preserves (within n) (bind m k).
Proof.
  intros Hm Hk w r w'. unfold bind.
  destruct (m w) as [[a|e] w1] eqn:Em; intros H.
  - specialize (Hm _ _ _ Em). specialize (Hk a _ _ _ H).
    unfold no_transfer, within in *. lia.
  - inversion H; subst. specialize (Hm _ _ _ Em).
    unfold no_transfer, within in *. lia.
Qed.

Lemma within_bind_r {A B} (n : nat) (m : M A) (k : A -> M B) :
  preserves (within n) m -> (forall a, preserves no_transfer (k a)) ->
  preserves (within n) (bind m k).
Proof.
  intros Hm Hk w r w'. unfold bind.
  destruct (m w) as [[a|e] w1] eqn:Em; intros H.
  - specialize (Hm _ _ _ Em). specialize (Hk a _ _ _ H).
    unfold no_transfer, within in *. lia.
  - inversion H; subst. exact (Hm _ _ _ Em).
Qed.

Lemma within_try {A} (n : nat) (m : M A) (h : exn -> M A) :
  preserves (within n) m -> (forall e, preserves no_transfer (h e)) ->
  preserves (within n) (try_except m h).
Proof.
  intros Hm Hh w r w'. unfold try_except.
  destruct (m w) as [[a|e] w1] eqn:Em; intros H.
  - inversion H; subst. exact (Hm _ _ _ Em).
  - specialize (Hm _ _ _ Em). specialize (Hh e _ _ _ H).
    unfold no_transfer, within in *. lia.
Qed.

Lemma within_when (n : nat) (b : bool) (m : M unit) :
  preserves (within n) m -> preserves (within n) (when b m).
Proof.
  destruct b; cbn; [auto|]. intros _ w r w' H; inversion H; subst.
  unfold within; lia.
Qed.

Lemma start_transfer_within {RT : PyRuntime} (E : env) (url dest : str) :
  preserves (within 1) (start_transfer E url dest).
Proof.
  intros w r w'. unfold start_transfer. mrun.
  destruct (tr_written _) as [size|]; cbn [w_fs w_events w_cache w_tick];
    destruct (tr_error _); intros H; inversion H; subst;
    unfold within, transfers; cbn; lia.
Qed.

Lemma start_transfer_ok {RT : PyRuntime} (E : env) (url dest : str) w dl w' :
  start_transfer E url dest w = (Ok dl, w') ->
  transfers w' = S (transfers w).
Proof.
  unfold start_transfer. mrun.
  destruct (tr_written _) as [size|]; cbn [w_fs w_events w_cache w_tick];
    destruct (tr_error _); intros H; inversion H; subst;
    unfold transfers; cbn; lia.
Qed.

(** Exactly one transfer. *)






Ltac calm := solve [frame_ops].

Ltac within_step :=
  lazymatch goal with
  | |- preserves (within _) (start_transfer _ _ _) =>
      apply start_transfer_within
  | |- preserves (within _) (bind _ _) =>
      first [ apply within_bind_l; [calm | intros ?]
            | apply within_bind_r; [ | intros ?; calm] ]
  | |- preserves (within _) (try_except _ _) =>
      apply within_try; [ | intros ?; calm]
  | |- preserves (within _) (when _ _) => apply within_when
  | |- preserves (within _) (if ?b then _ else _) => destruct b
  | |- preserves (within _) (match ?x with _ => _ end) => destruct x
  end.

Ltac within_ops :=
  repeat (first [ solve [apply within_of_no_transfer; frame_ops]
                | within_step
                | progress unfold_op ]).

(** *** Paths that [makedirs] does not create *)




Section Download.
Context {RT : PyRuntime}.
Variable E : env.
Variable toolkit tool_name : str.
Variable cli_progress : bool.

Lemma download_binary_within (url p : str) :
  preserves (within 1) (_download_binary E cli_progress url p).
Proof. within_ops. Qed.

Lemma download_on_demand_within (name url exe : str) :
  preserves (within 1)
            (_download_binary_on_demand E toolkit cli_progress name url exe).
Proof. within_ops. Qed.

Lemma download_binary_ok (url p : str) w w' :
  _download_binary E cli_progress url p w = (Ok tt, w') ->
  missing_or_empty p (w_fs w') = false.
Proof.
  unfold _download_binary. intros H.
  apply try_ok_inv in H; [|intros e w1 a' w2; mrun; discriminate].
  do 5 (apply bind_ok_inv in H as (? & ? & _ & H)).
  mrun_in H.
  destruct (missing_or_empty p (w_fs _)) eqn:Hm; inversion H; subst.
  exact Hm.
Qed.







(** *** A call that does not find the file *)









End Download.




End BinaryFacts.

(** ** Acquiring a resource bundle *)

Module ResourceFacts.
Import BaseTool WorldRelations Frame OpFacts FsFacts ConfigFacts PruneFacts
       BinaryFacts Examples.

#[export] Hint Extern 2 (preserves _ (_is_resource_complete _ _ _)) =>
  apply is_resource_complete_preserves : frame.

Lemma for_each_app_raise {A} (f : A -> M unit) (pre : list A) (u : A)
      (post : list A) :
  forall w0 w1 e w2,
    for_each pre f w0 = (Ok tt, w1) ->
    f u w1 = (Raise e, w2) ->
    for_each (pre ++ u :: post) f w0 = (Raise e, w2).
Proof.
  induction pre as [|a pre IH]; intros w0 w1 e w2 Hpre Hu.
  - cbn in Hpre. inversion Hpre; subst. cbn [app for_each]. unfold bind.
    now rewrite Hu.
  - cbn [app for_each] in *. unfold bind in *.
    destruct (f a w0) as [[[]|e'] wa]; [|discriminate].
    eapply IH; eauto.
Qed.

Section Resource.
Context {RT : PyRuntime}.
Variable E : env.
Variable toolkit tool_name : str.
Variable cli_progress : bool.
Variable name : str.

Lemma is_resource_complete_spec (urls : list str) (w : world) c w' :
  _is_resource_complete E (resource_path_of E toolkit name) urls w
  = (Ok c, w') ->
  w' = w /\ (c = true <-> all_present E toolkit name (w_fs w) urls).
Proof.
  unfold all_present.
  induction urls as [|u urls IH]; cbn [_is_resource_complete].
  - intros H; inversion H; subst. split; [reflexivity|].
    split; [constructor | reflexivity].
  - destruct (resource_file_name E u) as [fname|] eqn:Hf; [|discriminate].
    mrun.
    destruct (missing_or_empty _ (w_fs w)) eqn:Hm.
    + intros H; inversion H; subst. split; [reflexivity|].
      split; [discriminate|]. intros Hall. inversion Hall as [|? ? Hu _].
      destruct Hu as (fname' & Hf' & Hm'). congruence.
    + intros H. destruct (IH H) as [-> Hc]. split; [reflexivity|].
      rewrite Hc. split.
      * intros Hall. constructor; [eauto | exact Hall].
      * intros Hall. now inversion Hall.
Qed.


Lemma check_resource_spec (w : world) urls c w0 :
  check_resource E toolkit tool_name name w = (Ok (urls, c), w0) ->
  urls <> []
  /\ (c = true <-> all_present E toolkit name (w_fs w0) urls)
  /\ (fs_exists (resource_path_of E toolkit name) (w_fs w) = true ->
      w_fs w0 = w_fs w).
Proof.
  unfold check_resource. intros H.
  apply bind_ok_inv in H as (config & wl & Hload & H).
  apply bind_ok_inv in H as ([] & wa & Hrep & H).
  destruct (declared_urls config name) as [urls'|] eqn:Hd;
    [|mrun_in H; discriminate].
  apply bind_ok_inv in H as (de & wb & Hde & H).
  apply bind_ok_inv in H as ([] & wc & Hmk & H).
  apply bind_ok_inv in H as (c' & wd & Hc & H).
  inversion H; subst; clear H.
  destruct (is_resource_complete_spec _ _ Hc) as [-> Hcs].
  repeat split.
  - unfold declared_urls in Hd.
    destruct (ToolkitConfig.dict_get name _) as [[[|u us]|]|];
      inversion Hd; discriminate.
  - apply Hcs.
  - apply Hcs.
  - intros Hex. destruct (load_effect _ _ _ _ Hload) as (Hfs & _).
    mrun_in Hrep. inversion Hrep; subst; clear Hrep.
    mrun_in Hde. inversion Hde; subst; clear Hde.
    cbn [w_fs] in Hmk. rewrite Hfs, Hex in Hmk. cbn [negb] in Hmk.
    mrun_in Hmk. inversion Hmk; subst. cbn [w_fs]. congruence.
Qed.

Lemma download_resource_file_within (rp u : str) :
  preserves (within 1) (download_resource_file E cli_progress name rp u).
Proof. within_ops. Qed.

Lemma download_resource_file_more (rp u : str) :
  preserves more_transfers (download_resource_file E cli_progress name rp u).
Proof. frame_ops. Qed.

Lemma set_hugging_face_url_more (u : str) :
  preserves more_transfers (set_hugging_face_url E u).
Proof. frame_ops. Qed.

Lemma set_hugging_face_url_total (u : str) (w : world) :
  exists adjusted wa, set_hugging_face_url E u w = (Ok adjusted, wa).
Proof.
  unfold set_hugging_face_url, can_access_hugging_face. mrun.
  destruct (negb (contains u _)); [eauto|].
  destruct (negb (e_hf_reachable E (w_tick w))); eauto.
Qed.

(** A file of the bundle is acquired, or the acquisition fails and names
    it. *)
Lemma download_resource_file_outcome (rp u : str) w r w' adjusted wa fname :
  download_resource_file E cli_progress name rp u w = (r, w') ->
  set_hugging_face_url E u w = (Ok adjusted, wa) ->
  resource_file_name E adjusted = Some fname ->
  (r = Ok tt
   /\ missing_or_empty (path_join E rp fname) (w_fs w') = false
   /\ (transfers w < transfers w')%nat)
  \/ exists reason,
      r = Raise (Exception (py "Failed to download resource file "
                            ++ fname ++ py ": " ++ reason)).
Proof.
  intros Hrun Hhf Hname. revert Hrun.
  unfold download_resource_file. unfold bind at 1. rewrite Hhf, Hname.
  unfold bind at 1.
  destruct (report _ _ _ wa) as [[[]|e0] wb] eqn:Hrep;
    [|mrun_in Hrep; discriminate].
  assert (Hwb : more_transfers w wb).
  { assert (H1 : more_transfers w wa)
      by (eapply set_hugging_face_url_more; exact Hhf).
    mrun_in Hrep. inversion Hrep; subst.
    unfold more_transfers, transfers in *. cbn in *. exact H1. }
  unfold try_except.
  match goal with
  | |- (let (o, w1) := ?body wb in _) = _ -> _ =>
      destruct (body wb) as [[[]|e] wc] eqn:Hbody
  end.
  - intros H; inversion H; subst; clear H. left.
    apply bind_ok_inv in Hbody as (de & w1 & Hpe & Hbody).
    mrun_in Hpe. inversion Hpe; subst; clear Hpe.
    apply bind_ok_inv in Hbody as ([] & w2 & Hmk & Hbody).
    apply bind_ok_inv in Hbody as (dl & w3 & Hst & Hbody).
    apply bind_ok_inv in Hbody as ([] & w4 & Hpr & Hbody).
    apply bind_ok_inv in Hbody as (wg & w5 & Hget & Hbody).
    apply bind_ok_inv in Hbody as ([] & w6 & Hck & Hbody).
    mrun_in Hget. inversion Hget; subst; clear Hget.
    destruct (missing_or_empty _ (w_fs w5)) eqn:Hm;
      [mrun_in Hck; discriminate|].
    mrun_in Hck. inversion Hck; subst; clear Hck.
    mrun_in Hbody. inversion Hbody; subst; clear Hbody.
    split; [reflexivity|]. split; [exact Hm|].
    apply start_transfer_ok in Hst.
    assert (H12 : more_transfers w1 w2).
    { revert Hmk. match goal with
                  | |- ?m _ = _ -> _ =>
                      assert (Hk : preserves more_transfers m) by frame_ops
                  end. apply Hk. }
    assert (H34 : more_transfers w3 w6).
    { revert Hpr. match goal with
                  | |- ?m _ = _ -> _ =>
                      assert (Hk : preserves more_transfers m) by frame_ops
                  end. apply Hk. }
    unfold more_transfers, transfers in *. cbn [w_events filter] in *.
    cbn in *. lia.
  - mrun. intros H; inversion H; subst; clear H. right.
    exists (exn_str e). reflexivity.
Qed.



End Resource.



(** C8.  In the download phase of a bundle, when the files before [u] have
    been acquired and the file of [u] is missing or empty after its
    transfer, the acquisition of the bundle raises the exception "Failed to
    download resource file <name>: ..." that names that file;
    [get_resource_path] ends there, in the world the failing file left:
    nothing is done for the remaining files, and at most one transfer was
    started for the failing one. *)
Theorem bundle_fails_on_bad_file {RT : PyRuntime} (E : env)
        (toolkit tool_name : str) (cli_progress : bool) (name : str)
        (w : world) (urls : list str) (w0 w0' : world)
        (pre : list str) (u : str) (post : list str) (w1 : world)
        (adjusted : str) (wa : world) (file_name : str)
        (r : outcome unit) (w2 : world) :
  check_resource E toolkit tool_name name w = (Ok (urls, false), w0) ->
  urls = pre ++ u :: post ->
  downloading_resource name w0 = (Ok tt, w0') ->
  for_each pre
           (download_resource_file E cli_progress name
                                   (resource_path_of E toolkit name)) w0'
  = (Ok tt, w1) ->
  set_hugging_face_url E u w1 = (Ok adjusted, wa) ->
  resource_file_name E adjusted = Some file_name ->
  download_resource_file E cli_progress name
                         (resource_path_of E toolkit name) u w1 = (r, w2) ->
  missing_or_empty
    (path_join E (resource_path_of E toolkit name) file_name) (w_fs w2)
  = true ->
  exists reason,
    get_resource_path E toolkit tool_name cli_progress name w
    = (Raise (Exception (py "Failed to download resource file "
                         ++ file_name ++ py ": " ++ reason)), w2)
    /\ (transfers w2 <= transfers w1 + 1)%nat.
Proof.
  intros Hcheck -> Hrep Hpre Hhf Hname Hu Hbad.
  destruct (@download_resource_file_outcome RT E cli_progress name _ u w1 r
              w2 adjusted wa file_name Hu Hhf Hname)
    as [(_ & Hgood & _)|(reason & ->)]; [congruence|].
  exists reason. split.
  - unfold get_resource_path. unfold bind at 1. rewrite Hcheck.
    unfold download_resource. unfold bind at 1. rewrite Hrep.
    unfold bind at 1.
    now rewrite (@for_each_app_raise _ _ pre u post w0' w1 _ w2 Hpre Hu).
  - assert (Hw : within 1 w1 w2)
      by (eapply download_resource_file_within; exact Hu).
    now destruct Hw.
Qed.

Lemma bundle_fails_on_bad_file_witness :
  exists reason w2,
    get_resource_path (RT := ascii_runtime) flaky_video_env video_toolkit
                      ffmpeg_tool true (py "model") empty_world
    = (Raise (Exception (py "Failed to download resource file "
                         ++ py "decoder.onnx" ++ py ": " ++ reason)), w2)
    /\ transfers w2 = 2%nat.
Proof.
  pose (E := flaky_video_env).
  pose (encoder := py "https://example.com/models/encoder.onnx?download=true").
  pose (decoder := py "https://example.com/models/decoder.onnx").
  pose (w0 := snd (check_resource (RT := ascii_runtime) E video_toolkit
                     ffmpeg_tool (py "model") empty_world)).
  pose (w0' := snd (downloading_resource (py "model") w0)).
  pose (w1 := snd (download_resource_file (RT := ascii_runtime) E true
                     (py "model") model_dir encoder w0')).
  pose (last := download_resource_file (RT := ascii_runtime) E true
                  (py "model") model_dir decoder w1).
  destruct (@bundle_fails_on_bad_file ascii_runtime E video_toolkit
              ffmpeg_tool true (py "model") empty_world model_urls
              w0 w0' [encoder] decoder [] w1 decoder
              (snd (set_hugging_face_url E decoder w1))
              (py "decoder.onnx") (fst last) (snd last))
    as (reason & Hrun & Hle);
    try (vm_compute; reflexivity).
  exists reason, (snd last). split; [exact Hrun|].
  vm_compute. reflexivity.
Defined.

End ResourceFacts.

(** ** More on the platform predicates and the configuration registry *)

Module RegistryFacts.
Import Utils ToolkitConfig WorldRelations ConfigFacts Examples.

Lemma platform_predicates_aux {RT : PyRuntime} (h : host) :
  let system := lower (host_system h) in
  is_linux h = eqb system (py "linux")
  /\ is_macos h = eqb system (py "darwin")
  /\ is_windows h = eqb system (py "windows")
  /\ is_linux h && is_macos h = false
  /\ is_linux h && is_windows h = false
  /\ is_macos h && is_windows h = false
  /\ negb (is_linux h || is_macos h || is_windows h)
     = eqb (get_platform_name h) (py "unknown").
Proof.
  cbv zeta. unfold is_linux, is_macos, is_windows, get_platform_name.
  assert (Hsys :
    forall a b : string, eqb (lower (host_system h)) (py a) = true ->
                eqb (py a) (py b) = false ->
                eqb (lower (host_system h)) (py b) = false)
    by (intros a b; apply PyStrFacts.eqb_true_other).
  destruct (eqb (lower (host_system h)) (py "linux")) eqn:Hl;
    [ rewrite ?(Hsys "linux"%string "darwin"%string Hl eq_refl),
              ?(Hsys "linux"%string "windows"%string Hl eq_refl)
    | destruct (eqb (lower (host_system h)) (py "darwin")) eqn:Hd;
      [ rewrite ?(Hsys "darwin"%string "windows"%string Hd eq_refl)
      | destruct (eqb (lower (host_system h)) (py "windows")) eqn:Hw ] ];
    destruct (in_list (lower (host_machine h)) [py "x86_64"; py "amd64"]);
    destruct (in_list (lower (host_machine h)) [py "aarch64"; py "arm64"]);
    destruct (in_list (lower (host_machine h)) [py "arm64"; py "aarch64"]);
    destruct (contains (lower (host_processor h)) (py "apple"));
    clear Hsys; vm_compute; auto 10.
Qed.

(** X1.  [is_linux], [is_macos] and [is_windows] depend on the operating
    system name alone, compared in lower case with [linux], [darwin] and
    [windows]: the machine architecture and the processor string never
    change them.  No two of them hold together, and none of them holds
    exactly when the platform name is [unknown]. *)
Theorem platform_predicates {RT : PyRuntime} (h : host) :
  let system := lower (host_system h) in
  is_linux h = eqb system (py "linux")
  /\ is_macos h = eqb system (py "darwin")
  /\ is_windows h = eqb system (py "windows")
  /\ is_linux h && is_macos h = false
  /\ is_linux h && is_windows h = false
  /\ is_macos h && is_windows h = false
  /\ negb (is_linux h || is_macos h || is_windows h)
     = eqb (get_platform_name h) (py "unknown").
Proof. apply platform_predicates_aux. Qed.

(** X2.  Once a toolkit is in the cache, [ToolkitConfig.load] answers from
    the cached document alone: the outcome is the same whatever the disk and
    the host are by then, the world is left as it was, and the tool
    configuration returned is the non-empty entry of the cached document
    under the tool name, when there is one. *)
Theorem load_cache_hit {RT : PyRuntime} (E E' : env) (tk tn : str)
        (w : world) (d : toolkit_doc) :
  dict_get tk (w_cache w) = Some d ->
  load E tk tn w = load E' tk tn w
  /\ snd (load E tk tn w) = w
  /\ forall c,
      fst (load E tk tn w) = Ok c
      <-> exists tools,
          doc_tools d = Some tools
          /\ dict_get tn tools = Some c
          /\ config_is_empty c = false.
Proof.
  intros Hc. unfold load. mrun. rewrite Hc. mrun.
  split; [reflexivity|].
  destruct (doc_tools d) as [tools|]; cbn [dict_get].
  - destruct (dict_get tn tools) as [c0|] eqn:Ht.
    + destruct (config_is_empty c0) eqn:Hne; mrun; cbn [fst snd];
        (split; [reflexivity|]); intros c; split.
      * discriminate.
      * intros (t & Ht' & Hd & He). inversion Ht'; subst t. congruence.
      * intros H; inversion H; subst c. eauto.
      * intros (t & Ht' & Hd & He). inversion Ht'; subst t. congruence.
    + mrun; cbn [fst snd]. split; [reflexivity|]. intros c; split.
      * discriminate.
      * intros (t & Ht' & Hd & He). inversion Ht'; subst t. congruence.
  - mrun; cbn [fst snd]. split; [reflexivity|]. intros c; split.
    + discriminate.
    + intros (t & Ht' & _). discriminate.
Qed.

Lemma load_cache_hit_witness :
  load (RT := ascii_runtime) linux_env video_toolkit (py "ffmpeg")
       loaded_world
  = load (RT := ascii_runtime) online_video_env video_toolkit (py "ffmpeg")
         loaded_world.
Proof.
  apply (load_cache_hit (RT := ascii_runtime) linux_env online_video_env
           video_toolkit (py "ffmpeg") loaded_world (d := video_doc)).
  reflexivity.
Defined.

(** X3.  A toolkit document that parses is cached by the first load of the
    toolkit, also when that load fails because the tool is not in the
    document: the cache gains the document under the toolkit name and
    nothing else changes.  Every later load of the toolkit, for any tool and
    whatever has become of the file, gives what the cached document gives
    and leaves the world alone. *)
Theorem load_caches_document {RT : PyRuntime} (E : env) (tk tn : str)
        (w : world) (d : toolkit_doc) :
  dict_get tk (w_cache w) = None ->
  e_document E (config_path E tk) = Parsed d ->
  let w1 := {| w_fs := w_fs w; w_cache := (tk, d) :: w_cache w;
               w_events := w_events w; w_tick := w_tick w |} in
  snd (load E tk tn w) = w1
  /\ forall E' tn',
      load E' tk tn' w1 = (fst (load E tk tn' w), w1).
Proof.
  intros Hc Hd w1. subst w1. unfold load. mrun. rewrite Hc, Hd. mrun.
  cbn [dict_get]. rewrite PyStrFacts.eqb_refl. mrun.
  split.
  - destruct (doc_tools d) as [tools|]; cbn [dict_get];
      [destruct (dict_get tn tools) as [c0|];
       [destruct (config_is_empty c0)|]|]; reflexivity.
  - intros E' tn'.
    destruct (doc_tools d) as [tools|]; cbn [dict_get];
      [destruct (dict_get tn' tools) as [c0|];
       [destruct (config_is_empty c0)|]|]; reflexivity.
Qed.

Lemma load_caches_document_witness :
  snd (load (RT := ascii_runtime) online_video_env video_toolkit
            (py "ffprobe") empty_world)
  = loaded_world.
Proof.
  apply (load_caches_document (RT := ascii_runtime) online_video_env
           video_toolkit (py "ffprobe") empty_world (d := video_doc));
    reflexivity.
Defined.

(** X4.  When the toolkit is not cached and its document cannot be read,
    [ToolkitConfig.load] raises and leaves the world, the cache included, as
    it was, so that the next load reads the disk again.  A missing or
    malformed file is reported as an [Exception] that names the path of the
    document; any other error of reading it is raised as it is. *)
Theorem load_failure_not_cached {RT : PyRuntime} (E : env) (tk tn : str)
        (w : world) :
  dict_get tk (w_cache w) = None ->
  (forall d, e_document E (config_path E tk) <> Parsed d) ->
  exists e,
    load E tk tn w = (Raise e, w)
    /\ (forall msg,
           e_document E (config_path E tk) = NotFoundOrInvalid msg ->
           e = Exception (py "Failed to load toolkit config from '"
                          ++ config_path E tk ++ py "': " ++ msg))
    /\ (forall e0, e_document E (config_path E tk) = Unreadable e0 ->
                   e = e0).
Proof.
  intros Hc Hd. unfold load. mrun. rewrite Hc.
  destruct (e_document E (config_path E tk)) as [d|msg|e0] eqn:Hdoc.
  - exfalso. apply (Hd d). reflexivity.
  - mrun. eexists. split; [reflexivity|]. split.
    + intros msg' H; inversion H; reflexivity.
    + discriminate.
  - mrun. exists e0. split; [reflexivity|]. split.
    + discriminate.
    + intros e1 H; inversion H; reflexivity.
Qed.

Lemma load_failure_not_cached_witness :
  exists e,
    load (RT := ascii_runtime) linux_env video_toolkit (py "ffmpeg")
         empty_world
    = (Raise e, empty_world)
    /\ e = Exception
             (py "Failed to load toolkit config from '/leon/bridges/toolkits/video_streaming/toolkit.json': [Errno 2] No such file or directory").
Proof.
  destruct (load_failure_not_cached (RT := ascii_runtime) linux_env
              video_toolkit (py "ffmpeg") empty_world)
    as (e & Hrun & Hmsg & _).
  - reflexivity.
  - intros d; discriminate.
  - exists e. split; [exact Hrun|]. apply Hmsg. reflexivity.
Defined.

End RegistryFacts.

(** ** More on downloading a binary *)

Module AcquireFacts.
Import BaseTool WorldRelations Frame OpFacts FsFacts ConfigFacts PruneFacts
       BinaryFacts Examples.

Lemma keeps_all_deletes_only {A} (S : str -> Prop) (m : M A) :
  (forall p, preserves (keeps p) m) -> preserves (deletes_only S) m.
Proof.
  intros H w r w' Hrun p Hp Hp'.
  rewrite (H p w r w' Hrun Hp) in Hp'. discriminate.
Qed.

Lemma deletes_only_weaken {A} (S1 S2 : str -> Prop) (m : M A) :
  (forall q, S1 q -> S2 q) ->
  preserves (deletes_only S1) m -> preserves (deletes_only S2) m.
Proof. intros HS H w r w' Hrun p Hp Hp'. apply HS. eapply H; eauto. Qed.

Lemma run_no_transfer {A} (m : M A) w r w' :
  preserves no_transfer m -> m w = (r, w') -> transfers w' = transfers w.
Proof. intros H Hrun. exact (H w r w' Hrun). Qed.

Section Acquire.
Context {RT : PyRuntime}.
Variable E : env.
Variable toolkit tool_name : str.
Variable cli_progress : bool.




Lemma quarantine_run (p : str) (w : world) :
  exists key data,
    _remove_quarantine_attribute E p w
    = (Ok tt,
       {| w_fs := w_fs w; w_cache := w_cache w;
          w_events :=
            Report key data None
            :: Spawn [py "xattr"; py "-d"; py "com.apple.quarantine"; p]
            :: w_events w;
          w_tick := S (w_tick w) |})
    /\ (key = py "bridges.tools.quarantine_removed"
        /\ e_xattr E (w_tick w) = Ok 0%Z
        \/ key = py "bridges.tools.quarantine_warning"
           /\ (exists code, e_xattr E (w_tick w) = Ok code /\ code <> 0%Z)
        \/ key = py "bridges.tools.quarantine_exception"
           /\ exists e, e_xattr E (w_tick w) = Raise e).
Proof.
  unfold _remove_quarantine_attribute. mrun.
  destruct (e_xattr E (w_tick w)) as [code|e] eqn:Hx.
  - destruct (Z.eqb_spec code 0) as [->|Hne]; mrun.
    + do 2 eexists. split; [reflexivity|]. left. split; reflexivity.
    + do 2 eexists. split; [reflexivity|]. right; left.
      split; [reflexivity|]. exists code. split; [reflexivity|exact Hne].
  - mrun. do 2 eexists. split; [reflexivity|]. right; right.
    split; [reflexivity|]. exists e. reflexivity.
Qed.

End Acquire.

(** X5.  [_remove_quarantine_attribute] never raises, whatever [xattr]
    does: it starts the one [xattr] process, reports once (that the
    attribute is removed on exit code 0, a warning on another exit code, the
    exception when the process cannot be run) and leaves the filesystem and
    the configuration cache as they were. *)
Theorem remove_quarantine_never_raises {RT : PyRuntime} (E : env) (p : str)
        (w : world) :
  exists key data,
    _remove_quarantine_attribute E p w
    = (Ok tt,
       {| w_fs := w_fs w; w_cache := w_cache w;
          w_events :=
            Report key data None
            :: Spawn [py "xattr"; py "-d"; py "com.apple.quarantine"; p]
            :: w_events w;
          w_tick := S (w_tick w) |})
    /\ (key = py "bridges.tools.quarantine_removed"
        /\ e_xattr E (w_tick w) = Ok 0%Z
        \/ key = py "bridges.tools.quarantine_warning"
           /\ (exists code, e_xattr E (w_tick w) = Ok code /\ code <> 0%Z)
        \/ key = py "bridges.tools.quarantine_exception"
           /\ exists e, e_xattr E (w_tick w) = Raise e).
Proof. apply quarantine_run. Qed.

(** X6.  [_download_binary] ends in one of two ways.  Either it returns,
    and then the file at the output path exists and is not empty and exactly
    one transfer was started.  Or it raises an [Exception] whose message is
    [Failed to download binary: ] followed by the message of the cause, the
    last event is the report [download_url_failed] with that cause, and at
    most one transfer was started; no other exception leaves it. *)
Theorem download_binary_outcome {RT : PyRuntime} (E : env)
        (cli_progress : bool) (url p : str) (w : world) :
  let run := _download_binary E cli_progress url p w in
  (fst run = Ok tt
   /\ missing_or_empty p (w_fs (snd run)) = false
   /\ transfers (snd run) = S (transfers w))
  \/ exists reason evs,
      fst run = Raise (Exception (py "Failed to download binary: "
                                  ++ reason))
      /\ w_events (snd run)
         = Report (py "bridges.tools.download_url_failed")
                  [field "error" reason] None :: evs
      /\ (transfers (snd run) <= S (transfers w))%nat.
Proof.
  cbv zeta.
  destruct (_download_binary E cli_progress url p w) as [[[]|e] w'] eqn:Hrun;
    cbn [fst snd].
  - left. split; [reflexivity|].
    split; [eapply download_binary_ok; exact Hrun|].
    unfold _download_binary in Hrun.
    apply try_ok_inv in Hrun; [|intros e w1 a' w2; mrun; discriminate].
    apply bind_ok_inv in Hrun as (? & w1 & H1 & Hrun).
    apply bind_ok_inv in Hrun as (? & w2 & H2 & Hrun).
    apply bind_ok_inv in Hrun as (? & w3 & H3 & Hrun).
    apply bind_ok_inv in Hrun as (dl & w4 & H4 & Hrun).
    apply start_transfer_ok in H4.
    apply run_no_transfer in H1; [|frame_ops].
    apply run_no_transfer in H2; [|frame_ops].
    apply run_no_transfer in H3; [|frame_ops].
    apply run_no_transfer in Hrun; [|frame_ops].
    congruence.
  - right.
    assert (Hw : within 1 w w')
      by (eapply download_binary_within; exact Hrun).
    unfold _download_binary in Hrun.
    apply try_raise_inv in Hrun as (e0 & w1 & _ & Hh).
    mrun_in Hh. inversion Hh; subst; clear Hh.
    exists (exn_str e0), (w_events w1).
    split; [reflexivity|]. split; [reflexivity|].
    unfold within in Hw. lia.
Qed.



End AcquireFacts.

(** ** More on [get_binary_path] *)

Module BinaryPathFacts.
Import BaseTool WorldRelations Frame OpFacts FsFacts ConfigFacts PruneFacts
       BinaryFacts AcquireFacts Examples Samples.



Lemma endswith_self (a s : str) : endswith (a ++ s) s = true.
Proof.
  unfold endswith. rewrite rev_app_distr. apply SyncFacts.startswith_app.
Qed.

Section Path.
Context {RT : PyRuntime}.
Variable E : env.
Variable toolkit tool_name : str.
Variable cli_progress : bool.

Lemma makedirs_deletes_only (S : str -> Prop) (q : str) :
  preserves (deletes_only S) (makedirs E q).
Proof. apply keeps_all_deletes_only. intros p. apply makedirs_keeps. Qed.

Lemma chmod_deletes_only (S : str -> Prop) (q : str) (mode : N) :
  preserves (deletes_only S) (chmod q mode).
Proof. apply keeps_all_deletes_only. intros p. apply chmod_keeps. Qed.

Lemma start_transfer_deletes_only (S : str -> Prop) (url dest : str) :
  preserves (deletes_only S) (start_transfer E url dest).
Proof.
  apply keeps_all_deletes_only. intros p. apply start_transfer_keeps.
Qed.

Lemma delete_older_deletes_only (bins exe : str) :
  preserves (deletes_only (prunable E bins exe))
            (_delete_older_binary_versions E bins exe).
Proof.
  unfold _delete_older_binary_versions.
  apply preserves_try; [auto with frame | | intros e; frame_ops].
  apply prune_versions_deletes_only.
Qed.


End Path.

#[local] Hint Resolve makedirs_deletes_only chmod_deletes_only
  start_transfer_deletes_only delete_older_deletes_only : frame.

Section Path2.
Context {RT : PyRuntime}.
Variable E : env.
Variable toolkit tool_name : str.
Variable cli_progress : bool.

Lemma on_demand_deletes_only (name url exe : str) :
  preserves (deletes_only (prunable E (bins_path E toolkit) exe))
            (_download_binary_on_demand E toolkit cli_progress name url exe).
Proof.
  unfold _download_binary_on_demand, _download_binary,
    BaseTool._handle_download_progress, _remove_quarantine_attribute,
    report, log, path_exists.
  frame_auto.
Qed.

End Path2.



(** X9.  [get_binary_path] removes nothing from the filesystem but
    superseded versions of the binary it is asked for: an entry that is
    there before the call and gone after it is a file of the bins directory
    of the toolkit whose name parses to the base name and the platform of
    the executable configured for the host, with another version. *)
Theorem get_binary_path_deletes_only_superseded {RT : PyRuntime} (E : env)
        (toolkit tool_name : str) (cli_progress : bool) (name : str)
        (skip : bool) (w : world) (q : str) :
  let w' := snd (get_binary_path E toolkit tool_name cli_progress name skip
                                 w) in
  fs_exists q (w_fs w) = true ->
  fs_exists q (w_fs w') = false ->
  exists config url exe file,
    fst (ToolkitConfig.load E toolkit (tool_config_name tool_name) w)
    = Ok config
    /\ ToolkitConfig.get_binary_url E config = Some url
    /\ executable_of E url = Some exe
    /\ VersionedName.superseded exe file = true
    /\ q = path_join E (bins_path E toolkit) file.
Proof.
  cbv zeta.
  destruct (get_binary_path E toolkit tool_name cli_progress name skip w)
    as [r w'] eqn:Hrun.
  cbn [snd]. intros Hq Hq'.
  assert (Hstay : forall A (m : M A) r0 wa wb,
             (forall p, preserves (keeps p) m) ->
             m wa = (r0, wb) -> fs_exists q (w_fs wa) = true ->
             fs_exists q (w_fs wb) = true).
  { intros A m r0 wa wb Hk Hm. exact (Hk q wa r0 wb Hm). }
  unfold get_binary_path in Hrun.
  destruct skip.
  { inversion Hrun; subst. congruence. }
  apply bind_inv in Hrun as [(config & wl & Hload & Hrun)|(e & Hload & _)].
  2:{ apply load_same_fs in Hload. unfold same_fs in Hload. congruence. }
  assert (Hfsl : w_fs wl = w_fs w) by (apply load_same_fs in Hload; exact Hload).
  apply bind_inv in Hrun as [([] & wa & Hrep & Hrun)|(e & Hrep & _)];
    [|mrun_in Hrep; discriminate].
  assert (Hfsa : w_fs wa = w_fs w)
    by (mrun_in Hrep; inversion Hrep; subst; exact Hfsl).
  destruct (ToolkitConfig.get_binary_url E config) as [[|c u]|] eqn:Hurl;
    try (mrun_in Hrun; inversion Hrun; subst; cbn [w_fs] in Hq'; congruence).
  destruct (executable_of E (c :: u)) as [exe|] eqn:Hexe;
    [|inversion Hrun; subst; congruence].
  assert (Hrest : deletes_only (prunable E (bins_path E toolkit) exe) wa w').
  { revert Hrun.
    match goal with
    | |- ?m wa = _ -> _ =>
        assert (Hk : preserves
                       (deletes_only (prunable E (bins_path E toolkit) exe))
                       m)
    end.
    { pose proof (on_demand_deletes_only E toolkit cli_progress) as Hod.
      unfold report, path_exists. frame_auto. }
    apply Hk. }
  destruct (Hrest q) as (file & _ & Hs & Hfile); [congruence|exact Hq'|].
  exists config, (c :: u), exe, file.
  rewrite Hload. auto.
Qed.

Lemma get_binary_path_deletes_only_superseded_witness :
  exists config url exe file,
    fst (ToolkitConfig.load (RT := ascii_runtime) online_video_env
           video_toolkit
           (tool_config_name (RT := ascii_runtime) ffmpeg_tool)
           outdated_world)
    = Ok config
    /\ ToolkitConfig.get_binary_url (RT := ascii_runtime) online_video_env
         config = Some url
    /\ executable_of (RT := ascii_runtime) online_video_env url = Some exe
    /\ VersionedName.superseded (RT := ascii_runtime) exe file = true
    /\ video_bins ++ py "/ffmpeg_1.0.0-linux-x86_64"
       = path_join (RT := ascii_runtime) online_video_env
           (bins_path (RT := ascii_runtime) online_video_env video_toolkit)
           file.
Proof.
  apply (get_binary_path_deletes_only_superseded (RT := ascii_runtime)
           online_video_env video_toolkit ffmpeg_tool true (py "ffmpeg")
           false outdated_world
           (video_bins ++ py "/ffmpeg_1.0.0-linux-x86_64"));
    vm_compute; reflexivity.
Defined.

End BinaryPathFacts.

(** ** More on resource bundles *)

Module BundleFacts.
Import BaseTool WorldRelations MoreRelations Frame OpFacts FsFacts
       ConfigFacts PruneFacts BinaryFacts AcquireFacts ResourceFacts
       Examples.

Lemma frame_retains (p : str) : frame (retains p).
Proof.
  split; unfold retains.
  - reflexivity.
  - intros w1 w2 w3 H12 H23 Hp.
    assert (H2 : fs_exists p (w_fs w2) = true)
      by (unfold fs_exists in *; rewrite (H12 Hp); exact Hp).
    rewrite (H23 H2). auto.
Qed.

Lemma emit_retains p e : preserves (retains p) (emit e).
Proof. intros w r w' H; inversion H; subst; intros _; reflexivity. Qed.

Lemma tick_retains p : preserves (retains p) next_tick.
Proof. intros w r w' H; inversion H; subst; intros _; reflexivity. Qed.

Lemma makedirs_retains {RT : PyRuntime} (E : env) (p q : str) :
  preserves (retains p) (makedirs E q).
Proof. intros w r w' H Hp. eapply makedirs_lookup; eauto. Qed.

Lemma start_transfer_retains {RT : PyRuntime} (E : env) (p url dest : str) :
  dest <> p -> preserves (retains p) (start_transfer E url dest).
Proof.
  intros Hne w r w'. unfold start_transfer. mrun.
  destruct (tr_written _) as [size|]; cbn [w_fs w_events w_cache w_tick];
    destruct (tr_error _); intros H; inversion H; subst;
    intros Hp; cbn [w_fs] in *; auto using lookup_write_other.
Qed.

#[local] Hint Resolve frame_retains emit_retains tick_retains
  makedirs_retains : frame.

Lemma filled_retained (p : str) (w w' : world) :
  retains p w w' ->
  missing_or_empty p (w_fs w) = false ->
  missing_or_empty p (w_fs w') = false.
Proof.
  intros Hr Hm. unfold missing_or_empty. rewrite Hr.
  - exact Hm.
  - now apply exists_of_content.
Qed.

Section Bundle.
Context {RT : PyRuntime}.
Variable E : env.
Variable toolkit tool_name : str.
Variable cli_progress : bool.
Variable name : str.

Lemma set_hugging_face_url_result (u : str) (w : world) a wa :
  set_hugging_face_url E u w = (Ok a, wa) ->
  (a = u \/ a = replace u HUGGING_FACE_URL HUGGING_FACE_MIRROR_URL)
  /\ w_fs wa = w_fs w.
Proof.
  unfold set_hugging_face_url, can_access_hugging_face. mrun.
  destruct (negb (contains u _)).
  - intros H; inversion H; subst; auto.
  - destruct (negb (e_hf_reachable E (w_tick w)));
      intros H; inversion H; subst; auto.
Qed.

(** A successful download of one file: the file is there and not empty,
    and every other entry is as before. *)
Lemma download_resource_file_fills (rp u : str) (w w' : world) :
  download_resource_file E cli_progress name rp u w = (Ok tt, w') ->
  exists adjusted fname,
    (adjusted = u
     \/ adjusted = replace u HUGGING_FACE_URL HUGGING_FACE_MIRROR_URL)
    /\ resource_file_name E adjusted = Some fname
    /\ missing_or_empty (path_join E rp fname) (w_fs w') = false
    /\ forall p, path_join E rp fname <> p -> retains p w w'.
Proof.
  intros Hrun.
  destruct (set_hugging_face_url_total E u w) as (adjusted & wa & Hhf).
  pose proof Hhf as Hres.
  apply set_hugging_face_url_result in Hres as [Hadj Hfsa].
  destruct (resource_file_name E adjusted) as [fname|] eqn:Hname.
  2:{ revert Hrun. unfold download_resource_file. unfold bind at 1.
      rewrite Hhf, Hname. discriminate. }
  exists adjusted, fname. split; [exact Hadj|]. split; [exact Hname|].
  destruct (@download_resource_file_outcome RT E cli_progress name rp u w _
              w' adjusted wa fname Hrun Hhf Hname)
    as [(_ & Hfull & _)|(reason & Hr)]; [|discriminate].
  split; [exact Hfull|].
  intros p Hne.
  assert (Hwa : retains p w wa)
    by (intros _; now rewrite Hfsa).
  apply (frame_trans (frame_retains p)) with (w2 := wa); [exact Hwa|].
  revert Hrun. unfold download_resource_file. unfold bind at 1.
  rewrite Hhf, Hname.
  match goal with
  | |- ?m wa = _ -> _ =>
      assert (Hk : preserves (retains p) m)
  end.
  { pose proof (@start_transfer_retains RT E p adjusted
                  (path_join E rp fname) Hne) as Hst.
    unfold report, path_exists, BaseTool._handle_download_progress, log.
    frame_auto. }
  apply Hk.
Qed.

(** A successful run of the download loop. *)
Lemma download_loop_fills (rp : str) (urls : list str) :
  forall w w',
    (forall u, In u urls ->
       resource_file_name E
         (replace u HUGGING_FACE_URL HUGGING_FACE_MIRROR_URL)
       = resource_file_name E u) ->
    for_each urls (download_resource_file E cli_progress name rp) w
    = (Ok tt, w') ->
    (forall p, missing_or_empty p (w_fs w) = false ->
               missing_or_empty p (w_fs w') = false)
    /\ Forall (fun u =>
                 exists fname,
                   resource_file_name E u = Some fname
                   /\ missing_or_empty (path_join E rp fname) (w_fs w')
                      = false) urls.
Proof.
  induction urls as [|u urls IH]; intros w w' Hsame Hrun.
  - cbn in Hrun. inversion Hrun; subst. split; [auto|constructor].
  - cbn [for_each] in Hrun.
    apply bind_ok_inv in Hrun as ([] & w1 & Hu & Hrest).
    apply download_resource_file_fills in Hu
      as (adjusted & fname & Hadj & Hname & Hfull & Hret).
    assert (Hname' : resource_file_name E u = Some fname).
    { destruct Hadj as [->| ->]; [exact Hname|].
      rewrite <- (Hsame u); [exact Hname|now left]. }
    destruct (IH w1 w' (fun v Hv => Hsame v (or_intror Hv)) Hrest)
      as [Hkeep Hall].
    assert (Hstep : forall p, missing_or_empty p (w_fs w) = false ->
                              missing_or_empty p (w_fs w1) = false).
    { intros p Hp.
      destruct (PyStrFacts.eqb_spec (path_join E rp fname) p) as [<-|Hne].
      - exact Hfull.
      - eapply filled_retained; [apply Hret; exact Hne|exact Hp]. }
    split.
    + intros p Hp. apply Hkeep, Hstep, Hp.
    + constructor; [|exact Hall].
      exists fname. split; [exact Hname'|]. apply Hkeep, Hfull.
Qed.

Lemma is_resource_complete_true (urls : list str) (w : world) :
  all_present E toolkit name (w_fs w) urls ->
  _is_resource_complete E (resource_path_of E toolkit name) urls w
  = (Ok true, w).
Proof.
  unfold all_present. induction 1 as [|u urls (fname & Hf & Hm) _ IH];
    cbn [_is_resource_complete]; [reflexivity|].
  rewrite Hf. mrun. rewrite Hm. exact IH.
Qed.

Lemma all_present_ext (f g : filesystem) (urls : list str) :
  (forall p, missing_or_empty p f = false -> missing_or_empty p g = false) ->
  all_present E toolkit name f urls -> all_present E toolkit name g urls.
Proof.
  intros H. unfold all_present. apply Forall_impl.
  intros u (fname & Hf & Hm). eauto.
Qed.

(** What a successful [get_resource_path] leaves behind. *)
Lemma get_resource_path_leaves (w : world) (path : str) (w1 : world) :
  get_resource_path E toolkit tool_name cli_progress name w
  = (Ok path, w1) ->
  exists config wl urls,
    ToolkitConfig.load E toolkit (tool_config_name tool_name) w
    = (Ok config, wl)
    /\ declared_urls config name = Some urls
    /\ path = resource_path_of E toolkit name
    /\ w_cache w1 = w_cache wl
    /\ fs_exists (resource_path_of E toolkit name) (w_fs w1) = true
    /\ ((forall u, In u urls ->
           resource_file_name E
             (replace u HUGGING_FACE_URL HUGGING_FACE_MIRROR_URL)
           = resource_file_name E u) ->
        all_present E toolkit name (w_fs w1) urls).
Proof.
  unfold get_resource_path. intros H.
  apply bind_ok_inv in H as ([urls c] & w0 & Hcheck & H).
  pose proof Hcheck as Hc. apply check_resource_spec in Hc as (_ & Hc & _).
  unfold check_resource in Hcheck.
  apply bind_ok_inv in Hcheck as (config & wl & Hload & Hcheck).
  assert (Hcache0 : same_cache wl w0).
  { revert Hcheck. match goal with
                   | |- ?m wl = _ -> _ =>
                       assert (Hk : preserves same_cache m) by frame_ops
                   end. apply Hk. }
  apply bind_ok_inv in Hcheck as ([] & wa & Hrep & Hcheck).
  destruct (declared_urls config name) as [urls'|] eqn:Hd;
    [|mrun_in Hcheck; discriminate].
  apply bind_ok_inv in Hcheck as (de & wb & Hde & Hcheck).
  apply bind_ok_inv in Hcheck as ([] & wc & Hmk & Hcheck).
  apply bind_ok_inv in Hcheck as (c' & wd & Hcomp & Hcheck).
  injection Hcheck as Hu' Hc' Hw0. subst urls' c' wd.
  apply is_resource_complete_spec in Hcomp as [Hw0 _]. subst wc.
  assert (Hdir : fs_exists (resource_path_of E toolkit name) (w_fs w0)
                 = true).
  { mrun_in Hde. inversion Hde; subst; clear Hde.
    apply when_inv in Hmk as [[Hb Hmk]|(Hb & _ & ->)].
    - apply bind_ok_inv in Hmk as ([] & wr & _ & Hmk).
      unfold makedirs in Hmk. mrun_in Hmk. inversion Hmk; subst.
      cbn [w_fs]. rewrite fold_left_app. cbn [fold_left].
      unfold add_dir at 1.
      destruct (fs_exists _ (fold_left _ _ _)) eqn:Hex; [exact Hex|].
      unfold fs_exists. now rewrite lookup_write_same.
    - now apply negb_false_iff in Hb. }
  exists config, wl, urls.
  split; [exact Hload|]. split; [exact Hd|].
  assert (Hrest : same_cache w0 w1
                  /\ (forall p, keeps p w0 w1)).
  { split; [|intros p]; revert H.
    - match goal with
      | |- ?m w0 = _ -> _ =>
          assert (Hk : preserves same_cache m) by (destruct c; frame_ops)
      end. apply Hk.
    - match goal with
      | |- ?m w0 = _ -> _ =>
          assert (Hk : preserves (keeps p) m) by (destruct c; frame_ops)
      end. apply Hk. }
  destruct Hrest as [Hcache1 Hkeeps].
  destruct c.
  - apply bind_ok_inv in H as ([] & wr & Hr & H).
    inversion H; subst; clear H.
    split; [reflexivity|].
    split; [unfold same_cache in *; congruence|].
    split; [apply Hkeeps, Hdir|].
    intros _. mrun_in Hr. inversion Hr; subst. cbn [w_fs].
    now apply Hc.
  - unfold download_resource in H.
    apply bind_ok_inv in H as ([] & wr & Hr & H).
    apply bind_ok_inv in H as ([] & ws & Hloop & H).
    apply bind_ok_inv in H as ([] & wt & Hrep2 & H).
    inversion H; subst; clear H.
    split; [reflexivity|].
    split; [unfold same_cache in *; congruence|].
    split; [apply Hkeeps, Hdir|].
    intros Hsame.
    apply download_loop_fills in Hloop as [_ Hall]; [|exact Hsame].
    mrun_in Hrep2. inversion Hrep2; subst. cbn [w_fs]. exact Hall.
Qed.

End Bundle.

(** X10.  [get_resource_path] never removes an entry of the filesystem:
    what is there before the call is there after it, whether the call
    returns or raises. *)
Theorem get_resource_path_never_deletes {RT : PyRuntime} (E : env)
        (toolkit tool_name : str) (cli_progress : bool) (name : str)
        (w : world) (p : str) :
  fs_exists p (w_fs w) = true ->
  fs_exists p
    (w_fs (snd (get_resource_path E toolkit tool_name cli_progress name w)))
  = true.
Proof.
  destruct (get_resource_path E toolkit tool_name cli_progress name w)
    as [r w'] eqn:Hrun.
  cbn [snd]. revert Hrun.
  match goal with
  | |- ?m w = _ -> _ =>
      assert (Hk : preserves (keeps p) m) by frame_ops
  end.
  apply Hk.
Qed.

Lemma get_resource_path_never_deletes_witness :
  fs_exists Samples.other_tool_path
    (w_fs (snd (get_resource_path (RT := ascii_runtime) flaky_video_env
                  video_toolkit ffmpeg_tool true (py "model")
                  Samples.outdated_world)))
  = true.
Proof.
  apply (get_resource_path_never_deletes (RT := ascii_runtime)
           flaky_video_env video_toolkit ffmpeg_tool true (py "model")
           Samples.outdated_world Samples.other_tool_path).
  reflexivity.
Defined.

(** X11.  [get_resource_path] is idempotent after a success.  When a call
    returns a path and every declared URL names the same file after the
    rewrite to the Hugging Face mirror as before it (as every URL outside
    Hugging Face does), a second call on the world the first one left
    returns the same path, starts no transfer and leaves the filesystem as
    it is. *)
Theorem get_resource_path_idempotent {RT : PyRuntime} (E : env)
        (toolkit tool_name : str) (cli_progress : bool) (name : str)
        (w : world) (path : str) (w1 : world) :
  get_resource_path E toolkit tool_name cli_progress name w
  = (Ok path, w1) ->
  (forall config urls u,
     fst (ToolkitConfig.load E toolkit (tool_config_name tool_name) w)
     = Ok config ->
     declared_urls config name = Some urls ->
     In u urls ->
     resource_file_name E
       (replace u HUGGING_FACE_URL HUGGING_FACE_MIRROR_URL)
     = resource_file_name E u) ->
  exists w2,
    get_resource_path E toolkit tool_name cli_progress name w1
    = (Ok path, w2)
    /\ transfers w2 = transfers w1
    /\ w_fs w2 = w_fs w1.
Proof.
  intros Hrun Hsame.
  pose proof Hrun as Hleft.
  apply get_resource_path_leaves in Hleft
    as (config & wl & urls & Hload & Hd & -> & Hcache & Hdir & Hall).
  assert (Hpresent : all_present E toolkit name (w_fs w1) urls).
  { apply Hall. intros u Hu. apply (Hsame config urls u); auto.
    now rewrite Hload. }
  assert (Hload1 : ToolkitConfig.load E toolkit (tool_config_name tool_name)
                     w1 = (Ok config, w1))
    by (eapply load_cached; [exact Hload|exact Hcache]).
  unfold get_resource_path, check_resource.
  unfold bind at 1. unfold bind at 1. rewrite Hload1.
  mrun. rewrite Hd. mrun. rewrite Hdir. cbn [negb]. mrun.
  rewrite is_resource_complete_true by exact Hpresent.
  eexists. split; [reflexivity|]. split; reflexivity.
Qed.

Lemma get_resource_path_idempotent_witness :
  let first :=
    get_resource_path (RT := ascii_runtime) online_video_env video_toolkit
                      ffmpeg_tool true (py "model") empty_world in
  exists w2,
    get_resource_path (RT := ascii_runtime) online_video_env video_toolkit
                      ffmpeg_tool true (py "model") (snd first)
    = (Ok model_dir, w2)
    /\ transfers w2 = 2%nat.
Proof.
  cbv zeta.
  destruct (@get_resource_path_idempotent ascii_runtime online_video_env
              video_toolkit ffmpeg_tool true (py "model") empty_world
              model_dir
              (snd (get_resource_path (RT := ascii_runtime)
                      online_video_env video_toolkit ffmpeg_tool true
                      (py "model") empty_world)))
    as (w2 & Hrun & Ht & _).
  - vm_compute. reflexivity.
  - intros config urls u Hc. vm_compute in Hc. inversion Hc; subst config.
    intros Hd. vm_compute in Hd. inversion Hd; subst urls.
    intros [<-|[<-|[]]]; vm_compute; reflexivity.
  - exists w2. split; [exact Hrun|]. rewrite Ht. vm_compute. reflexivity.
Defined.

End BundleFacts.

(** ** Running a command *)

Module CommandFacts.
Import BaseTool Command WorldRelations Frame OpFacts FsFacts ConfigFacts
       BinaryFacts AcquireFacts Examples Samples.

Section Loop.
Variable on_progress : option (progress -> M unit).
Variable on_output : option (str -> bool -> M unit).
Hypothesis output_returns :
  forall f, on_output = Some f ->
            forall line is_error w, exists w', f line is_error w = (Ok tt, w').
Hypothesis progress_returns :
  forall f, on_progress = Some f ->
            forall update w, exists w', f update w = (Ok tt, w').

Lemma call_output_returns (line : str) (is_error : bool) (w : world) :
  exists w', call_output on_output line is_error w = (Ok tt, w').
Proof.
  unfold call_output. destruct on_output as [f|] eqn:Hf.
  - apply (output_returns eq_refl).
  - eexists; reflexivity.
Qed.

Lemma call_progress_returns (update : progress) (w : world) :
  exists w', call_progress on_progress update w = (Ok tt, w').
Proof.
  unfold call_progress. destruct on_progress as [f|] eqn:Hf.
  - apply (progress_returns eq_refl).
  - eexists; reflexivity.
Qed.

Lemma read_round_returns (buffer : str) (lines : str * str) (w : world) :
  exists w',
    read_round on_progress on_output buffer lines w
    = (Ok (buffer ++ fst lines ++ snd lines), w').
Proof.
  destruct lines as [out err]. unfold read_round. cbn [fst snd].
  assert (Hout : exists w1,
             match out with
             | [] => ret buffer
             | _ :: _ =>
                 call_output on_output out false ;;
                 call_progress on_progress
                   {| pg_status := py "running"; pg_percentage := None |} ;;
                 ret (buffer ++ out)
             end w = (Ok (buffer ++ out), w1)).
  { destruct out as [|c out].
    - rewrite app_nil_r. eexists; reflexivity.
    - destruct (call_output_returns (c :: out) false w) as (wa & Ha).
      destruct (call_progress_returns
                  {| pg_status := py "running"; pg_percentage := None |} wa)
        as (wb & Hb).
      exists wb. forward Ha. forward Hb. reflexivity. }
  destruct Hout as (w1 & Hout). forward Hout.
  destruct err as [|c err].
  - rewrite app_nil_r. eexists; reflexivity.
  - destruct (call_output_returns (c :: err) true w1) as (wa & Ha).
    exists wa. forward Ha. now rewrite app_assoc.
Qed.

Lemma read_rounds_returns (rounds : list (str * str)) :
  forall buffer w,
  exists w',
    read_rounds on_progress on_output buffer rounds w
    = (Ok (buffer ++ transcript rounds), w').
Proof.
  induction rounds as [|lines rounds IH]; intros buffer w;
    cbn [read_rounds transcript flat_map].
  - rewrite app_nil_r. eexists; reflexivity.
  - destruct (read_round_returns buffer lines w) as (w1 & H1).
    destruct (IH (buffer ++ fst lines ++ snd lines) w1) as (w2 & H2).
    exists w2. forward H1. rewrite H2. now rewrite <- !app_assoc.
Qed.

End Loop.

Lemma read_rounds_silent (rounds : list (str * str)) :
  forall buffer w,
    read_rounds None None buffer rounds w
    = (Ok (buffer ++ transcript rounds), w).
Proof.
  induction rounds as [|[out err] rounds IH]; intros buffer w;
    cbn [read_rounds transcript flat_map fst snd].
  - now rewrite app_nil_r.
  - unfold bind at 1, read_round.
    destruct out as [|c out], err as [|d err]; mrun;
      unfold call_output, call_progress; mrun; rewrite IH;
      cbn [app]; rewrite <- ?app_assoc, ?app_nil_r; reflexivity.
Qed.

(** X12.  [_execute_async_command], with callbacks that return, ends as
    the process does.  When the process cannot be started, the exception
    of [Popen] is raised as it is.  Otherwise the output buffer is the
    lines read, iteration by iteration, the standard output before the
    standard error; on return code 0 the buffer is returned, and on every
    other return code an [Exception] is raised whose message is
    [Command failed with exit code <code>: ] followed by the buffer.  The
    callbacks do not change the result. *)
Theorem execute_async_outcome (E : env)
        (popen : nat -> list str -> child) (binary_path : str)
        (args : list str) (command : str) (tool_group_id : option str)
        (on_progress : option (progress -> M unit))
        (on_output : option (str -> bool -> M unit)) (w : world) :
  (forall f, on_output = Some f ->
     forall line is_error w0, exists w1, f line is_error w0 = (Ok tt, w1)) ->
  (forall f, on_progress = Some f ->
     forall update w0, exists w1, f update w0 = (Ok tt, w1)) ->
  fst (_execute_async_command E popen binary_path args command tool_group_id
                              on_progress on_output w)
  = match popen (S (w_tick w)) (binary_path :: args) with
    | CannotStart e => Raise e
    | Runs first more returncode =>
        if (returncode =? 0)%Z then Ok (transcript (first :: more))
        else Raise (Exception (py "Command failed with exit code "
                               ++ of_Z returncode ++ py ": "
                               ++ transcript (first :: more)))
    end.
Proof.
  intros Hout Hprog. unfold _execute_async_command.
  unfold try_except.
  do 3 (erewrite bind_ok by reflexivity; cbv beta).
  cbn [w_tick w_fs w_cache w_events].
  destruct (popen (S (w_tick w)) (binary_path :: args))
    as [first more rc|e].
  - match goal with
    | |- context [bind (read_rounds _ _ _ _) _ ?w0] =>
        destruct (read_rounds_returns Hout Hprog (first :: more) [] w0)
          as (w1 & Hread)
    end.
    forward Hread. cbn [app].
    erewrite bind_ok by reflexivity; cbv beta.
    destruct (rc =? 0)%Z.
    + erewrite bind_ok by reflexivity; cbv beta.
      match goal with
      | |- context [bind (call_progress on_progress ?u) _ ?w0] =>
          destruct (call_progress_returns Hprog u w0) as (w2 & Hcall)
      end.
      forward Hcall. reflexivity.
    + mrun. reflexivity.
  - mrun. reflexivity.
Qed.

Lemma execute_async_outcome_witness :
  fst (_execute_async_command linux_env
         (fun _ _ => Runs (py "frame 0", py "") two_lines 3)
         (py "ffmpeg") [py "-i"; py "a b.mp4"] (py "ffmpeg -i a\ b.mp4")
         None None (Some (fun line _ => log line)) empty_world)
  = Raise (Exception
             (py "Command failed with exit code 3: frame 0frame 1frame 2warning: slow")).
Proof.
  apply (execute_async_outcome linux_env
           (fun _ _ => Runs (py "frame 0", py "") two_lines 3)
           (py "ffmpeg") [py "-i"; py "a b.mp4"] (py "ffmpeg -i a\ b.mp4")
           None (on_progress := None)
           (on_output := Some (fun line _ => log line)) empty_world).
  - intros f Hf line is_error w0. inversion Hf; subst f.
    eexists; reflexivity.
  - intros f Hf; discriminate.
Defined.

(** X13.  What [_execute_async_command] reports without callbacks.  It
    starts the binary with the arguments as they are given, not escaped and
    not through the shell.  A command that ends with return code 0 is
    reported once, as completed; a command that ends with another return
    code is reported twice, as failed and then as an error, since the
    exception raised for the failure is caught by the handler of the
    function itself; a process that cannot be started is reported once, as
    an error.  What the process itself does to the disk is outside this
    statement. *)
Theorem execute_async_reports (E : env)
        (popen : nat -> list str -> child) (binary_path : str)
        (args : list str) (command : str) (tool_group_id : option str)
        (w : world) :
  let run := _execute_async_command E popen binary_path args command
                                    tool_group_id None None w in
  let spawned := Spawn (binary_path :: args) :: w_events w in
  let elapsed :=
    of_Z (e_clock E (S (S (w_tick w))) - e_clock E (w_tick w)) ++ py "ms" in
  w_events (snd run)
  = match popen (S (w_tick w)) (binary_path :: args) with
    | CannotStart e =>
        Report (py "bridges.tools.command_error")
               [field "command" command; field "error" (exn_str e)]
               tool_group_id :: spawned
    | Runs first more returncode =>
        if (returncode =? 0)%Z then
          Report (py "bridges.tools.command_completed")
                 [field "command" command;
                  field "execution_time" elapsed]
                 tool_group_id :: spawned
        else
          Report (py "bridges.tools.command_error")
                 [field "command" command;
                  field "error"
                        (py "Command failed with exit code "
                         ++ of_Z returncode ++ py ": "
                         ++ transcript (first :: more))]
                 tool_group_id
          :: Report (py "bridges.tools.command_failed")
                    [field "command" command;
                     field "exit_code" (of_Z returncode);
                     field "execution_time" elapsed]
                    tool_group_id
          :: spawned
    end.
Proof.
  cbv zeta.
  remember (_execute_async_command E popen binary_path args command
              tool_group_id None None w) as run eqn:Hrun.
  unfold _execute_async_command in Hrun.
  unfold try_except in Hrun.
  do 3 (erewrite bind_ok in Hrun by reflexivity; cbv beta in Hrun).
  cbn [w_tick w_fs w_cache w_events] in Hrun.
  destruct (popen (S (w_tick w)) (binary_path :: args))
    as [first more rc|e].
  - erewrite bind_ok in Hrun by apply read_rounds_silent.
    cbn [app] in Hrun.
    destruct (rc =? 0)%Z; unfold now_ms, call_progress in Hrun;
      mrun_in Hrun; subst run; cbn [fst snd w_events exn_str];
      reflexivity.
  - mrun_in Hrun. subst run. cbn [fst snd w_events]. reflexivity.
Qed.

(** X14.  [execute_command] on a built-in binary (with
    [skip_binary_download]) in synchronous mode, which is the mode when the
    options do not say otherwise: the toolkit configuration is not loaded,
    so the configuration cache is left as it is, and the call itself starts
    no transfer.  The call reports [executing_command], starts one process
    through the shell on the command line made of the binary name in double
    quotes and the escaped arguments, and then reports once or twice.  All
    these reports carry one group identifier, made of the toolkit name, the
    tool name and the clock in milliseconds read before the command
    starts.  What the command itself does to the disk is outside this
    statement. *)
Theorem execute_command_builtin {RT : PyRuntime} (E : env)
        (popen : nat -> list str -> child) (toolkit tool_name : str)
        (cli_progress : bool) (options : command_options) (w : world) :
  co_skip_binary_download options = true ->
  opt_sync (match co_options options with
            | Some o => o
            | None => no_options
            end) <> Some false ->
  let binary := co_binary_name options in
  let command := command_string E binary (co_args options) in
  let group :=
    toolkit ++ py "_" ++ tool_name ++ py "_"
    ++ of_Z (e_clock E (w_tick w)) in
  let run := execute_command E popen toolkit tool_name cli_progress options
                             w in
  w_cache (snd run) = w_cache w
  /\ exists reports,
      w_events (snd run)
      = reports
        ++ Spawn [command]
        :: Report (py "bridges.tools.executing_command")
                  [field "binary_name" binary; field "command" command]
                  (Some group)
        :: w_events w
      /\ (List.length reports = 1 \/ List.length reports = 2)%nat
      /\ Forall (fun e => exists key data,
                     e = Report key data (Some group)) reports.
Proof.
  intros Hskip Hsync. cbv zeta.
  remember (execute_command E popen toolkit tool_name cli_progress options w)
    as run eqn:Hrun.
  unfold execute_command, get_binary_path in Hrun. rewrite Hskip in Hrun.
  assert (Hs : match opt_sync (match co_options options with
                               | Some o => o
                               | None => no_options
                               end) with
               | Some b => b
               | None => true
               end = true).
  { destruct (opt_sync _) as [[|]|]; congruence. }
  rewrite Hs in Hrun. clear Hs Hsync.
  unfold _execute_sync_command, subprocess_run, now_ms in Hrun.
  mrun_in Hrun.
  destruct (e_process E (S (S (w_tick w))) _) as [ms rc out err|cls msg];
    [destruct (opt_timeout _) as [seconds|];
     [destruct (seconds * 1000 <? ms)%Z|];
     mrun_in Hrun; try (destruct (rc =? 0)%Z; mrun_in Hrun)
    |mrun_in Hrun];
    subst run; cbn [fst snd w_cache w_events];
    (split; [reflexivity|]);
    lazymatch goal with
    | |- exists r, ?a :: ?b :: Spawn ?c :: ?rest = _ /\ _ =>
        exists [a; b]
    | |- exists r, ?a :: Spawn ?c :: ?rest = _ /\ _ =>
        exists [a]
    end;
    (split; [reflexivity|]); (split; [auto|]);
    repeat constructor; eauto.
Qed.

Lemma execute_command_builtin_witness :
  let run :=
    execute_command (RT := ascii_runtime) linux_env
      (fun _ _ => CannotStart (Exception (py "unused")))
      (py "operating_system_control") (py "BashTool") false
      {| co_binary_name := py "bash";
         co_args := [py "-c"; py "ls *.txt"];
         co_options := None;
         co_on_progress := None;
         co_on_output := None;
         co_skip_binary_download := true |} empty_world in
  exists reports,
    w_events (snd run)
    = reports
      ++ [Spawn [[34%N] ++ py "bash" ++ [34%N] ++ py " -c ls\ \*.txt"];
          Report (py "bridges.tools.executing_command")
                 [field "binary_name" (py "bash");
                  field "command"
                        ([34%N] ++ py "bash" ++ [34%N]
                         ++ py " -c ls\ \*.txt")]
                 (Some (py "operating_system_control_BashTool_1700000000000"))]
    /\ (List.length reports = 1 \/ List.length reports = 2)%nat.
Proof.
  cbv zeta.
  destruct (execute_command_builtin (RT := ascii_runtime) linux_env
              (fun _ _ => CannotStart (Exception (py "unused")))
              (py "operating_system_control") (py "BashTool") false
              {| co_binary_name := py "bash";
                 co_args := [py "-c"; py "ls *.txt"];
                 co_options := None;
                 co_on_progress := None;
                 co_on_output := None;
                 co_skip_binary_download := true |} empty_world)
    as (_ & reports & Hev & Hlen & _).
  - reflexivity.
  - discriminate.
  - exists reports. split; [exact Hev|exact Hlen].
Defined.

End CommandFacts.

(** ** A bound on the progress lines *)

Module ProgressBound.
Import Progress Advance ProgressFacts Examples Samples.

Lemma advancing_from (p t p' t' : Z) (samples : list sample) :
  (p' <= p)%Z -> (t' <= t)%Z ->
  advancing p t samples -> advancing p' t' samples.
Proof.
  destruct samples as [|s rest]; cbn [advancing]; [auto|].
  intros Hp Ht (H1 & H2 & H3 & H4). repeat split; try lia. exact H4.
Qed.

Lemma logged_bound (P T : Z) (samples : list sample) :
  forall p t,
    advancing p t samples ->
    (forall s, In s samples -> (s_progress s <= P /\ s_time s <= T)%Z) ->
    (p <= P)%Z -> (t <= T)%Z ->
    (10000 * Z.of_nat (List.length (logged samples p t))
     <= 2000 * (P - p) + 5 * (T - t))%Z.
Proof.
  induction samples as [|s rest IH]; intros p t Hadv Hmax Hp Ht;
    cbn [logged List.length].
  - lia.
  - destruct Hadv as (H1 & H2 & H3 & Hrest).
    destruct (Hmax s (or_introl eq_refl)) as [HsP HsT].
    assert (Hmax' : forall s', In s' rest ->
                               (s_progress s' <= P /\ s_time s' <= T)%Z)
      by (intros s' Hs'; apply Hmax; now right).
    destruct (should_log (s_progress s) (s_time s) p t) eqn:Hlog.
    + apply should_log_iff in Hlog.
      specialize (IH _ _ Hrest Hmax' HsP HsT).
      cbn [List.length]. unfold PERCENTAGE_THRESHOLD, LOG_INTERVAL_MS in Hlog.
      lia.
    + assert (Hrest' : advancing p t rest)
        by (eapply advancing_from; [| |exact Hrest]; lia).
      specialize (IH _ _ Hrest' Hmax' Hp Ht). lia.
Qed.

(** X15.  The progress loop of a download is throttled.  On observations
    that advance (the percent and the clock never go back, the percent
    stays below 100), with a clock of at least 2000 ms at the first of
    them, the number [n] of progress lines satisfies
    [10000 * n <= 10000 + 2000 * dp + 5 * dt], where [dp] is the rise of
    the percent and [dt] the time in milliseconds from the first
    observation to bounds [P] and [T] of all of them: one line for the
    first observation, then at most one line per 5 percent plus one per
    2000 ms, however often the loop reads the download. *)
Theorem progress_lines_bound (file_name : str) (first : sample)
        (rest : list sample) (P T : Z) :
  (LOG_INTERVAL_MS <= s_time first)%Z ->
  (s_progress first < 100)%Z ->
  advancing (s_progress first) (s_time first) rest ->
  (forall s, In s rest -> (s_progress s <= P /\ s_time s <= T)%Z) ->
  (s_progress first <= P)%Z ->
  (s_time first <= T)%Z ->
  (10000 * Z.of_nat (List.length
                       (log_lines file_name (first :: rest) (-1) 0))
   <= 10000 + 2000 * (P - s_progress first) + 5 * (T - s_time first))%Z.
Proof.
  intros Ht0 Hp0 Hadv Hmax HP HT.
  unfold log_lines. rewrite length_map. cbn [logged].
  assert (Hlog : should_log (s_progress first) (s_time first) (-1) 0 = true).
  { unfold should_log, LOG_INTERVAL_MS in *.
    apply orb_true_iff; left. apply orb_true_iff; right.
    apply Z.leb_le. lia. }
  rewrite Hlog. cbn [List.length].
  pose proof (@logged_bound P T rest _ _ Hadv Hmax HP HT). lia.
Qed.

Lemma progress_lines_bound_witness :
  (10000 * Z.of_nat (List.length
                       (log_lines (py "ffmpeg") slow_samples (-1) 0))
   <= 10000 + 2000 * (6 - 0) + 5 * (start_ms + 2100 - start_ms))%Z.
Proof.
  refine (@progress_lines_bound (py "ffmpeg")
            {| s_progress := 0; s_time := start_ms; s_details := [] |}
            (tl slow_samples) 6%Z (start_ms + 2100)%Z _ _ _ _ _ _).
  - unfold LOG_INTERVAL_MS, start_ms; cbn [s_time]. lia.
  - cbn [s_progress]. lia.
  - unfold slow_samples, start_ms; cbn [tl List.map advancing s_progress s_time].
    lia.
  - unfold slow_samples, start_ms; cbn [tl List.map].
    intros s [<-|[<-|[<-|[]]]]; cbn [s_progress s_time]; lia.
  - cbn [s_progress]. lia.
  - unfold start_ms; cbn [s_time]. lia.
Defined.

End ProgressBound.

(** ** The safety checks of the Bash tool *)

Module BashSafety.
Import BashTool Examples.

Lemma startswith_mem (s p : str) (c : char) :
  startswith s p = true -> mem c p = true -> mem c s = true.
Proof.
  revert s; induction p as [|d p IH]; intros s; [discriminate|].
  destruct s as [|x s]; cbn [startswith]; [discriminate|].
  intros H. apply andb_true_iff in H as [Hx Hs].
  unfold mem in *. cbn [existsb]. intros Hc.
  apply orb_true_iff in Hc as [Hc|Hc].
  - unfold char_eqb in *. apply N.eqb_eq in Hx, Hc. subst.
    now rewrite N.eqb_refl.
  - rewrite (IH s Hs Hc). apply orb_true_r.
Qed.

Lemma contains_mem (s p : str) (c : char) :
  contains s p = true -> mem c p = true -> mem c s = true.
Proof.
  induction s as [|x s IH]; cbn [contains]; intros H Hc.
  - apply orb_true_iff in H as [H|H]; [|discriminate].
    eapply startswith_mem; eauto.
  - apply orb_true_iff in H as [H|H].
    + eapply startswith_mem; eauto.
    + unfold mem in *. cbn [existsb]. rewrite (IH H Hc). apply orb_true_r.
Qed.

(** Lower case text has no capital letter. *)
Lemma lower_no_capital {RT : PyRuntime} (s : str) (c : char) :
  forallb is_ascii s = true -> ascii_upper_letter c = true ->
  mem c (lower s) = false.
Proof.
  intros Hs Hc. unfold lower. rewrite Hs. clear Hs.
  unfold mem. induction s as [|x s IH]; cbn [List.map existsb];
    [reflexivity|].
  rewrite IH, orb_false_r. unfold char_eqb, ascii_lower.
  apply N.eqb_neq. unfold ascii_upper_letter in *.
  destruct ((65 <=? x)%N && (x <=? 90)%N) eqn:Hx;
    rewrite andb_true_iff, !N.leb_le in *;
    [|rewrite andb_false_iff, !N.leb_gt in Hx]; lia.
Qed.

Lemma existsb_incl {A} (f : A -> bool) (l l' : list A) :
  incl l l' -> existsb f l = true -> existsb f l' = true.
Proof.
  intros Hi H. apply existsb_exists in H as (x & Hx & Hf).
  apply existsb_exists. exists x. auto.
Qed.

Lemma critical_are_dangerous : incl critical_patterns dangerous_patterns.
Proof.
  unfold critical_patterns, dangerous_patterns.
  intros x [<-|[<-|[<-|[<-|[<-|[<-|[]]]]]]];
    repeat (first [left; reflexivity | right]).
Qed.

Lemma existsb_without {A} (f : A -> bool) (skip : A -> bool) (l : list A) :
  (forall x, skip x = true -> f x = false) ->
  existsb f l = existsb f (filter (fun x => negb (skip x)) l).
Proof.
  intros H. induction l as [|x l IH]; cbn [existsb filter]; [reflexivity|].
  destruct (skip x) eqn:Hx; cbn [negb existsb].
  - now rewrite (H x Hx), IH.
  - now rewrite IH.
Qed.

(** X16.  The two assessments of the Bash tool agree on the worst
    commands: every command rated [critical] by [get_command_risk_level] is
    refused by [is_safe_command].  The level is always one of [low],
    [medium], [high] and [critical], so [get_risk_description] never falls
    back to its default text. *)
Theorem critical_commands_are_unsafe {RT : PyRuntime} (command : str) :
  (get_command_risk_level command = py "critical" ->
   is_safe_command command = false)
  /\ In (get_command_risk_level command)
        [py "low"; py "medium"; py "high"; py "critical"]
  /\ get_risk_description command <> py "affect your system".
Proof.
  assert (Hlevel : In (get_command_risk_level command)
                      [py "low"; py "medium"; py "high"; py "critical"]).
  { unfold get_command_risk_level.
    destruct (existsb _ critical_patterns);
      destruct (existsb _ high_risk_patterns);
      destruct (existsb _ medium_risk_patterns);
      vm_compute; auto 10. }
  split; [|split; [exact Hlevel|]].
  - unfold get_command_risk_level, is_safe_command.
    destruct (existsb _ critical_patterns) eqn:Hc.
    + intros _. apply negb_false_iff.
      eapply existsb_incl; [apply critical_are_dangerous|exact Hc].
    + destruct (existsb _ high_risk_patterns);
        destruct (existsb _ medium_risk_patterns);
        vm_compute; discriminate.
  - unfold get_risk_description.
    repeat match goal with
           | |- (if ?b then _ else _) <> _ =>
               destruct b; [vm_compute; discriminate|]
           end.
    cbn [In] in Hlevel.
    destruct Hlevel as [<-|[<-|[<-|[<-|[]]]]]; vm_compute; discriminate.
Qed.

Lemma critical_commands_are_unsafe_witness :
  is_safe_command (RT := ascii_runtime) (py "sudo mkfs.ext4 /dev/sda1")
  = false.
Proof.
  apply (critical_commands_are_unsafe (RT := ascii_runtime)
           (py "sudo mkfs.ext4 /dev/sda1")).
  reflexivity.
Defined.

(** X17.  The patterns of the Bash tool are compared with the command in
    lower case, so a pattern with a capital letter never matches: for every
    ASCII command, [chown -R] is found by neither check.
    [is_safe_command] gives what it would give without that pattern, and
    accepts [chown -R root /], which [get_command_risk_level] rates
    [medium] (by the pattern [chown]) and not [high]. *)
Theorem capital_pattern_never_matches {RT : PyRuntime} (command : str) :
  forallb is_ascii command = true ->
  contains (lower command) (py "chown -R") = false
  /\ is_safe_command command
     = negb (existsb (fun pattern => contains (lower command) pattern)
               (filter (fun pattern => negb (eqb pattern (py "chown -R")))
                       dangerous_patterns))
  /\ is_safe_command (py "chown -R root /") = true
  /\ get_command_risk_level (py "chown -R root /") = py "medium".
Proof.
  intros Hascii.
  assert (Hdead : contains (lower command) (py "chown -R") = false).
  { destruct (contains (lower command) (py "chown -R")) eqn:Hc;
      [|reflexivity].
    apply contains_mem with (c := 82%N) in Hc; [|reflexivity].
    rewrite lower_no_capital in Hc; [discriminate|exact Hascii|reflexivity]. }
  split; [exact Hdead|]. split; [|split; reflexivity].
  unfold is_safe_command. f_equal.
  apply existsb_without with (skip := fun pattern => eqb pattern (py "chown -R")).
  intros x Hx. apply PyStrFacts.eqb_eq in Hx. subst x. exact Hdead.
Qed.

Lemma capital_pattern_never_matches_witness :
  contains (lower (RT := ascii_runtime) (py "CHOWN -R www-data /srv"))
           (py "chown -R")
  = false.
Proof.
  apply (capital_pattern_never_matches (RT := ascii_runtime)
           (py "CHOWN -R www-data /srv")).
  reflexivity.
Defined.

End BashSafety.

(** ** The results of the Bash tool *)

Module BashRun.
Import BaseTool Command BashTool WorldRelations ConfigFacts BinaryFacts
       AcquireFacts Examples Samples.

(** *** Decimal numerals *)

(** The characters of an unsigned decimal numeral. *)
Lemma numeral_chars (d : Decimal.uint) :
  Forall (fun c => ascii_digit c = true)
         (py (NilEmpty.string_of_uint d)).
Proof.
  induction d; cbn; constructor; solve [reflexivity | assumption].
Qed.

Section Value.
Variable unicode_digit : char -> Z.

Ltac digit_step :=
  cbv beta; unfold digit_value;
  match goal with
  | |- context [is_ascii ?c] =>
      let b := eval vm_compute in (is_ascii c) in
      change (is_ascii c) with b
  end;
  cbv iota;
  match goal with
  | |- context [Z.of_N ?c] =>
      let v := eval vm_compute in (Z.of_N c) in
      change (Z.of_N c) with v
  end;
  lia.

Lemma numeral_value_acc (d : Decimal.uint) :
  forall acc : positive,
    fold_left (fun value c =>
               (10 * value + digit_value unicode_digit c)%Z) (py (NilEmpty.string_of_uint d)) (Z.pos acc)
    = Z.pos (Pos.of_uint_acc d acc).
Proof.
  induction d; intros acc; cbn [NilEmpty.string_of_uint Pos.of_uint_acc];
    try reflexivity;
    unfold py in *; cbn [list_ascii_of_string List.map fold_left];
    (etransitivity; [|apply IHd]); f_equal; digit_step.
Qed.

Lemma numeral_value (d : Decimal.uint) :
  fold_left (fun value c =>
               (10 * value + digit_value unicode_digit c)%Z) (py (NilEmpty.string_of_uint d)) 0%Z
  = Z.of_N (Pos.of_uint d).
Proof.
  induction d; cbn [NilEmpty.string_of_uint Pos.of_uint];
    try reflexivity;
    unfold py in *; cbn [list_ascii_of_string List.map fold_left];
    first [ exact IHd
          | cbn [Z.of_N]; (etransitivity; [|apply numeral_value_acc]);
            f_equal; digit_step ].
Qed.

Lemma of_Z_value (p : positive) :
  fold_left (fun value c =>
               (10 * value + digit_value unicode_digit c)%Z) (of_Z (Z.pos p)) 0%Z = Z.pos p.
Proof.
  unfold of_Z. cbn [Z.to_int NilEmpty.string_of_int].
  rewrite numeral_value, DecimalPos.Unsigned.of_to. reflexivity.
Qed.

End Value.

Lemma of_Z_digits (p : positive) :
  Forall (fun c => ascii_digit c = true) (of_Z (Z.pos p))
  /\ of_Z (Z.pos p) <> [].
Proof.
  unfold of_Z. cbn [Z.to_int NilEmpty.string_of_int].
  split; [apply numeral_chars|].
  pose proof (Unsigned.to_uint_nonnil p) as Hn.
  destruct (Pos.to_uint p); try congruence; discriminate.
Qed.


(** *** Searching the message of a failed command *)

Lemma span_app (p : char -> bool) (a b : str) :
  forallb p a = true ->
  match b with [] => True | c :: _ => p c = false end ->
  span p (a ++ b) = (a, b).
Proof.
  intros Ha Hb. induction a as [|x a IH]; cbn [app span].
  - destruct b as [|c b]; [reflexivity|]. cbn [span]. now rewrite Hb.
  - cbn [forallb] in Ha. apply andb_true_iff in Ha as [Hx Ha].
    now rewrite Hx, (IH Ha).
Qed.

Lemma digits_decimal {RT : PyRuntime} (d : str) :
  Forall (fun c => ascii_digit c = true) d -> forallb isdecimal d = true.
Proof.
  induction 1 as [|c d Hc _ IH]; cbn [forallb]; [reflexivity|].
  rewrite IH, andb_true_r. unfold isdecimal, is_ascii.
  unfold ascii_digit in Hc. apply andb_true_iff in Hc as [H1 H2].
  apply N.leb_le in H1, H2.
  replace (c <? 128)%N with true by (symmetry; apply N.ltb_lt; lia).
  unfold ascii_digit. apply andb_true_iff. split; apply N.leb_le; lia.
Qed.

Section Message.
Context {RT : PyRuntime}.
Variable code : positive.
Variable line ending : str.
Hypothesis line_there : line <> [].
Hypothesis one_line : forallb VersionedName.dot line = true.
Hypothesis at_most_a_line_feed : ending = [] \/ ending = [10%N].

Lemma message_code :
  search exit_code_at
    (py "Command failed with exit code " ++ of_Z (Z.pos code) ++ py ": "
       ++ line ++ ending) = Some (of_Z (Z.pos code)).
Proof.
  destruct (of_Z_digits code) as [Hd Hne].
  assert (Hspan : span isdecimal
                       (of_Z (Z.pos code) ++ py ": " ++ line ++ ending)
                  = (of_Z (Z.pos code), py ": " ++ line ++ ending)).
  { apply span_app; [now apply digits_decimal|reflexivity]. }
  change (search exit_code_at
    (py "Command failed with exit code " ++ of_Z (Z.pos code) ++ py ": "
       ++ line ++ ending))
    with (search exit_code_at
            (py "exit code " ++ of_Z (Z.pos code) ++ py ": " ++ line
             ++ ending)).
  change (py "exit code " ++ of_Z (Z.pos code) ++ py ": " ++ line ++ ending)
    with (101%N :: py "xit code " ++ of_Z (Z.pos code) ++ py ": " ++ line
          ++ ending).
  cbn [search].
  change (exit_code_at
            (101%N :: py "xit code " ++ of_Z (Z.pos code) ++ py ": " ++ line
             ++ ending))
    with (match fst (span isdecimal
                          (of_Z (Z.pos code) ++ py ": " ++ line ++ ending))
          with
          | [] => None
          | c :: d => Some (c :: d)
          end).
  rewrite Hspan. cbn [fst].
  destruct (of_Z (Z.pos code)); [congruence|reflexivity].
Qed.

Lemma message_stderr :
  search exit_stderr_at
    (py "Command failed with exit code " ++ of_Z (Z.pos code) ++ py ": "
       ++ line ++ ending) = Some line.
Proof.
  destruct (of_Z_digits code) as [Hd Hne].
  assert (Hspan : span isdecimal
                       (of_Z (Z.pos code) ++ py ": " ++ line ++ ending)
                  = (of_Z (Z.pos code), py ": " ++ line ++ ending)).
  { apply span_app; [now apply digits_decimal|reflexivity]. }
  assert (Hline : span VersionedName.dot (line ++ ending) = (line, ending)).
  { apply span_app; [exact one_line|].
    destruct at_most_a_line_feed as [->| ->]; [exact I|reflexivity]. }
  change (search exit_stderr_at
    (py "Command failed with exit code " ++ of_Z (Z.pos code) ++ py ": "
       ++ line ++ ending))
    with (search exit_stderr_at
            (101%N :: py "xit code " ++ of_Z (Z.pos code) ++ py ": " ++ line
             ++ ending)).
  cbn [search].
  change (exit_stderr_at
            (101%N :: py "xit code " ++ of_Z (Z.pos code) ++ py ": " ++ line
             ++ ending))
    with (let (digits, r1) :=
            span isdecimal (of_Z (Z.pos code) ++ py ": " ++ line ++ ending)
          in
          match digits with
          | [] => None
          | _ :: _ =>
              match OsPath.strip_prefix (py ": ") r1 with
              | Some body =>
                  let (l, rest) := span VersionedName.dot body in
                  match l with
                  | [] => None
                  | c :: l' =>
                      if VersionedName.at_end rest then Some (c :: l')
                      else None
                  end
              | None => None
              end
          end).
  rewrite Hspan. cbv beta iota.
  destruct (of_Z (Z.pos code)) as [|c0 d0]; [congruence|].
  change (OsPath.strip_prefix (py ": ") (py ": " ++ line ++ ending))
    with (Some (line ++ ending)).
  cbv beta iota. rewrite Hline. cbv beta iota.
  destruct line as [|c l]; [congruence|].
  destruct at_most_a_line_feed as [->| ->]; reflexivity.
Qed.

End Message.

(** *** The command behind [execute_bash_command] *)

Section Run.
Context {RT : PyRuntime}.
Variable E : env.
Variable popen : nat -> list str -> child.
Variable cli_progress : bool.
Variable unicode_digit : char -> Z.

Lemma bash_exits (cmd : str) (cwd : option str) (timeout : option Z)
      (w : world) (ms rc : Z) (out err : str) :
  e_process E (S (S (w_tick w)))
            (command_string E (py "bash") [py "-c"; cmd])
  = Exits ms rc out err ->
  match timeout with
  | Some seconds => (seconds * 1000 <? ms)%Z = false
  | None => True
  end ->
  exists w',
    execute_command E popen TOOLKIT tool_name cli_progress
      {| co_binary_name := py "bash";
         co_args := [py "-c"; cmd];
         co_options :=
           Some {| opt_sync := Some true;
                   opt_timeout := timeout;
                   opt_cwd :=
                     Some (match cwd with
                           | Some (c :: d) => c :: d
                           | _ => e_cwd E
                           end) |};
         co_on_progress := None;
         co_on_output := None;
         co_skip_binary_download := true |} w
    = (if (rc =? 0)%Z then Ok out
       else Raise (Exception (py "Command failed with exit code "
                              ++ of_Z rc ++ py ": " ++ err)), w').
Proof.
  intros Hproc Htime. unfold execute_command, get_binary_path.
  cbn [co_binary_name co_args co_options co_on_progress co_on_output
       co_skip_binary_download opt_sync opt_timeout opt_cwd].
  unfold _execute_sync_command, subprocess_run, now_ms. mrun.
  cbn [opt_sync opt_timeout opt_cwd]. rewrite Hproc.
  destruct timeout as [seconds|]; [rewrite Htime|]; mrun;
    destruct (rc =? 0)%Z; mrun; eexists; reflexivity.
Qed.

Lemma bash_times_out (cmd : str) (cwd : option str) (seconds : Z)
      (w : world) (ms rc : Z) (out err : str) :
  e_process E (S (S (w_tick w)))
            (command_string E (py "bash") [py "-c"; cmd])
  = Exits ms rc out err ->
  (seconds * 1000 <? ms)%Z = true ->
  exists w',
    execute_command E popen TOOLKIT tool_name cli_progress
      {| co_binary_name := py "bash";
         co_args := [py "-c"; cmd];
         co_options :=
           Some {| opt_sync := Some true;
                   opt_timeout := Some seconds;
                   opt_cwd :=
                     Some (match cwd with
                           | Some (c :: d) => c :: d
                           | _ => e_cwd E
                           end) |};
         co_on_progress := None;
         co_on_output := None;
         co_skip_binary_download := true |} w
    = (Raise (Exception (py "Command timed out after " ++ of_Z seconds
                         ++ py "s")), w').
Proof.
  intros Hproc Htime. unfold execute_command, get_binary_path.
  cbn [co_binary_name co_args co_options co_on_progress co_on_output
       co_skip_binary_download opt_sync opt_timeout opt_cwd].
  unfold _execute_sync_command, subprocess_run, now_ms. mrun.
  cbn [opt_sync opt_timeout opt_cwd].
  rewrite Hproc, Htime. mrun. eexists; reflexivity.
Qed.

End Run.

(** X18.  The exit code and the error text of a failed command survive
    the detour through the message of the exception.  When the command
    given to [execute_bash_command] ends in time with a positive exit code
    (of at most 4300 digits) and a standard error of one non-empty line,
    with or without its final line feed, and the message built by
    [_execute_sync_command] does not contain [timed out] in any letter
    case, the result is unsuccessful with that exit code as [returncode]
    and that line, without the line feed, as [stderr]. *)
Theorem bash_failure_round_trip {RT : PyRuntime} (E : env)
        (popen : nat -> list str -> child) (cli_progress : bool)
        (unicode_digit : char -> Z) (cmd : str) (cwd : option str)
        (timeout : option Z) (w : world) (ms : Z) (code : positive)
        (out line ending : str) :
  e_process E (S (S (w_tick w)))
            (command_string E (py "bash") [py "-c"; cmd])
  = Exits ms (Z.pos code) out (line ++ ending) ->
  match timeout with
  | Some seconds => (seconds * 1000 <? ms)%Z = false
  | None => True
  end ->
  (List.length (of_Z (Z.pos code)) <= 4300)%nat ->
  line <> [] ->
  forallb VersionedName.dot line = true ->
  ending = [] \/ ending = [10%N] ->
  contains (lower (py "Command failed with exit code "
                   ++ of_Z (Z.pos code) ++ py ": " ++ line ++ ending))
           (py "timed out") = false ->
  fst (execute_bash_command E popen cli_progress unicode_digit cmd cwd
                            timeout w)
  = Ok {| success := false;
          stdout := py "";
          stderr := line;
          returncode := Z.pos code;
          command := cmd |}.
Proof.
  intros Hproc Htime Hlen Hline Hone Hend Hquiet.
  destruct (bash_exits E popen cli_progress cmd cwd timeout w Hproc Htime)
    as (w' & Hrun).
  cbn [Z.eqb] in Hrun.
  unfold execute_bash_command.
  erewrite try_raise; [|erewrite bind_raise; [reflexivity|exact Hrun]].
  cbn [exn_str]. rewrite Hquiet.
  assert (Hfailed : contains (py "Command failed with exit code "
                              ++ of_Z (Z.pos code) ++ py ": "
                              ++ line ++ ending)
                             (py "failed with exit code") = true)
    by reflexivity.
  rewrite Hfailed.
  rewrite (message_code code line ending),
          (message_stderr code Hline Hone Hend).
  unfold int.
  replace (4300 <? List.length (of_Z (Z.pos code)))%nat with false
    by (symmetry; apply Nat.ltb_ge; exact Hlen).
  rewrite of_Z_value. reflexivity.
Qed.

Lemma bash_failure_round_trip_witness :
  fst (execute_bash_command (RT := ascii_runtime)
         (env_with linux_host no_documents offline
                   (Exits 40 2 (py "")
                          (py "ls: cannot access 'x': No such file" ++ [10%N])))
         (fun _ _ => CannotStart (Exception (py "unused"))) false
         (fun _ => 0%Z) (py "ls x") None (Some 30%Z) empty_world)
  = Ok {| success := false;
          stdout := py "";
          stderr := py "ls: cannot access 'x': No such file";
          returncode := 2;
          command := py "ls x" |}.
Proof.
  apply (bash_failure_round_trip (RT := ascii_runtime)
           (env_with linux_host no_documents offline
                     (Exits 40 2 (py "")
                            (py "ls: cannot access 'x': No such file"
                             ++ [10%N])))
           (fun _ _ => CannotStart (Exception (py "unused"))) false
           (fun _ => 0%Z) (py "ls x") None (Some 30%Z) empty_world
           (ms := 40%Z) (code := 2%positive) (out := py "")
           (line := py "ls: cannot access 'x': No such file")
           (ending := [10%N]));
    try reflexivity.
  - vm_compute. lia.
  - discriminate.
  - right; reflexivity.
Defined.

(** X19.  [execute_bash_command] recognises a timeout by the words
    [timed out] in the message of the exception, so a command that fails
    in time with these words in its standard error is reported as timed
    out: the result has [returncode] -1, whatever the exit code was, and
    the [stderr] text [Command timed out after <timeout> seconds] in place
    of the error text; the timeout is printed as [None] when there is
    none. *)
Theorem bash_timeout_misread {RT : PyRuntime} (E : env)
        (popen : nat -> list str -> child) (cli_progress : bool)
        (unicode_digit : char -> Z) (cmd : str) (cwd : option str)
        (timeout : option Z) (w : world) (ms rc : Z) (out err : str) :
  e_process E (S (S (w_tick w)))
            (command_string E (py "bash") [py "-c"; cmd])
  = Exits ms rc out err ->
  match timeout with
  | Some seconds => (seconds * 1000 <? ms)%Z = false
  | None => True
  end ->
  rc <> 0%Z ->
  contains (lower (py "Command failed with exit code " ++ of_Z rc
                   ++ py ": " ++ err))
           (py "timed out") = true ->
  fst (execute_bash_command E popen cli_progress unicode_digit cmd cwd
                            timeout w)
  = Ok {| success := false;
          stdout := py "";
          stderr := py "Command timed out after " ++ format_timeout timeout
                    ++ py " seconds";
          returncode := -1;
          command := cmd |}.
Proof.
  intros Hproc Htime Hrc Hwords.
  destruct (bash_exits E popen cli_progress cmd cwd timeout w Hproc Htime)
    as (w' & Hrun).
  apply Z.eqb_neq in Hrc. rewrite Hrc in Hrun.
  unfold execute_bash_command.
  erewrite try_raise; [|erewrite bind_raise; [reflexivity|exact Hrun]].
  cbn [exn_str]. rewrite Hwords. reflexivity.
Qed.

Lemma bash_timeout_misread_witness :
  fst (execute_bash_command (RT := ascii_runtime)
         (env_with linux_host no_documents offline
                   (Exits 40 7 (py "")
                          (py "curl: (28) Connection timed out")))
         (fun _ _ => CannotStart (Exception (py "unused"))) false
         (fun _ => 0%Z) (py "curl example.com") None None empty_world)
  = Ok {| success := false;
          stdout := py "";
          stderr := py "Command timed out after None seconds";
          returncode := -1;
          command := py "curl example.com" |}.
Proof.
  apply (bash_timeout_misread (RT := ascii_runtime)
           (env_with linux_host no_documents offline
                     (Exits 40 7 (py "")
                            (py "curl: (28) Connection timed out")))
           (fun _ _ => CannotStart (Exception (py "unused"))) false
           (fun _ => 0%Z) (py "curl example.com") None None empty_world
           (ms := 40%Z) (rc := 7%Z) (out := py "")
           (err := py "curl: (28) Connection timed out"));
    try reflexivity.
  discriminate.
Defined.

Lemma of_Z_ascii (z : Z) : forallb is_ascii (of_Z z) = true.
Proof.
  assert (Hd : forall d, forallb is_ascii (py (NilEmpty.string_of_uint d))
                         = true).
  { intros d. pose proof (numeral_chars d) as H.
    induction H as [|c l Hc _ IH]; cbn [forallb]; [reflexivity|].
    rewrite IH, andb_true_r. unfold is_ascii.
    unfold ascii_digit in Hc. apply andb_true_iff in Hc as [_ H2].
    apply N.leb_le in H2. apply N.ltb_lt. lia. }
  unfold of_Z. destruct z as [|p|p]; cbn [Z.to_int NilEmpty.string_of_int].
  - reflexivity.
  - apply Hd.
  - change (py (String "-" (NilEmpty.string_of_uint (Pos.to_uint p))))
      with (45%N :: py (NilEmpty.string_of_uint (Pos.to_uint p))).
    cbn [forallb]. now rewrite Hd.
Qed.

(** X20.  How [execute_bash_command] reports a command that ends well and
    one that runs out of time.  A command that ends in time with exit code
    0 gives a successful result whose [stdout] is the standard output
    without the white space at its two ends.  A command still running
    after the timeout gives an unsuccessful result with [returncode] -1 and
    the [stderr] text [Command timed out after <timeout> seconds]: the
    message that [_execute_sync_command] raises for a timeout is
    recognised. *)
Theorem bash_success_and_timeout {RT : PyRuntime} (E : env)
        (popen : nat -> list str -> child) (cli_progress : bool)
        (unicode_digit : char -> Z) (cmd : str) (cwd : option str)
        (timeout : option Z) (w : world) (ms rc : Z) (out err : str) :
  e_process E (S (S (w_tick w)))
            (command_string E (py "bash") [py "-c"; cmd])
  = Exits ms rc out err ->
  let result :=
    fst (execute_bash_command E popen cli_progress unicode_digit cmd cwd
                              timeout w) in
  (match timeout with
   | Some seconds => (seconds * 1000 <? ms)%Z = false
   | None => True
   end ->
   rc = 0%Z ->
   result = Ok {| success := true;
                  stdout := strip out;
                  stderr := py "";
                  returncode := 0;
                  command := cmd |})
  /\ (forall seconds,
        timeout = Some seconds ->
        (seconds * 1000 <? ms)%Z = true ->
        result = Ok {| success := false;
                       stdout := py "";
                       stderr := py "Command timed out after "
                                 ++ of_Z seconds ++ py " seconds";
                       returncode := -1;
                       command := cmd |}).
Proof.
  intros Hproc. cbv zeta. split.
  - intros Htime ->.
    destruct (bash_exits E popen cli_progress cmd cwd timeout w Hproc Htime)
      as (w' & Hrun).
    cbn [Z.eqb] in Hrun.
    unfold execute_bash_command.
    erewrite try_ok; [reflexivity|].
    erewrite bind_ok; [reflexivity|exact Hrun].
  - intros seconds -> Htime.
    destruct (bash_times_out E popen cli_progress cmd cwd seconds w Hproc
                             Htime) as (w' & Hrun).
    unfold execute_bash_command.
    erewrite try_raise; [|erewrite bind_raise; [reflexivity|exact Hrun]].
    cbn [exn_str].
    assert (Hwords : contains (lower (py "Command timed out after "
                                      ++ of_Z seconds ++ py "s"))
                              (py "timed out") = true).
    { unfold lower.
      replace (forallb is_ascii (py "Command timed out after "
                                 ++ of_Z seconds ++ py "s")) with true.
      - rewrite map_app. reflexivity.
      - symmetry. rewrite !forallb_app, of_Z_ascii. reflexivity. }
    rewrite Hwords. reflexivity.
Qed.

Lemma bash_success_and_timeout_witness :
  fst (execute_bash_command (RT := ascii_runtime)
         (env_with linux_host no_documents offline sleep_5)
         (fun _ _ => CannotStart (Exception (py "unused"))) false
         (fun _ => 0%Z) (py "sleep 5") None (Some 3%Z) empty_world)
  = Ok {| success := false;
          stdout := py "";
          stderr := py "Command timed out after 3 seconds";
          returncode := -1;
          command := py "sleep 5" |}.
Proof.
  apply (proj2 (bash_success_and_timeout (RT := ascii_runtime)
                  (env_with linux_host no_documents offline sleep_5)
                  (fun _ _ => CannotStart (Exception (py "unused"))) false
                  (fun _ => 0%Z) (py "sleep 5") None (Some 3%Z) empty_world
                  (ms := 5000%Z) (rc := 0%Z) (out := py "") (err := py "")
                  eq_refl) 3%Z); reflexivity.
Defined.

End BashRun.

(** ** Reading versioned file names *)

Module NameFacts.
Import VersionedName FsFacts PruneFacts BinaryPathFacts Examples.

Section Matcher.
Context {RT : PyRuntime}.
Variable R : Type.

(** The lazy repetition stops at the first split that the rest of the
    pattern accepts. *)
Lemma lazy_reach (k : str -> str -> option R) (x : str) :
  forall acc s r,
    forallb dot x = true ->
    (forall x1 x2, x = x1 ++ x2 -> x2 <> [] ->
                   k (acc ++ x1) (x2 ++ s) = None) ->
    k (acc ++ x) s = Some r ->
    dot_star_lazy k acc (x ++ s) = Some r.
Proof.
  induction x as [|c x IH]; intros acc s r Hdot Hnone Hk.
  - rewrite app_nil_r in Hk. cbn [app].
    destruct s; cbn [dot_star_lazy]; now rewrite Hk.
  - cbn [forallb] in Hdot. apply andb_true_iff in Hdot as [Hc Hdot].
    assert (H0 : k acc (c :: x ++ s) = None).
    { pose proof (Hnone [] (c :: x) eq_refl) as H0.
      rewrite app_nil_r in H0. apply H0. discriminate. }
    cbn [app dot_star_lazy]. rewrite H0, Hc.
    apply IH; [exact Hdot| |].
    + intros x1 x2 Hx Hx2. rewrite <- app_assoc. cbn [app].
      apply (Hnone (c :: x1) x2); [now rewrite Hx|exact Hx2].
    + rewrite <- app_assoc. exact Hk.
Qed.

(** The greedy repetition takes all the digits when the rest of the
    pattern accepts that. *)
Lemma digits_star_all (k : str -> str -> option R) (d : str) :
  forall acc rest r,
    forallb isdecimal d = true ->
    match rest with c :: _ => isdecimal c = false | [] => True end ->
    k (acc ++ d) rest = Some r ->
    digits_star k acc (d ++ rest) = Some r.
Proof.
  induction d as [|c d IH]; intros acc rest r Hd Hrest Hk.
  - rewrite app_nil_r in Hk. cbn [app].
    destruct rest as [|x rest]; cbn [digits_star]; [exact Hk|].
    now rewrite Hrest.
  - cbn [forallb] in Hd. apply andb_true_iff in Hd as [Hc Hd].
    cbn [app digits_star]. rewrite Hc.
    rewrite (IH (acc ++ [c]) rest r Hd Hrest); [reflexivity|].
    now rewrite <- app_assoc.
Qed.

Lemma digits_plus_all (k : str -> str -> option R) (d rest : str) (r : R) :
  d <> [] ->
  forallb isdecimal d = true ->
  match rest with c :: _ => isdecimal c = false | [] => True end ->
  k d rest = Some r ->
  digits_plus k (d ++ rest) = Some r.
Proof.
  destruct d as [|c d]; [congruence|]. intros _ Hd Hrest Hk.
  cbn [forallb] in Hd. apply andb_true_iff in Hd as [Hc Hd].
  cbn [app digits_plus]. rewrite Hc.
  now apply digits_star_all.
Qed.

Lemma digits_plus_none (k : str -> str -> option R) (s : str) :
  match s with c :: _ => isdecimal c = false | [] => True end ->
  digits_plus k s = None.
Proof.
  destruct s as [|c s]; cbn [digits_plus]; [reflexivity|].
  now intros ->.
Qed.

End Matcher.

Lemma at_end_inv (s : str) :
  at_end s = true -> s = [] \/ s = [10%N].
Proof.
  destruct s as [|c [|d s]]; cbn [at_end]; auto; [|discriminate].
  unfold char_eqb. intros H. apply N.eqb_eq in H. subst. auto.
Qed.

Lemma exe_end_inv (s : str) :
  exe_end s = true ->
  s = [] \/ s = [10%N] \/ s = py ".exe" \/ s = py ".exe" ++ [10%N].
Proof.
  unfold exe_end.
  destruct (OsPath.strip_prefix (py ".exe") s) as [r|] eqn:Hs.
  - apply strip_prefix_app in Hs. subst s.
    intros H. apply orb_true_iff in H as [H|H];
      apply at_end_inv in H as [H|H]; try discriminate.
    + subst r. auto.
    + subst r. auto.
  - intros H. apply at_end_inv in H as [H|H]; auto.
Qed.

Lemma no_line_feed (x y : str) :
  forallb dot (x ++ y) = true -> ~ In 10%N y.
Proof.
  rewrite forallb_app. intros H. apply andb_true_iff in H as [_ H].
  intros Hin. rewrite forallb_forall in H. specialize (H _ Hin).
  discriminate.
Qed.

(** No proper suffix of a platform, with or without [.exe] after it, ends
    the match before the platform does. *)
Lemma platform_not_split (x1 x2 : str) (exe : bool) :
  x2 <> [] ->
  forallb dot (x1 ++ x2) = true ->
  (exe = false -> endswith (x1 ++ x2) (py ".exe") = false) ->
  exe_end (x2 ++ (if exe then py ".exe" else [])) = false.
Proof.
  intros Hne Hdot Hexe.
  destruct (exe_end _) eqn:He; [|reflexivity]. exfalso.
  pose proof (no_line_feed _ _ Hdot) as Hlf.
  apply exe_end_inv in He. destruct exe.
  - destruct He as [He|[He|[He|He]]].
    + destruct x2; discriminate.
    + destruct x2 as [|? [|? ?]]; discriminate.
    + apply (app_inv_tail (py ".exe") x2 []) in He. contradiction.
    + apply (f_equal (@rev char)) in He. rewrite rev_app_distr in He.
      discriminate.
  - rewrite app_nil_r in He. destruct He as [He|[He|[He|He]]].
    + contradiction.
    + subst x2. apply Hlf. now left.
    + subst x2. rewrite endswith_self in Hexe. now specialize (Hexe eq_refl).
    + subst x2. apply Hlf. apply in_or_app. right. now left.
Qed.

(** X21.  The pattern of versioned file names reads back what the naming
    scheme writes.  For a non-empty base name without a line feed in which
    no underscore is followed by a digit, three non-empty runs of decimal
    digits and a platform without a line feed, the name
    [<base>_<major>.<minor>.<patch>-<platform>.exe] parses to the base
    name, the version [<major>.<minor>.<patch>] and the platform; so does
    the name without [.exe], unless the platform itself ends in [.exe].
    The suffix of Windows executables is thus ignored when versions are
    compared. *)
Theorem parse_round_trip {RT : PyRuntime}
        (base major minor patch platform : str) :
  base <> [] ->
  forallb dot base = true ->
  (forall x1 x2, base = x1 ++ ch "_" :: x2 ->
                 match x2 with
                 | d :: _ => isdecimal d = false
                 | [] => True
                 end) ->
  major <> [] -> forallb isdecimal major = true ->
  minor <> [] -> forallb isdecimal minor = true ->
  patch <> [] -> forallb isdecimal patch = true ->
  forallb dot platform = true ->
  let stem :=
    base ++ py "_" ++ major ++ py "." ++ minor ++ py "." ++ patch
    ++ py "-" ++ platform in
  let parts :=
    Some (base, major ++ py "." ++ minor ++ py "." ++ patch, platform) in
  parse (stem ++ py ".exe") = parts
  /\ (endswith platform (py ".exe") = false -> parse stem = parts).
Proof.
  intros Hbase Hdot Hunder HM HMd Hm Hmd Hp Hpd Hplat. cbv zeta.
  assert (Hgen : forall exe : bool,
             (exe = false -> endswith platform (py ".exe") = false) ->
             parse (base ++ py "_" ++ major ++ py "." ++ minor ++ py "."
                    ++ patch ++ py "-" ++ platform
                    ++ (if exe then py ".exe" else []))
             = Some (base, major ++ py "." ++ minor ++ py "." ++ patch,
                     platform)).
  { intros exe Hexe. unfold parse.
    destruct base as [|b0 base']; [congruence|].
    cbn [forallb] in Hdot. apply andb_true_iff in Hdot as [Hb0 Hdot].
    cbn [app dot_plus_lazy]. rewrite Hb0.
    apply lazy_reach; [exact Hdot| |].
    - (* no earlier underscore starts a version *)
      intros x1 x2 Hx Hx2. destruct x2 as [|c x2]; [congruence|].
      cbn [app lit]. destruct (char_eqb c (ch "_")) eqn:Hc; [|reflexivity].
      unfold char_eqb in Hc. apply N.eqb_eq in Hc. subst c.
      apply digits_plus_none.
      specialize (Hunder (b0 :: x1) x2).
      rewrite Hx in Hunder. specialize (Hunder eq_refl).
      destruct x2 as [|d x2]; [reflexivity|exact Hunder].
    - change ([b0] ++ base') with (b0 :: base').
      change (py "_" ++ major ++ py "." ++ minor ++ py "." ++ patch
              ++ py "-" ++ platform ++ (if exe then py ".exe" else []))
        with (ch "_" :: major ++ py "." ++ minor ++ py "." ++ patch
              ++ py "-" ++ platform ++ (if exe then py ".exe" else [])).
      cbn [lit]. unfold char_eqb at 1. rewrite N.eqb_refl.
      apply digits_plus_all; [exact HM|exact HMd|reflexivity|].
      change (py "." ++ minor ++ py "." ++ patch ++ py "-" ++ platform
              ++ (if exe then py ".exe" else []))
        with (ch "." :: minor ++ py "." ++ patch ++ py "-" ++ platform
              ++ (if exe then py ".exe" else [])).
      cbn [lit]. unfold char_eqb at 1. rewrite N.eqb_refl.
      apply digits_plus_all; [exact Hm|exact Hmd|reflexivity|].
      change (py "." ++ patch ++ py "-" ++ platform
              ++ (if exe then py ".exe" else []))
        with (ch "." :: patch ++ py "-" ++ platform
              ++ (if exe then py ".exe" else [])).
      cbn [lit]. unfold char_eqb at 1. rewrite N.eqb_refl.
      apply digits_plus_all; [exact Hp|exact Hpd|reflexivity|].
      change (py "-" ++ platform ++ (if exe then py ".exe" else []))
        with (ch "-" :: platform ++ (if exe then py ".exe" else [])).
      cbn [lit]. unfold char_eqb at 1. rewrite N.eqb_refl.
      apply lazy_reach; [exact Hplat| |].
      + intros x1 x2 Hx Hx2.
        rewrite platform_not_split with (x1 := x1); auto;
          rewrite <- Hx; auto.
      + cbn [app]. destruct exe; reflexivity. }
  split.
  - rewrite <- !app_assoc. apply (Hgen true). discriminate.
  - intros Hexe. specialize (Hgen false (fun _ => Hexe)).
    rewrite app_nil_r in Hgen. exact Hgen.
Qed.

Lemma parse_round_trip_witness :
  parse (RT := ascii_runtime) (py "yt_dlp_2024.08.06-win-amd64.exe")
  = Some (py "yt_dlp", py "2024.08.06", py "win-amd64").
Proof.
  apply (@parse_round_trip ascii_runtime (py "yt_dlp") (py "2024")
           (py "08") (py "06") (py "win-amd64"));
    try reflexivity; try discriminate.
  intros x1 x2 Hx.
  destruct x1 as [|a [|b [|c [|d [|e [|f [|g x1]]]]]]];
    inversion Hx; subst; reflexivity.
Defined.

(** X22.  The pruning test is symmetric and irreflexive: whenever
    installing one file would delete another, installing the other would
    delete the first, and no file supersedes itself.  Versions are compared
    for equality only, so a newer version is deleted when an older one is
    installed. *)
Theorem superseded_symmetric {RT : PyRuntime} (a b : str) :
  superseded a b = superseded b a
  /\ superseded a a = false
  /\ superseded (py "ffmpeg_1.0.0-linux-x86_64")
                (py "ffmpeg_2.0.0-linux-x86_64") = true.
Proof.
  split; [|split].
  - unfold superseded.
    destruct (parse a) as [[[ba va] pa]|], (parse b) as [[[bb vb] pb]|];
      try reflexivity.
    now rewrite (PyStrFacts.eqb_sym bb ba), (PyStrFacts.eqb_sym pb pa),
      (PyStrFacts.eqb_sym vb va).
  - apply superseded_irrefl.
  - reflexivity.
Qed.

End NameFacts.

(** ** The Hugging Face mirror *)

Module MirrorFacts.
Import BaseTool WorldRelations ConfigFacts Examples.

Lemma contains_head (s p : str) :
  contains s p = false -> startswith s p = false.
Proof.
  destruct s; cbn [contains]; intros H;
    apply orb_false_iff in H as [H _]; exact H.
Qed.

(** Replacing a text that does not occur changes nothing. *)
Lemma replace_absent (s old new : str) :
  contains s old = false -> replace s old new = s.
Proof.
  unfold replace. induction s as [|c s IH]; intros H; [reflexivity|].
  cbn [replace_from]. rewrite (contains_head _ _ H).
  cbn [contains] in H. apply orb_false_iff in H as [_ H].
  now rewrite IH.
Qed.

Lemma contains_start (s p : str) :
  startswith s p = true -> contains s p = true.
Proof. destruct s; cbn [contains]; now intros ->. Qed.

Lemma contains_skip (a s p : str) :
  contains s p = true -> contains (a ++ s) p = true.
Proof.
  intros H. induction a as [|c a IH]; [exact H|].
  cbn [app contains]. rewrite IH. apply orb_true_r.
Qed.

Lemma replace_skip (old new x rest : str) :
  replace_from old new (List.length x) (x ++ rest)
  = replace_from old new 0 rest.
Proof.
  induction x as [|c x IH]; [reflexivity|].
  cbn [List.length app replace_from]. exact IH.
Qed.

(** Replacing at the head of a text. *)
Lemma replace_prefix (old new rest : str) :
  old <> [] ->
  replace (old ++ rest) old new = new ++ replace rest old new.
Proof.
  destruct old as [|c old]; [congruence|]. intros _. unfold replace.
  pose proof (SyncFacts.startswith_app (c :: old) rest) as Hs.
  cbn [app] in *. cbn [replace_from]. rewrite Hs.
  replace (List.length (c :: old) - 1)%nat with (List.length old)
    by (cbn [List.length]; lia).
  now rewrite replace_skip.
Qed.

(** X23.  [set_hugging_face_url] and the network.  A URL that does not
    mention [huggingface.co] is returned as it is without any request.
    Every other URL costs exactly one reachability request and nothing
    else; it is returned as it is when Hugging Face answers, and with every
    [https://huggingface.co] replaced by [https://hf-mirror.com] when it
    does not.  So a URL that mentions the host without that exact prefix,
    such as one with the scheme [http], is never redirected, and a URL
    that starts with the prefix starts with the mirror after the
    rewrite. *)
Theorem set_hugging_face_url_cases (E : env) (url : str) (w : world) :
  let run := set_hugging_face_url E url w in
  (contains url (py "huggingface.co") = false -> run = (Ok url, w))
  /\ (contains url (py "huggingface.co") = true ->
      snd run
      = {| w_fs := w_fs w; w_cache := w_cache w;
           w_events := Probe HUGGING_FACE_URL :: w_events w;
           w_tick := S (w_tick w) |}
      /\ fst run
         = Ok (if e_hf_reachable E (w_tick w) then url
               else replace url HUGGING_FACE_URL HUGGING_FACE_MIRROR_URL))
  /\ (contains url HUGGING_FACE_URL = false -> fst run = Ok url)
  /\ (forall rest,
         e_hf_reachable E (w_tick w) = false ->
         fst (set_hugging_face_url E (HUGGING_FACE_URL ++ rest) w)
         = Ok (HUGGING_FACE_MIRROR_URL
               ++ replace rest HUGGING_FACE_URL HUGGING_FACE_MIRROR_URL)).
Proof.
  cbv zeta. unfold set_hugging_face_url, can_access_hugging_face.
  split; [|split; [|split]].
  - intros ->. reflexivity.
  - intros ->. mrun. cbn [negb]. cbv beta iota. cbn [w_tick].
    destruct (e_hf_reachable E (w_tick w)) eqn:Hup; rewrite ?Hup;
      cbn [negb fst snd]; split; reflexivity.
  - intros Habsent. rewrite (replace_absent _ _ _ Habsent).
    destruct (negb (contains url (py "huggingface.co"))); [reflexivity|].
    mrun. cbn [negb]. cbv beta iota. cbn [w_tick].
    destruct (e_hf_reachable E (w_tick w)) eqn:Hup; rewrite ?Hup;
      reflexivity.
  - intros rest Hdown.
    assert (Hm : contains (HUGGING_FACE_URL ++ rest) (py "huggingface.co")
                 = true).
    { change (HUGGING_FACE_URL ++ rest)
        with (py "https://" ++ py "huggingface.co" ++ rest).
      apply contains_skip, contains_start, SyncFacts.startswith_app. }
    rewrite Hm. mrun. cbn [negb]. cbv beta iota. cbn [w_tick].
    rewrite Hdown. cbn [negb fst].
    rewrite replace_prefix by discriminate. reflexivity.
Qed.

Lemma set_hugging_face_url_cases_witness :
  set_hugging_face_url offline_video_env
    (py "https://example.com/models/decoder.onnx") empty_world
  = (Ok (py "https://example.com/models/decoder.onnx"), empty_world).
Proof.
  apply (set_hugging_face_url_cases offline_video_env
           (py "https://example.com/models/decoder.onnx") empty_world).
  reflexivity.
Defined.

End MirrorFacts.
